(* ===================================================================== *)
(*  PumpFun / PumpPortal trading bot: strategy pipeline, risk gate and   *)
(*  position ledger, embedded shallowly and checked against the          *)
(*  natural-language specification.                                      *)
(*                                                                       *)
(*  Source files embedded here:                                          *)
(*    src/core/portfolio.ts        (PortfolioManager)                    *)
(*    src/core/riskManager.ts      (RiskManager)                         *)
(*    src/core/strategyManager.ts  (StrategyManager)                     *)
(*    src/strategies/sniperStrategy.ts                                   *)
(*    src/strategies/momentumStrategy.ts                                 *)
(*    src/strategies/positionManagementStrategy.ts                       *)
(*    src/types/index.ts           (records and events)                  *)
(*                                                                       *)
(*  Modelling conventions.                                               *)
(*   - A TypeScript [number] holding a price, a quantity or a SOL amount *)
(*     is a rational [Q]: finite doubles without rounding.  NaN and the  *)
(*     infinities (hence division by zero) are outside the model.        *)
(*     Numeric results are compared with [==] (Qeq).                     *)
(*   - A [number] holding a millisecond time stamp or a duration is a    *)
(*     [Z].                                                              *)
(*   - Every reading of the clock ([Date.now()], [new Date()]) and every *)
(*     answer of the wallet is an explicit argument of the function that *)
(*     asks for it, in the order the source asks.                        *)
(*   - Mutable objects are threaded as explicit state: a method          *)
(*     [m(args)] of an object with state [s] becomes a function that     *)
(*     returns the result together with the new state.                   *)
(*   - Logging and [savePortfolio] (whose failure is caught and only     *)
(*     logged) do not change the in-memory state and are left out.       *)
(* ===================================================================== *)

From Stdlib Require Import QArith Qminmax Lqa ZArith Lia String Ascii Sorted.
From stdpp Require Import gmap strings list.

Open Scope Q_scope.

(* --------------------------------------------------------------------- *)
(*  Numbers                                                              *)
(* --------------------------------------------------------------------- *)

(** [a < b] on numbers, as a boolean. *)
Definition Qltb (a b : Q) : bool := negb (Qle_bool b a).

(** [a >= b] on numbers, as a boolean. *)
Definition Qgeb (a b : Q) : bool := Qle_bool b a.

(** [a > b] on numbers, as a boolean. *)
Definition Qgtb (a b : Q) : bool := negb (Qle_bool a b).

(** JavaScript truthiness of a finite number: everything but zero. *)
Definition truthy (a : Q) : bool := negb (Qeq_bool a 0).

(* --------------------------------------------------------------------- *)
(*  src/types/index.ts                                                   *)
(* --------------------------------------------------------------------- *)

Inductive Action : Type := buy | sell.

Inductive Status : Type := open | closed.

Definition Status_eqb (a b : Status) : bool :=
  match a, b with
  | open, open | closed, closed => true
  | _, _ => false
  end.

(** interface Position *)
Module Position.
Record t : Type := mk {
  mint : string;
  tokenName : string;
  tokenSymbol : string;
  entryPrice : Q;
  amount : Q;
  timestamp : Z;
  stopLoss : Q;
  takeProfit : Q;
  status : Status;
  exitPrice : option Q;
  pnl : option Q
}.
End Position.

(** interface Portfolio *)
Module Portfolio.
Record t : Type := mk {
  positions : list Position.t;
  totalInvestedSol : Q;
  realizedPnl : Q;
  unrealizedPnl : Q
}.
End Portfolio.

(** The part of [BotConfig] the core reads: [config.trading] and
    [config.riskManagement].  The singleton [config] is loaded from the
    environment once; it is a parameter of every function that reads it. *)
Module Config.
Record t : Type := mk {
  defaultSlippage : Q;
  defaultPriorityFee : Q;
  maxTradeAmountSol : Q;
  minTradeAmountSol : Q;
  stopLossPercentage : Q;
  takeProfitPercentage : Q;
  maxDailyTradingVolume : Q;
  maxPositionSizePercentage : Q
}.

(** The defaults of [loadConfig] (src/config/index.ts). *)
Definition default : t :=
  {| defaultSlippage := 1;
     defaultPriorityFee := 0.00001;
     maxTradeAmountSol := 0.5;
     minTradeAmountSol := 0.01;
     stopLossPercentage := 10;
     takeProfitPercentage := 20;
     maxDailyTradingVolume := 5;
     maxPositionSizePercentage := 5 |}.
End Config.

(** [TradeRequest.amount : number | string]: a SOL amount or a
    percentage-of-holdings directive such as ['100%']. *)
Inductive Amount : Type :=
  | AmountNumber (a : Q)
  | AmountString (s : string).

Inductive Pool : Type := pump | raydium | auto.

(** interface TradeRequest *)
Module TradeRequest.
Record t : Type := mk {
  action : Action;
  mint : string;
  amount : Amount;
  denominatedInSol : bool;
  slippage : Q;
  priorityFee : Q;
  pool : option Pool;
  skipPreflight : option bool
}.
End TradeRequest.

(** [NewTokenEvent.data] *)
Module NewTokenData.
Record t : Type := mk {
  mint : string;
  name : string;
  symbol : string;
  createdAt : Z;
  creatorAddress : string
}.
End NewTokenData.

(** [TokenTradeEvent.data] *)
Module TokenTradeData.
Record t : Type := mk {
  mint : string;
  action : Action;
  price : Q;
  amountSol : Q;
  trader : string;
  signature : string;
  timestamp : Z;
  symbol : option string
}.
End TokenTradeData.

(** [WebSocketEvent]: a [type] tag and its data.  The two event shapes the
    strategies read are constructors; any other [type] string is
    [otherEvent]. *)
Inductive WebSocketEvent : Type :=
  | newToken (d : NewTokenData.t)
  | tokenTrade (d : TokenTradeData.t)
  | otherEvent (type : string).

(** What a call that may throw gives back. *)
Inductive outcome (A : Type) : Type :=
  | Returned (a : A)
  | Threw (message : string).
Arguments Returned {A} a.
Arguments Threw {A} message.

(* --------------------------------------------------------------------- *)
(*  src/core/portfolio.ts : class PortfolioManager                       *)
(* --------------------------------------------------------------------- *)

Module PortfolioManager.
Import Position Portfolio.

(** The default portfolio of [loadPortfolio]. *)
Definition empty : Portfolio.t :=
  {| positions := []; totalInvestedSol := 0; realizedPnl := 0;
     unrealizedPnl := 0 |}.

(** [position => position.status === 'open'] *)
Definition isOpen (p : Position.t) : bool := Status_eqb (status p) open.

(** [position => position.mint === mint && position.status === 'open'] *)
Definition isOpenFor (m : string) (p : Position.t) : bool :=
  String.eqb (mint p) m && isOpen p.

Definition getOpenPositions (pf : Portfolio.t) : list Position.t :=
  List.filter isOpen (positions pf).

Definition getPositionsForToken (pf : Portfolio.t) (m : string)
  : list Position.t :=
  List.filter (fun p => String.eqb (mint p) m) (positions pf).

(** [openPositions.length > 0 ? openPositions[0] : null] *)
Definition getOpenPositionForToken (pf : Portfolio.t) (m : string)
  : option Position.t :=
  match List.filter (isOpenFor m) (positions pf) with
  | p :: _ => Some p
  | [] => None
  end.

(** The object [getOpenPositionForToken] returns is the first array
    element that passes the filter; assigning to its fields changes
    that element in place. *)
Fixpoint mutateFirst (test : Position.t -> bool)
    (f : Position.t -> Position.t) (l : list Position.t)
  : list Position.t :=
  match l with
  | [] => []
  | p :: rest =>
      if test p then f p :: rest else p :: mutateFirst test f rest
  end.

(** The assignments of the merge branch of [addPosition]. *)
Definition mergeInto (amount0 amountSol stopLossPercentage
    takeProfitPercentage : Q) (existing : Position.t) : Position.t :=
  let totalTokens := amount existing + amount0 in
  let totalCost := amount existing * entryPrice existing + amountSol in
  let newEntry := totalCost / totalTokens in
  {| mint := mint existing;
     tokenName := tokenName existing;
     tokenSymbol := tokenSymbol existing;
     entryPrice := newEntry;
     amount := totalTokens;
     timestamp := timestamp existing;
     stopLoss := newEntry * (1 - stopLossPercentage / 100);
     takeProfit := newEntry * (1 + takeProfitPercentage / 100);
     status := status existing;
     exitPrice := exitPrice existing;
     pnl := pnl existing |}.

(** [addPosition]; [now] is the reading of [Date.now()] that stamps a
    new position. *)
Definition addPosition (now : Z) (mint0 tokenName0 tokenSymbol0 : string)
    (entryPrice0 amount0 amountSol stopLossPercentage
       takeProfitPercentage : Q)
    (pf : Portfolio.t) : Position.t * Portfolio.t :=
  match getOpenPositionForToken pf mint0 with
  | Some existingPosition =>
      let updated :=
        mergeInto amount0 amountSol stopLossPercentage
          takeProfitPercentage existingPosition in
      (updated,
       {| positions :=
            mutateFirst (isOpenFor mint0)
              (mergeInto amount0 amountSol stopLossPercentage
                 takeProfitPercentage) (positions pf);
          totalInvestedSol := totalInvestedSol pf;
          realizedPnl := realizedPnl pf;
          unrealizedPnl := unrealizedPnl pf |})
  | None =>
      let newPosition :=
        {| mint := mint0;
           tokenName := tokenName0;
           tokenSymbol := tokenSymbol0;
           entryPrice := entryPrice0;
           amount := amount0;
           timestamp := now;
           stopLoss := entryPrice0 * (1 - stopLossPercentage / 100);
           takeProfit := entryPrice0 * (1 + takeProfitPercentage / 100);
           status := open;
           exitPrice := None;
           pnl := None |} in
      (newPosition,
       {| positions := positions pf ++ [newPosition];
          totalInvestedSol := totalInvestedSol pf + amountSol;
          realizedPnl := realizedPnl pf;
          unrealizedPnl := unrealizedPnl pf |})
  end.

(** The assignments of the "fully closed" branch of [closePosition]. *)
Definition markClosed (exitPrice0 pnl0 : Q) (p : Position.t) : Position.t :=
  {| mint := mint p; tokenName := tokenName p;
     tokenSymbol := tokenSymbol p; entryPrice := entryPrice p;
     amount := amount p; timestamp := timestamp p;
     stopLoss := stopLoss p; takeProfit := takeProfit p;
     status := closed;
     exitPrice := Some exitPrice0;
     pnl := Some pnl0 |}.

(** The assignment of the "partially closed" branch. *)
Definition reduceAmount (amountSold : Q) (p : Position.t) : Position.t :=
  {| mint := mint p; tokenName := tokenName p;
     tokenSymbol := tokenSymbol p; entryPrice := entryPrice p;
     amount := amount p - amountSold; timestamp := timestamp p;
     stopLoss := stopLoss p; takeProfit := takeProfit p;
     status := status p;
     exitPrice := exitPrice p;
     pnl := pnl p |}.

(** [closePosition]: [None] is the source's [null]. *)
Definition closePosition (mint0 : string)
    (exitPrice0 amountSold soldPercentage : Q) (pf : Portfolio.t)
  : option Position.t * Portfolio.t :=
  match getOpenPositionForToken pf mint0 with
  | None => (None, pf)
  | Some position =>
      let entryValueSol := entryPrice position * amountSold in
      let exitValueSol := exitPrice0 * amountSold in
      let pnl0 := exitValueSol - entryValueSol in
      if Qgeb soldPercentage 100 || Qgeb amountSold (amount position)
      then
        (Some (markClosed exitPrice0 pnl0 position),
         {| positions :=
              mutateFirst (isOpenFor mint0) (markClosed exitPrice0 pnl0)
                (positions pf);
            totalInvestedSol := totalInvestedSol pf;
            realizedPnl := realizedPnl pf + pnl0;
            unrealizedPnl := unrealizedPnl pf |})
      else
        (Some (reduceAmount amountSold position),
         {| positions :=
              mutateFirst (isOpenFor mint0) (reduceAmount amountSold)
                (positions pf);
            totalInvestedSol := totalInvestedSol pf;
            realizedPnl := realizedPnl pf + pnl0;
            unrealizedPnl := unrealizedPnl pf |})
  end.

(** The body of the loop of [updateUnrealizedPnl] for one position. *)
Definition positionPnl (tokenPrices : gmap string Q) (p : Position.t) : Q :=
  match tokenPrices !! mint p with
  | Some currentPrice =>
      if truthy currentPrice
      then currentPrice * amount p - entryPrice p * amount p
      else 0
  | None => 0
  end.

Definition updateUnrealizedPnl (tokenPrices : gmap string Q)
    (pf : Portfolio.t) : Portfolio.t :=
  let totalUnrealizedPnl :=
    fold_left (fun acc p => acc + positionPnl tokenPrices p)
      (getOpenPositions pf) 0 in
  {| positions := positions pf;
     totalInvestedSol := totalInvestedSol pf;
     realizedPnl := realizedPnl pf;
     unrealizedPnl := totalUnrealizedPnl |}.

Definition getTotalValue (pf : Portfolio.t) : Q :=
  totalInvestedSol pf + unrealizedPnl pf.

(** The number of open positions the ledger holds for a mint. *)
Definition openCount (pf : Portfolio.t) (m : string) : nat :=
  length (List.filter (isOpenFor m) (positions pf)).

(** The ledger invariant of the data model. *)
Definition atMostOneOpenPerMint (pf : Portfolio.t) : Prop :=
  forall m : string, (openCount pf m <= 1)%nat.

(** The body of the loop of [checkPositionsForExitSignals] for one
    position: the position is pushed once for a stop-loss hit and once
    more for a take-profit hit. *)
Definition exitSignals (tokenPrices : gmap string Q) (p : Position.t)
  : list Position.t :=
  match tokenPrices !! mint p with
  | Some currentPrice =>
      if truthy currentPrice then
        (if Qle_bool currentPrice (stopLoss p) then [p] else [])
        ++ (if Qgeb currentPrice (takeProfit p) then [p] else [])
      else []
  | None => []
  end.

Definition checkPositionsForExitSignals (tokenPrices : gmap string Q)
    (pf : Portfolio.t) : list Position.t :=
  flat_map (exitSignals tokenPrices) (getOpenPositions pf).
End PortfolioManager.


(* --------------------------------------------------------------------- *)
(*  src/core/riskManager.ts : class RiskManager                          *)
(* --------------------------------------------------------------------- *)

(** The time zone of the process, as the two ways in which ECMAScript's
    [Date] consults it: [LocalTime(t) = t + offsetAtUtc t] for a time
    value [t], and [UTC(t) = t - offsetAtLocal t] for a local time [t].
    Offsets are in milliseconds. *)
Module TimeZone.
Record t : Type := mk {
  offsetAtUtc : Z -> Z;
  offsetAtLocal : Z -> Z
}.

(** A zone that keeps one offset from UTC all year. *)
Definition fixed (offset : Z) : t :=
  {| offsetAtUtc := fun _ => offset; offsetAtLocal := fun _ => offset |}.

Definition utc : t := fixed 0.
End TimeZone.

(** What one risk-manager call can ask of [Date]: [Date.now()] in
    [checkDailyReset] and, when that decides to reset, [new Date()]
    in [resetDailyVolume], whose [setDate] works in the time zone of
    the process. *)
Module Clock.
Record t : Type := mk {
  dateNow : Z;
  newDate : Z;
  zone : TimeZone.t
}.

(** A clock of a process in the zone UTC whose two readings fall in
    the same millisecond. *)
Definition at_ (now : Z) : t :=
  {| dateNow := now; newDate := now; zone := TimeZone.utc |}.

(** The same in another zone. *)
Definition atIn (z : TimeZone.t) (now : Z) : t :=
  {| dateNow := now; newDate := now; zone := z |}.
End Clock.

(** What the wallet answers during one call: [getBalance()] (which
    yields 0 when the query fails) and [hasToken(mint)]. *)
Module Wallet.
Record t : Type := mk {
  getBalance : Q;
  hasToken : string -> bool
}.
End Wallet.

(** The text of a [RiskCheckResult.reason].  Each constructor is one of
    the source's message templates together with the numbers and names
    it interpolates. *)
Inductive Reason : Type :=
  | InsufficientBalance (balance needed : Q)
      (* `Insufficient balance: ${balance} SOL available,
          ${needed} SOL needed` *)
  | ExceedsDailyVolume (limit : Q)
      (* `Trade would exceed daily volume limit of ${limit} SOL` *)
  | BelowMinimum (solAmount minimum : Q)
      (* `Trade amount ${solAmount} SOL is below minimum of ${minimum} SOL` *)
  | AboveMaximum (solAmount maximum : Q)
      (* `Trade amount ${solAmount} SOL exceeds maximum of ${maximum} SOL` *)
  | ExceedsPositionSize (solAmount percentage maxPositionSize : Q)
      (* `Position size ${solAmount} SOL exceeds max allowed (...)` *)
  | TokenNotInWallet (mint : string).
      (* `Cannot sell token ${mint}: not found in wallet` *)

(** interface RiskCheckResult *)
Module RiskCheckResult.
Record t : Type := mk {
  allowed : bool;
  reason : option Reason
}.

Definition allow : t := {| allowed := true; reason := None |}.
Definition deny (r : Reason) : t := {| allowed := false; reason := Some r |}.
End RiskCheckResult.

Module RiskManager.
Import RiskCheckResult.

(** The mutable fields of the class.  Its [wallet] and
    [portfolioManager] are passed to the methods that consult them. *)
Record t : Type := mk {
  dailyTradingVolume : Q;
  dailyResetTimestamp : Z
}.

Definition MS_PER_DAY : Z := 86400000.

(** [tomorrow.setUTCHours(0, 0, 0, 0)]: the UTC midnight that starts
    the UTC day of [t]. *)
Definition setUTCHoursZero (t : Z) : Z := (t / MS_PER_DAY * MS_PER_DAY)%Z.

(** [tomorrow.setDate(tomorrow.getDate() + 1)].  [setDate] works on the
    local calendar: it takes the local time of [t], puts the next day
    number in place of the day of the month (MakeDay carries a day
    number past the end of the month over, so that the local time moves
    on by one day of 86 400 000 ms and keeps its time within the day)
    and converts that local time back to a time value. *)
Definition setDateNextDay (zone : TimeZone.t) (t : Z) : Z :=
  let localTime := (t + TimeZone.offsetAtUtc zone t)%Z in
  let newDate := (localTime + MS_PER_DAY)%Z in
  (newDate - TimeZone.offsetAtLocal zone newDate)%Z.

(** [tomorrow.getTime()] for a [new Date()] that reads [now]. *)
Definition tomorrow (zone : TimeZone.t) (now : Z) : Z :=
  setDateNextDay zone (setUTCHoursZero now).

Definition resetDailyVolume (clk : Clock.t) (rm : t) : t :=
  {| dailyTradingVolume := 0;
     dailyResetTimestamp := tomorrow (Clock.zone clk) (Clock.newDate clk) |}.

(** The constructor: fields initialised to 0, then [resetDailyVolume]. *)
Definition new (clk : Clock.t) : t :=
  resetDailyVolume clk
    {| dailyTradingVolume := 0; dailyResetTimestamp := 0 |}.

Definition checkDailyReset (clk : Clock.t) (rm : t) : t :=
  if (Clock.dateNow clk >=? dailyResetTimestamp rm)%Z
  then resetDailyVolume clk rm
  else rm.

Definition trackTradeVolume (clk : Clock.t) (solAmount : Q) (rm : t) : t :=
  let rm1 := checkDailyReset clk rm in
  {| dailyTradingVolume := dailyTradingVolume rm1 + solAmount;
     dailyResetTimestamp := dailyResetTimestamp rm1 |}.

Definition getDailyTradingVolume (clk : Clock.t) (rm : t) : Q * t :=
  let rm1 := checkDailyReset clk rm in
  (dailyTradingVolume rm1, rm1).

(** [gasFeeBuffer], the SOL reserved for fees. *)
Definition gasFeeBuffer : Q := 0.01.

(** The buy branch of [checkTrade], on the counter as it is after the
    lazy reset. *)
Definition checkBuy (cfg : Config.t) (balance portfolioValue
    dailyVolume solAmount : Q) : RiskCheckResult.t :=
  if Qltb balance (solAmount + gasFeeBuffer) then
    deny (InsufficientBalance balance (solAmount + gasFeeBuffer))
  else if Qgtb (dailyVolume + solAmount) (Config.maxDailyTradingVolume cfg)
  then deny (ExceedsDailyVolume (Config.maxDailyTradingVolume cfg))
  else if Qltb solAmount (Config.minTradeAmountSol cfg) then
    deny (BelowMinimum solAmount (Config.minTradeAmountSol cfg))
  else if Qgtb solAmount (Config.maxTradeAmountSol cfg) then
    deny (AboveMaximum solAmount (Config.maxTradeAmountSol cfg))
  else
    let maxPositionSize :=
      portfolioValue * (Config.maxPositionSizePercentage cfg / 100) in
    if Qgtb solAmount maxPositionSize then
      deny (ExceedsPositionSize solAmount
              (Config.maxPositionSizePercentage cfg) maxPositionSize)
    else allow.

Definition checkTrade (cfg : Config.t) (clk : Clock.t) (wallet : Wallet.t)
    (pf : Portfolio.t) (action : Action) (mint : string) (solAmount : Q)
    (rm : t) : RiskCheckResult.t * t :=
  let rm1 := checkDailyReset clk rm in
  match action with
  | buy =>
      (checkBuy cfg (Wallet.getBalance wallet)
         (PortfolioManager.getTotalValue pf)
         (dailyTradingVolume rm1) solAmount, rm1)
  | sell =>
      if negb (Wallet.hasToken wallet mint)
      then (deny (TokenNotInWallet mint), rm1)
      else (allow, rm1)
  end.

(** [Math.min] of the four constraints of [getOptimalTradeSize]. *)
Definition min4 (a b c d : Q) : Q := Qmin (Qmin (Qmin a b) c) d.

Definition getOptimalTradeSize (cfg : Config.t) (clk : Clock.t)
    (wallet : Wallet.t) (pf : Portfolio.t) (mint : string) (rm : t)
  : Q * t :=
  let balance := Wallet.getBalance wallet in
  let availableBalance := Qmax 0 (balance - gasFeeBuffer) in
  let portfolioValue := PortfolioManager.getTotalValue pf in
  let maxPositionSize :=
    portfolioValue * (Config.maxPositionSizePercentage cfg / 100) in
  let '(volume, rm1) := getDailyTradingVolume clk rm in
  let remainingDailyAllowance :=
    Config.maxDailyTradingVolume cfg - volume in
  let optimalSize :=
    min4 availableBalance maxPositionSize remainingDailyAllowance
      (Config.maxTradeAmountSol cfg) in
  if Qltb optimalSize (Config.minTradeAmountSol cfg) then (0, rm1)
  else
    match PortfolioManager.getOpenPositionForToken pf mint with
    | Some _ => (optimalSize * 0.5, rm1)
    | None => (optimalSize, rm1)
    end.
End RiskManager.


(* --------------------------------------------------------------------- *)
(*  Strings                                                              *)
(* --------------------------------------------------------------------- *)

(** Strings are the source's strings.  [String.prototype.toLowerCase]
    belongs to the runtime and folds the letters of all of Unicode; the
    code that calls it takes it as the argument
    [toLowerCase : string -> string]. *)

(** [text.includes(phrase)] *)
Fixpoint includes (text phrase : string) : bool :=
  String.prefix phrase text
  || match text with
     | EmptyString => false
     | String _ rest => includes rest phrase
     end.

(** JavaScript truthiness of an optional string: present and not empty. *)
Definition truthyString (s : option string) : bool :=
  match s with
  | Some (String _ _) => true
  | _ => false
  end.

(* --------------------------------------------------------------------- *)
(*  src/strategies/sniperStrategy.ts : class SniperStrategy              *)
(* --------------------------------------------------------------------- *)

(** A proposal of an entry strategy: the object literal at the end of
    [getTrade] of the sniper and of the momentum strategy. *)
Definition buyRequest (cfg : Config.t) (mint : string) (tradeAmount : Q)
  : TradeRequest.t :=
  {| TradeRequest.action := buy;
     TradeRequest.mint := mint;
     TradeRequest.amount := AmountNumber tradeAmount;
     TradeRequest.denominatedInSol := true;
     TradeRequest.slippage := Config.defaultSlippage cfg;
     TradeRequest.priorityFee := Config.defaultPriorityFee cfg;
     TradeRequest.pool := Some pump;
     TradeRequest.skipPreflight := Some false |}.

(** The sizing block shared by both entry strategies: optimal size, the
    default amount when that is zero, then the buy risk check.  [clk1]
    and [wallet1] answer [getOptimalTradeSize], [clk2] and [wallet2]
    answer [checkTrade].  [None] is the source's [return null]. *)
Definition sizeAndCheck (cfg : Config.t) (clk1 : Clock.t)
    (wallet1 : Wallet.t) (clk2 : Clock.t) (wallet2 : Wallet.t)
    (pf : Portfolio.t) (mint : string) (defaultTradeAmount : Q)
    (rm : RiskManager.t) : option Q * RiskManager.t :=
  let '(optimal, rm1) :=
    RiskManager.getOptimalTradeSize cfg clk1 wallet1 pf mint rm in
  let tradeAmount :=
    if Qeq_bool optimal 0 then defaultTradeAmount else optimal in
  let '(riskCheck, rm2) :=
    RiskManager.checkTrade cfg clk2 wallet2 pf buy mint tradeAmount rm1 in
  if negb (RiskCheckResult.allowed riskCheck) then (None, rm2)
  else (Some tradeAmount, rm2).

Module SniperStrategy.

Record t : Type := mk {
  isEnabled : bool;
  maxAgeMs : Z;
  blockedCreators : gset string;
  blockedPhrases : list string;
  minTradeAmount : Q;
  defaultTradeAmount : Q;
  processed : gset string
}.

(** Field initialisers of the class. *)
Definition new (cfg : Config.t) : t :=
  {| isEnabled := true;
     maxAgeMs := 30000;
     blockedCreators := ∅;
     blockedPhrases := [];
     minTradeAmount := Config.minTradeAmountSol cfg;
     defaultTradeAmount := 0.1;
     processed := ∅ |}.

(** The parameters [configure] looks at; [None] is [undefined] (for the
    two lists also: not an array).  [maxAgeSeconds] is a whole number of
    seconds. *)
Record Params : Type := mkParams {
  p_enabled : option bool;
  p_maxAgeSeconds : option Z;
  p_blockedCreators : option (list string);
  p_blockedPhrases : option (list string);
  p_defaultTradeAmount : option Q
}.

Definition configure (params : Params) (s : t) : t :=
  {| isEnabled := default (isEnabled s) (p_enabled params);
     maxAgeMs :=
       match p_maxAgeSeconds params with
       | Some sec => (sec * 1000)%Z
       | None => maxAgeMs s
       end;
     blockedCreators :=
       match p_blockedCreators params with
       | Some l => list_to_set l
       | None => blockedCreators s
       end;
     blockedPhrases := default (blockedPhrases s) (p_blockedPhrases params);
     minTradeAmount := minTradeAmount s;
     defaultTradeAmount :=
       default (defaultTradeAmount s) (p_defaultTradeAmount params);
     processed := processed s |}.

(** [this.processed.add(mint)] *)
Definition markProcessed (mint : string) (s : t) : t :=
  {| isEnabled := isEnabled s;
     maxAgeMs := maxAgeMs s;
     blockedCreators := blockedCreators s;
     blockedPhrases := blockedPhrases s;
     minTradeAmount := minTradeAmount s;
     defaultTradeAmount := defaultTradeAmount s;
     processed := {[ mint ]} ∪ processed s |}.

(** The loop over [blockedPhrases]. *)
Definition hasBlockedPhrase (toLowerCase : string -> string) (s : t)
    (name symbol : string) : bool :=
  let tokenText :=
    (toLowerCase name ++ String " "%char (toLowerCase symbol))%string in
  existsb (fun phrase => includes tokenText (toLowerCase phrase))
    (blockedPhrases s).

(** [shouldTrade]; [now] is the reading of [Date.now()] for the age. *)
Definition shouldTrade (toLowerCase : string -> string) (now : Z)
    (event : WebSocketEvent) (s : t) : bool * t :=
  if negb (isEnabled s) then (false, s)
  else
    match event with
    | newToken d =>
        let mint := NewTokenData.mint d in
        if bool_decide (mint ∈ processed s) then (false, s)
        else
          let ageMs := (now - NewTokenData.createdAt d)%Z in
          if (ageMs >? maxAgeMs s)%Z then (false, s)
          else if bool_decide (NewTokenData.creatorAddress d
                                 ∈ blockedCreators s)
          then (false, s)
          else if hasBlockedPhrase toLowerCase s (NewTokenData.name d)
                    (NewTokenData.symbol d)
          then (false, s)
          else (true, markProcessed mint s)
    | _ => (false, s)
    end.

(** [getTrade]: it reads the strategy's fields and changes only the risk
    manager (through the lazy daily reset). *)
Definition getTrade (cfg : Config.t) (clk1 : Clock.t) (wallet1 : Wallet.t)
    (clk2 : Clock.t) (wallet2 : Wallet.t) (pf : Portfolio.t)
    (event : WebSocketEvent) (s : t) (rm : RiskManager.t)
  : option TradeRequest.t * RiskManager.t :=
  match event with
  | newToken d =>
      let mint := NewTokenData.mint d in
      match sizeAndCheck cfg clk1 wallet1 clk2 wallet2 pf mint
              (defaultTradeAmount s) rm with
      | (Some tradeAmount, rm') => (Some (buyRequest cfg mint tradeAmount), rm')
      | (None, rm') => (None, rm')
      end
  | _ => (None, rm)
  end.
End SniperStrategy.


(* --------------------------------------------------------------------- *)
(*  src/strategies/momentumStrategy.ts : class MomentumStrategy          *)
(* --------------------------------------------------------------------- *)

(** interface TokenTrade *)
Module TokenTrade.
Record t : Type := mk {
  action : Action;
  price : Q;
  amountSol : Q;
  trader : string;
  timestamp : Z
}.
End TokenTrade.

(** interface TokenData *)
Module TokenData.
Record t : Type := mk {
  trades : list TokenTrade.t;
  lastBuyAttempt : Z;
  symbol : string
}.
End TokenData.

Module MomentumStrategy.
Import TokenData.

Record t : Type := mk {
  isEnabled : bool;
  tokenData : gmap string TokenData.t;
  lastCleanupTime : Z;
  cleanupIntervalMs : Z;
  minTradeCount : Z;
  timeWindowMs : Z;
  minVolumeThreshold : Q;
  priceIncreaseThreshold : Q;
  cooldownPeriodMs : Z;
  defaultTradeAmount : Q
}.

(** Field initialisers; [now] is the [Date.now()] of construction. *)
Definition new (now : Z) : t :=
  {| isEnabled := true;
     tokenData := ∅;
     lastCleanupTime := now;
     cleanupIntervalMs := 1000 * 60 * 5;
     minTradeCount := 5;
     timeWindowMs := 1000 * 60 * 5;
     minVolumeThreshold := 0.5;
     priceIncreaseThreshold := 5;
     cooldownPeriodMs := 1000 * 60 * 10;
     defaultTradeAmount := 0.1 |}.

(** The parameters [configure] looks at; [None] is [undefined].  The two
    durations are whole numbers of minutes. *)
Record Params : Type := mkParams {
  p_enabled : option bool;
  p_minTradeCount : option Z;
  p_timeWindowMinutes : option Z;
  p_minVolumeThreshold : option Q;
  p_priceIncreaseThreshold : option Q;
  p_cooldownPeriodMinutes : option Z;
  p_defaultTradeAmount : option Q
}.

Definition configure (params : Params) (s : t) : t :=
  {| isEnabled := default (isEnabled s) (p_enabled params);
     tokenData := tokenData s;
     lastCleanupTime := lastCleanupTime s;
     cleanupIntervalMs := cleanupIntervalMs s;
     minTradeCount := default (minTradeCount s) (p_minTradeCount params);
     timeWindowMs :=
       match p_timeWindowMinutes params with
       | Some m => (m * 60 * 1000)%Z
       | None => timeWindowMs s
       end;
     minVolumeThreshold :=
       default (minVolumeThreshold s) (p_minVolumeThreshold params);
     priceIncreaseThreshold :=
       default (priceIncreaseThreshold s) (p_priceIncreaseThreshold params);
     cooldownPeriodMs :=
       match p_cooldownPeriodMinutes params with
       | Some m => (m * 60 * 1000)%Z
       | None => cooldownPeriodMs s
       end;
     defaultTradeAmount :=
       default (defaultTradeAmount s) (p_defaultTradeAmount params) |}.

(** Replace the token map, keep every other field. *)
Definition withTokenData (td : gmap string TokenData.t) (s : t) : t :=
  {| isEnabled := isEnabled s;
     tokenData := td;
     lastCleanupTime := lastCleanupTime s;
     cleanupIntervalMs := cleanupIntervalMs s;
     minTradeCount := minTradeCount s;
     timeWindowMs := timeWindowMs s;
     minVolumeThreshold := minVolumeThreshold s;
     priceIncreaseThreshold := priceIncreaseThreshold s;
     cooldownPeriodMs := cooldownPeriodMs s;
     defaultTradeAmount := defaultTradeAmount s |}.

(** [data.trades.some(trade => trade.timestamp > cutoffTime)] *)
Definition hasRecentTrades (cutoffTime : Z) (data : TokenData.t) : bool :=
  existsb (fun trade => (TokenTrade.timestamp trade >? cutoffTime)%Z)
    (trades data).

(** [cleanupOldData]; [now] is its reading of [Date.now()]. *)
Definition cleanupOldData (now : Z) (s : t) : t :=
  if (now - lastCleanupTime s <? cleanupIntervalMs s)%Z then s
  else
    let cutoffTime := (now - timeWindowMs s - 60 * 60 * 1000)%Z in
    {| isEnabled := isEnabled s;
       tokenData :=
         filter (fun kv => hasRecentTrades cutoffTime kv.2 = true)
           (tokenData s);
       lastCleanupTime := now;
       cleanupIntervalMs := cleanupIntervalMs s;
       minTradeCount := minTradeCount s;
       timeWindowMs := timeWindowMs s;
       minVolumeThreshold := minVolumeThreshold s;
       priceIncreaseThreshold := priceIncreaseThreshold s;
       cooldownPeriodMs := cooldownPeriodMs s;
       defaultTradeAmount := defaultTradeAmount s |}.

(** One step of the stable sort with comparator
    [(a, b) => b.timestamp - a.timestamp]: [x] goes in front of the
    first element that is not strictly newer. *)
Fixpoint insertNewestFirst (x : TokenTrade.t) (l : list TokenTrade.t)
  : list TokenTrade.t :=
  match l with
  | [] => [x]
  | y :: rest =>
      if (TokenTrade.timestamp y >? TokenTrade.timestamp x)%Z
      then y :: insertNewestFirst x rest
      else x :: y :: rest
  end.

(** [trades.sort((a, b) => b.timestamp - a.timestamp)]: newest first,
    equal time stamps keep their order. *)
Definition sortNewestFirst (l : list TokenTrade.t) : list TokenTrade.t :=
  foldr insertNewestFirst [] l.

Definition maxTradeHistory : nat := 100.

(** The entry [updateTokenData] creates for a mint it has not seen. *)
Definition freshTokenData : TokenData.t :=
  {| trades := []; lastBuyAttempt := 0; symbol := EmptyString |}.

Definition updateTokenData (d : TokenTradeData.t) (s : t) : t :=
  let mint := TokenTradeData.mint d in
  let data0 := default freshTokenData (tokenData s !! mint) in
  let pushed :=
    trades data0 ++
      [ {| TokenTrade.action := TokenTradeData.action d;
           TokenTrade.price := TokenTradeData.price d;
           TokenTrade.amountSol := TokenTradeData.amountSol d;
           TokenTrade.trader := TokenTradeData.trader d;
           TokenTrade.timestamp := TokenTradeData.timestamp d |} ] in
  let sorted := sortNewestFirst pushed in
  let trimmed :=
    if (maxTradeHistory <? length sorted)%nat
    then take maxTradeHistory sorted else sorted in
  let data1 :=
    {| trades := trimmed;
       lastBuyAttempt := lastBuyAttempt data0;
       symbol :=
         if truthyString (TokenTradeData.symbol d)
         then default EmptyString (TokenTradeData.symbol d)
         else symbol data0 |} in
  withTokenData (<[ mint := data1 ]> (tokenData s)) s.

(** [data.trades.filter(trade => now - trade.timestamp < timeWindowMs)] *)
Definition recentTrades (now window : Z) (data : TokenData.t)
  : list TokenTrade.t :=
  List.filter (fun trade => (now - TokenTrade.timestamp trade <? window)%Z)
    (trades data).

(** [recentTrades.reduce((sum, trade) => sum + trade.amountSol, 0)] *)
Definition totalVolume (l : list TokenTrade.t) : Q :=
  fold_left (fun sum trade => sum + TokenTrade.amountSol trade) l 0.

(** [((newestPrice - oldestPrice) / oldestPrice) * 100], for an oldest
    price other than 0. *)
Definition priceIncrease (oldestPrice newestPrice : Q) : Q :=
  ((newestPrice - oldestPrice) / oldestPrice) * 100.

(** [priceIncrease < this.priceIncreaseThreshold].  With an oldest price
    of 0 the quotient is no number a rational stands for: it is
    Infinity for a positive newest price, NaN for a newest price of 0
    and -Infinity for a negative one, and of these only -Infinity is
    below the threshold. *)
Definition priceIncreaseBelow (oldestPrice newestPrice threshold : Q)
  : bool :=
  if Qeq_bool oldestPrice 0 then Qltb newestPrice 0
  else Qltb (priceIncrease oldestPrice newestPrice) threshold.

(** [data.lastBuyAttempt = now] *)
Definition stamp (now : Z) (data : TokenData.t) : TokenData.t :=
  {| trades := trades data; lastBuyAttempt := now; symbol := symbol data |}.

(** [checkMomentum]; [now] is its reading of [Date.now()], taken only
    when the mint has an entry.  Reading [.price] of an element of an
    empty [recentTrades] throws a TypeError. *)
Definition checkMomentum (now : Z) (mint : string) (s : t)
  : outcome bool * t :=
  match tokenData s !! mint with
  | None => (Returned false, s)
  | Some data =>
      if (now - lastBuyAttempt data <? cooldownPeriodMs s)%Z
      then (Returned false, s)
      else
        let recent := recentTrades now (timeWindowMs s) data in
        if (Z.of_nat (length recent) <? minTradeCount s)%Z
        then (Returned false, s)
        else if Qltb (totalVolume recent) (minVolumeThreshold s)
        then (Returned false, s)
        else
          match last recent, head recent with
          | Some oldest, Some newest =>
              if priceIncreaseBelow (TokenTrade.price oldest)
                   (TokenTrade.price newest) (priceIncreaseThreshold s)
              then (Returned false, s)
              else
                (Returned true,
                 withTokenData (<[ mint := stamp now data ]> (tokenData s)) s)
          | _, _ =>
              (Threw "Cannot read properties of undefined (reading 'price')",
               s)
          end
  end.

(** [shouldTrade]; [nowCleanup] and [nowMomentum] are the readings of
    [Date.now()] in [cleanupOldData] and in [checkMomentum]. *)
Definition shouldTrade (nowCleanup nowMomentum : Z)
    (event : WebSocketEvent) (s : t) : outcome bool * t :=
  if negb (isEnabled s) then (Returned false, s)
  else
    match event with
    | tokenTrade d =>
        let s1 := updateTokenData d s in
        let s2 := cleanupOldData nowCleanup s1 in
        checkMomentum nowMomentum (TokenTradeData.mint d) s2
    | _ => (Returned false, s)
    end.

(** [tokenData.trades.filter(trade => Date.now() - trade.timestamp <
    this.timeWindowMs)] in [getTrade]: the callback reads the clock once
    per trade; [clock i] is the reading made for the trade at index
    [i]. *)
Fixpoint recentTradesAt (clock : nat -> Z) (index : nat) (window : Z)
    (l : list TokenTrade.t) : list TokenTrade.t :=
  match l with
  | [] => []
  | trade :: rest =>
      if (clock index - TokenTrade.timestamp trade <? window)%Z
      then trade :: recentTradesAt clock (S index) window rest
      else recentTradesAt clock (S index) window rest
  end.

(** [getTrade].  The sizing block is inside the method's own [try]; the
    price figures for the log are computed after it, and reading
    [.price] of an element of an empty [recentTrades] there throws.
    [logClock] gives the clock readings of the filter for the log. *)
Definition getTrade (cfg : Config.t) (clk1 : Clock.t) (wallet1 : Wallet.t)
    (clk2 : Clock.t) (wallet2 : Wallet.t) (pf : Portfolio.t)
    (logClock : nat -> Z) (event : WebSocketEvent) (s : t)
    (rm : RiskManager.t)
  : outcome (option TradeRequest.t) * RiskManager.t :=
  match event with
  | tokenTrade d =>
      let mint := TokenTradeData.mint d in
      match tokenData s !! mint with
      | None => (Returned None, rm)
      | Some data =>
          match sizeAndCheck cfg clk1 wallet1 clk2 wallet2 pf mint
                  (defaultTradeAmount s) rm with
          | (None, rm') => (Returned None, rm')
          | (Some tradeAmount, rm') =>
              let recent :=
                recentTradesAt logClock 0 (timeWindowMs s) (trades data) in
              match last recent, head recent with
              | Some _, Some _ =>
                  (Returned (Some (buyRequest cfg mint tradeAmount)), rm')
              | _, _ =>
                  (Threw
                     "Cannot read properties of undefined (reading 'price')",
                   rm')
              end
          end
      end
  | _ => (Returned None, rm)
  end.
End MomentumStrategy.


(* --------------------------------------------------------------------- *)
(*  src/strategies/positionManagementStrategy.ts                         *)
(* --------------------------------------------------------------------- *)

Module PositionManagementStrategy.

Record t : Type := mk {
  isEnabled : bool;
  currentPrices : gmap string Q;
  lastProcessedTime : gmap string Z;
  minProcessingIntervalMs : Z
}.

(** Field initialisers of the class. *)
Definition new : t :=
  {| isEnabled := true;
     currentPrices := ∅;
     lastProcessedTime := ∅;
     minProcessingIntervalMs := 1000 * 10 |}.

(** The parameters [configure] looks at; the interval is a whole number
    of seconds. *)
Record Params : Type := mkParams {
  p_enabled : option bool;
  p_minProcessingIntervalSeconds : option Z
}.

Definition configure (params : Params) (s : t) : t :=
  {| isEnabled := default (isEnabled s) (p_enabled params);
     currentPrices := currentPrices s;
     lastProcessedTime := lastProcessedTime s;
     minProcessingIntervalMs :=
       match p_minProcessingIntervalSeconds params with
       | Some sec => (sec * 1000)%Z
       | None => minProcessingIntervalMs s
       end |}.

Definition updateTokenPrice (mint : string) (price : Q) (s : t) : t :=
  {| isEnabled := isEnabled s;
     currentPrices := <[ mint := price ]> (currentPrices s);
     lastProcessedTime := lastProcessedTime s;
     minProcessingIntervalMs := minProcessingIntervalMs s |}.

(** [shouldProcessToken]; [now] is its reading of [Date.now()]. *)
Definition shouldProcessToken (now : Z) (mint : string) (s : t)
  : bool * t :=
  let lastProcessed := default 0%Z (lastProcessedTime s !! mint) in
  if (now - lastProcessed <? minProcessingIntervalMs s)%Z then (false, s)
  else
    (true,
     {| isEnabled := isEnabled s;
        currentPrices := currentPrices s;
        lastProcessedTime := <[ mint := now ]> (lastProcessedTime s);
        minProcessingIntervalMs := minProcessingIntervalMs s |}).

Definition shouldExitPosition (position : Position.t) (currentPrice : Q)
  : bool :=
  if negb (Status_eqb (Position.status position) open) then false
  else if Qle_bool currentPrice (Position.stopLoss position) then true
  else if Qgeb currentPrice (Position.takeProfit position) then true
  else false.

(** [shouldTrade]; [now] is the reading of [Date.now()] made by
    [shouldProcessToken], [pf] the ledger of the portfolio manager. *)
Definition shouldTrade (now : Z) (pf : Portfolio.t)
    (event : WebSocketEvent) (s : t) : bool * t :=
  if negb (isEnabled s) then (false, s)
  else
    match event with
    | tokenTrade d =>
        let mint := TokenTradeData.mint d in
        let price := TokenTradeData.price d in
        let s1 := updateTokenPrice mint price s in
        match PortfolioManager.getOpenPositionForToken pf mint with
        | None => (false, s1)
        | Some position =>
            let '(ok, s2) := shouldProcessToken now mint s1 in
            if negb ok then (false, s2)
            else (shouldExitPosition position price, s2)
        end
    | _ => (false, s)
    end.

(** The proposal of the exit strategy: sell ['100%'] of the holdings. *)
Definition sellAllRequest (cfg : Config.t) (mint : string)
  : TradeRequest.t :=
  {| TradeRequest.action := sell;
     TradeRequest.mint := mint;
     TradeRequest.amount := AmountString "100%";
     TradeRequest.denominatedInSol := false;
     TradeRequest.slippage := Config.defaultSlippage cfg;
     TradeRequest.priorityFee := Config.defaultPriorityFee cfg;
     TradeRequest.pool := Some pump;
     TradeRequest.skipPreflight := Some false |}.

(** [getTrade]: the exit reason is computed for the log only. *)
Definition getTrade (cfg : Config.t) (clk : Clock.t) (wallet : Wallet.t)
    (pf : Portfolio.t) (event : WebSocketEvent) (rm : RiskManager.t)
  : option TradeRequest.t * RiskManager.t :=
  match event with
  | tokenTrade d =>
      let mint := TokenTradeData.mint d in
      match PortfolioManager.getOpenPositionForToken pf mint with
      | None => (None, rm)
      | Some position =>
          let '(riskCheck, rm1) :=
            RiskManager.checkTrade cfg clk wallet pf sell mint 0 rm in
          if negb (RiskCheckResult.allowed riskCheck) then (None, rm1)
          else (Some (sellAllRequest cfg mint), rm1)
      end
  | _ => (None, rm)
  end.

(** [updatePortfolioPnL]: the latest known prices go to the ledger. *)
Definition updatePortfolioPnL (s : t) (pf : Portfolio.t) : Portfolio.t :=
  PortfolioManager.updateUnrealizedPnl (currentPrices s) pf.
End PositionManagementStrategy.

(* --------------------------------------------------------------------- *)
(*  src/core/strategyManager.ts : class StrategyManager                  *)
(* --------------------------------------------------------------------- *)

Module StrategyManager.

(** interface TradingStrategy, over the state [W] of everything the
    strategies read and write (their own fields, the risk manager, the
    ledger, the clock and the wallet).  A method takes that state and
    gives back what it returned or that it threw, with the state it
    left behind. *)
Record TradingStrategy (W : Type) : Type := mkStrategy {
  name : string;
  isEnabled : W -> bool;
  shouldTrade : WebSocketEvent -> W -> outcome bool * W;
  getTrade : WebSocketEvent -> W -> outcome (option TradeRequest.t) * W
}.
Arguments mkStrategy {W}.
Arguments name {W}.
Arguments isEnabled {W}.
Arguments shouldTrade {W}.
Arguments getTrade {W}.

(** A method call made by [processEvent], recorded for the statements
    about which strategies were consulted: the position of the strategy
    in the list of enabled strategies and the method. *)
Inductive Call : Type :=
  | CallShouldTrade (index : nat)
  | CallGetTrade (index : nat).

(** What [processEvent] returns, the state afterwards, and the calls it
    made in order. *)
Record Run (W : Type) : Type := mkRun {
  result : option (TradingStrategy W * TradeRequest.t);
  final : W;
  calls : list Call
}.
Arguments mkRun {W}.
Arguments result {W}.
Arguments final {W}.
Arguments calls {W}.

(** [this.strategies.push(strategy)] *)
Definition registerStrategy {W : Type}
    (strategies : list (TradingStrategy W)) (strategy : TradingStrategy W)
  : list (TradingStrategy W) :=
  strategies ++ [strategy].

(** [this.strategies.filter(strategy => strategy.isEnabled)] *)
Definition getEnabledStrategies {W : Type}
    (strategies : list (TradingStrategy W)) (w : W)
  : list (TradingStrategy W) :=
  List.filter (fun strategy => isEnabled strategy w) strategies.

(** The [for] loop of [processEvent] from the strategy at position
    [index] on.  The [try] block covers both calls; [catch] only logs,
    and the loop goes on with the next strategy. *)
Fixpoint tryStrategies {W : Type} (event : WebSocketEvent)
    (index : nat) (enabled : list (TradingStrategy W)) (w : W) : Run W :=
  match enabled with
  | [] => mkRun None w []
  | strategy :: rest =>
      let next w' made :=
        let r := tryStrategies event (S index) rest w' in
        mkRun (result r) (final r) (made ++ calls r) in
      match shouldTrade strategy event w with
      | (Returned true, w1) =>
          match getTrade strategy event w1 with
          | (Returned (Some tradeRequest), w2) =>
              mkRun (Some (strategy, tradeRequest)) w2
                [CallShouldTrade index; CallGetTrade index]
          | (Returned None, w2) =>
              next w2 [CallShouldTrade index; CallGetTrade index]
          | (Threw _, w2) =>
              next w2 [CallShouldTrade index; CallGetTrade index]
          end
      | (Returned false, w1) => next w1 [CallShouldTrade index]
      | (Threw _, w1) => next w1 [CallShouldTrade index]
      end
  end.

Definition processEvent {W : Type} (strategies : list (TradingStrategy W))
    (event : WebSocketEvent) (w : W) : Run W :=
  tryStrategies event 0 (getEnabledStrategies strategies w) w.
End StrategyManager.

(* --------------------------------------------------------------------- *)
(*  src/index.ts : class TradingBot                                      *)
(* --------------------------------------------------------------------- *)

Module TradingBot.

(** The state [handleEvent] writes after the strategies have spoken: the
    ledger, the risk manager, and the bot's own map of last prices
    (filled by its [tokenTrade] listener). *)
Record t : Type := mk {
  portfolio : Portfolio.t;
  riskManager : RiskManager.t;
  tokenPrices : gmap string Q
}.

(** The bot's [tokenTrade] listener: it runs before [handleEvent],
    because the client emits the event under its type before it emits
    it as ['message']. *)
Definition recordPrice (event : WebSocketEvent) (bot : t) : t :=
  match event with
  | tokenTrade d =>
      {| portfolio := portfolio bot;
         riskManager := riskManager bot;
         tokenPrices :=
           <[ TokenTradeData.mint d := TokenTradeData.price d ]>
             (tokenPrices bot) |}
  | _ => bot
  end.

(** What [handleEvent] is told from outside while it settles a trade:
    the answer of [executeTrade], the clock readings of
    [trackTradeVolume] and of [addPosition], the answer of
    [getTokenBalance] ([None] is [null]) and the builtin [parseFloat]
    on the amount string. *)
Record Outside : Type := mkOutside {
  success : bool;
  trackClock : Clock.t;
  addClock : Z;
  tokenBalance : option Q;
  parseFloat : string -> Q
}.

(** [this.tokenPrices.get(mint) || 0] *)
Definition priceOf (bot : t) (mint : string) : Q :=
  match tokenPrices bot !! mint with
  | Some price => if truthy price then price else 0
  | None => 0
  end.

(** [typeof amount === 'number' ? amount : 0] *)
Definition numberOrZero (a : Amount) : Q :=
  match a with
  | AmountNumber x => x
  | AmountString _ => 0
  end.

(** [amount.endsWith('%')] *)
Fixpoint endsWithPercent (s : string) : bool :=
  match s with
  | EmptyString => false
  | String c EmptyString => Ascii.eqb c "%"%char
  | String _ rest => endsWithPercent rest
  end.

(** The block under [if (tradeResponse.success)]. *)
Definition settleSuccess (cfg : Config.t) (out : Outside)
    (tr : TradeRequest.t) (bot : t) : t :=
  let mint := TradeRequest.mint tr in
  (* Track trading volume for buys *)
  let rm1 :=
    match TradeRequest.action tr, TradeRequest.amount tr with
    | buy, AmountNumber a =>
        if TradeRequest.denominatedInSol tr
        then RiskManager.trackTradeVolume (trackClock out) a
               (riskManager bot)
        else riskManager bot
    | _, _ => riskManager bot
    end in
  (* Update portfolio for buys *)
  let pf1 :=
    match TradeRequest.action tr with
    | buy =>
        if TradeRequest.denominatedInSol tr then
          let price := priceOf bot mint in
          let amount := numberOrZero (TradeRequest.amount tr) in
          if Qgtb price 0 then
            (PortfolioManager.addPosition (addClock out) mint
               (substring 0 8 mint) (substring 0 4 mint) price
               (amount / price) amount (Config.stopLossPercentage cfg)
               (Config.takeProfitPercentage cfg) (portfolio bot)).2
          else portfolio bot
        else portfolio bot
    | sell => portfolio bot
    end in
  (* Update portfolio for sells *)
  let pf2 :=
    match TradeRequest.action tr with
    | sell =>
        let price := priceOf bot mint in
        if Qgtb price 0 then
          match tokenBalance out with
          | Some balance =>
              let percentageSold :=
                match TradeRequest.amount tr with
                | AmountString str =>
                    if endsWithPercent str then parseFloat out str else 100
                | AmountNumber _ => 100
                end in
              (PortfolioManager.closePosition mint price balance
                 percentageSold pf1).2
          | None => pf1
          end
        else pf1
    | buy => pf1
    end in
  {| portfolio := pf2; riskManager := rm1; tokenPrices := tokenPrices bot |}.

(** [handleEvent] after [processEvent] has answered with [result]
    ([None]: no proposal): settle the trade, then let the exit strategy,
    when it is registered ([exitStrategy] is what
    [getStrategy('Position Management')] finds), refresh the unrealized
    P&L from its prices. *)
Definition settle (cfg : Config.t) (out : Outside)
    (result : option TradeRequest.t)
    (exitStrategy : option PositionManagementStrategy.t) (bot : t) : t :=
  let bot1 :=
    match result with
    | Some tr => if success out then settleSuccess cfg out tr bot else bot
    | None => bot
    end in
  match exitStrategy with
  | Some strategy =>
      {| portfolio :=
           PositionManagementStrategy.updatePortfolioPnL strategy
             (portfolio bot1);
         riskManager := riskManager bot1;
         tokenPrices := tokenPrices bot1 |}
  | None => bot1
  end.
End TradingBot.

(* --------------------------------------------------------------------- *)
(*  src/index.ts : the strategies the bot registers                      *)
(* --------------------------------------------------------------------- *)

Module BotStrategies.
Import StrategyManager.

(** What the strategies read from outside while one event goes through
    the pipeline, one field per place that reads.  The sizing block of
    the sniper and that of the momentum strategy share their fields:
    no event reaches both. *)
Record Reads : Type := mkReads {
  toLowerCase : string -> string;  (* String.prototype.toLowerCase *)
  sniperNow : Z;               (* Date.now() in SniperStrategy.shouldTrade *)
  cleanupNow : Z;              (* Date.now() in cleanupOldData *)
  momentumNow : Z;             (* Date.now() in checkMomentum *)
  exitNow : Z;                 (* Date.now() in shouldProcessToken *)
  sizeClock : Clock.t;         (* getOptimalTradeSize *)
  sizeWallet : Wallet.t;
  checkClock : Clock.t;        (* checkTrade('buy', ...) *)
  checkWallet : Wallet.t;
  logClock : nat -> Z;         (* the filter for the log in getTrade *)
  sellClock : Clock.t;         (* checkTrade('sell', ...) *)
  sellWallet : Wallet.t
}.

(** The objects the three strategies share and own. *)
Record World : Type := mkWorld {
  reads : Reads;
  sniper : SniperStrategy.t;
  momentum : MomentumStrategy.t;
  exitStrategy : PositionManagementStrategy.t;
  ledger : Portfolio.t;
  risk : RiskManager.t
}.

Definition withSniper (s : SniperStrategy.t) (w : World) : World :=
  {| reads := reads w; sniper := s; momentum := momentum w;
     exitStrategy := exitStrategy w; ledger := ledger w; risk := risk w |}.

Definition withMomentum (s : MomentumStrategy.t) (w : World) : World :=
  {| reads := reads w; sniper := sniper w; momentum := s;
     exitStrategy := exitStrategy w; ledger := ledger w; risk := risk w |}.

Definition withExit (s : PositionManagementStrategy.t) (w : World)
  : World :=
  {| reads := reads w; sniper := sniper w; momentum := momentum w;
     exitStrategy := s; ledger := ledger w; risk := risk w |}.

Definition withRisk (rm : RiskManager.t) (w : World) : World :=
  {| reads := reads w; sniper := sniper w; momentum := momentum w;
     exitStrategy := exitStrategy w; ledger := ledger w; risk := rm |}.

(** [new SniperStrategy(this.riskManager)] as a [TradingStrategy]. *)
Definition sniperStrategy (cfg : Config.t) : TradingStrategy World :=
  {| name := "Sniper";
     isEnabled := fun w => SniperStrategy.isEnabled (sniper w);
     shouldTrade := fun event w =>
       let '(go, s) :=
         SniperStrategy.shouldTrade (toLowerCase (reads w))
           (sniperNow (reads w)) event (sniper w) in
       (Returned go, withSniper s w);
     getTrade := fun event w =>
       let '(proposal, rm) :=
         SniperStrategy.getTrade cfg (sizeClock (reads w))
           (sizeWallet (reads w)) (checkClock (reads w))
           (checkWallet (reads w)) (ledger w) event (sniper w)
           (risk w) in
       (Returned proposal, withRisk rm w) |}.

(** [new MomentumStrategy(this.riskManager)] as a [TradingStrategy]. *)
Definition momentumStrategy (cfg : Config.t) : TradingStrategy World :=
  {| name := "Momentum";
     isEnabled := fun w => MomentumStrategy.isEnabled (momentum w);
     shouldTrade := fun event w =>
       let '(answer, s) :=
         MomentumStrategy.shouldTrade (cleanupNow (reads w))
           (momentumNow (reads w)) event (momentum w) in
       (answer, withMomentum s w);
     getTrade := fun event w =>
       let '(answer, rm) :=
         MomentumStrategy.getTrade cfg (sizeClock (reads w))
           (sizeWallet (reads w)) (checkClock (reads w))
           (checkWallet (reads w)) (ledger w) (logClock (reads w)) event
           (momentum w) (risk w) in
       (answer, withRisk rm w) |}.

(** [new PositionManagementStrategy(this.portfolioManager,
    this.riskManager)] as a [TradingStrategy]. *)
Definition positionManagementStrategy (cfg : Config.t)
  : TradingStrategy World :=
  {| name := "Position Management";
     isEnabled := fun w =>
       PositionManagementStrategy.isEnabled (exitStrategy w);
     shouldTrade := fun event w =>
       let '(go, s) :=
         PositionManagementStrategy.shouldTrade (exitNow (reads w))
           (ledger w) event (exitStrategy w) in
       (Returned go, withExit s w);
     getTrade := fun event w =>
       let '(proposal, rm) :=
         PositionManagementStrategy.getTrade cfg (sellClock (reads w))
           (sellWallet (reads w)) (ledger w) event (risk w) in
       (Returned proposal, withRisk rm w) |}.

(** [registerStrategies]: sniper, momentum, position management, in
    this order. *)
Definition registerStrategies (cfg : Config.t)
  : list (TradingStrategy World) :=
  registerStrategy
    (registerStrategy (registerStrategy [] (sniperStrategy cfg))
       (momentumStrategy cfg))
    (positionManagementStrategy cfg).

Definition withLedger (pf : Portfolio.t) (w : World) : World :=
  {| reads := reads w; sniper := sniper w; momentum := momentum w;
     exitStrategy := exitStrategy w; ledger := pf; risk := risk w |}.

(** [handleEvent]: the event goes through the pipeline of the three
    strategies, then the proposal, if there is one, is executed and
    settled, and the unrealized P&L is refreshed.  The ledger and the
    risk manager the strategies work on are the bot's own objects;
    [getStrategy('Position Management')] finds the exit strategy,
    which is always registered.  [tokenPrices] is the bot's price map
    when the trade is settled. *)
Definition handleEvent (cfg : Config.t) (out : TradingBot.Outside)
    (tokenPrices : gmap string Q) (event : WebSocketEvent) (w : World)
  : World :=
  let r := processEvent (registerStrategies cfg) event w in
  let w1 := final r in
  let bot :=
    TradingBot.settle cfg out (snd <$> result r) (Some (exitStrategy w1))
      {| TradingBot.portfolio := ledger w1;
         TradingBot.riskManager := risk w1;
         TradingBot.tokenPrices := tokenPrices |} in
  withLedger (TradingBot.portfolio bot)
    (withRisk (TradingBot.riskManager bot) w1).
End BotStrategies.

(* --------------------------------------------------------------------- *)
(*  src/api/websocketClient.ts : class WebSocketClient                   *)
(* --------------------------------------------------------------------- *)

Module WebSocketClient.

(** The fields of the class.  [ws] tells whether [this.ws] holds a
    socket (is not null), [reconnectTimer] whether a timer object is
    stored. *)
Record t : Type := mk {
  ws : bool;
  reconnectAttempts : Z;
  reconnectTimer : bool;
  isReconnecting : bool;
  activeSubscriptions : gset string;
  subscribedTokens : gset string;
  subscribedAccounts : gset string
}.

(** What the socket library does when the client turns to it:
    [constructs] - [new WebSocket(...)] returns instead of throwing;
    [isOpen] - [readyState === WebSocket.OPEN]; [sends] - [ws.send]
    returns instead of throwing. *)
Record Socket : Type := mkSocket {
  constructs : bool;
  isOpen : bool;
  sends : bool
}.

(** [attemptReconnect]; [maxReconnectAttempts] is
    [config.websocket.maxReconnectAttempts], a whole number. *)
Definition attemptReconnect (maxReconnectAttempts : Z) (c : t) : t :=
  if isReconnecting c || (reconnectAttempts c >=? maxReconnectAttempts)%Z
  then c
  else
    {| ws := ws c;
       reconnectAttempts := reconnectAttempts c + 1;
       reconnectTimer := true;
       isReconnecting := true;
       activeSubscriptions := activeSubscriptions c;
       subscribedTokens := subscribedTokens c;
       subscribedAccounts := subscribedAccounts c |}.

Definition setupConnection (sock : Socket) (maxReconnectAttempts : Z)
    (c : t) : t :=
  if ws c || isReconnecting c then c
  else if constructs sock then
    {| ws := true;
       reconnectAttempts := reconnectAttempts c;
       reconnectTimer := reconnectTimer c;
       isReconnecting := isReconnecting c;
       activeSubscriptions := activeSubscriptions c;
       subscribedTokens := subscribedTokens c;
       subscribedAccounts := subscribedAccounts c |}
  else attemptReconnect maxReconnectAttempts c.

(** The constructor: field initialisers, then [setupConnection]. *)
Definition new (sock : Socket) (maxReconnectAttempts : Z) : t :=
  setupConnection sock maxReconnectAttempts
    {| ws := false;
       reconnectAttempts := 0;
       reconnectTimer := false;
       isReconnecting := false;
       activeSubscriptions := ∅;
       subscribedTokens := ∅;
       subscribedAccounts := ∅ |}.

(** The callback of the reconnect timer. *)
Definition reconnectTimerFires (sock : Socket) (maxReconnectAttempts : Z)
    (c : t) : t :=
  setupConnection sock maxReconnectAttempts
    {| ws := ws c;
       reconnectAttempts := reconnectAttempts c;
       reconnectTimer := reconnectTimer c;
       isReconnecting := false;
       activeSubscriptions := activeSubscriptions c;
       subscribedTokens := subscribedTokens c;
       subscribedAccounts := subscribedAccounts c |}.

(** [send]: whether the message went out. *)
Definition send (sock : Socket) (c : t) : bool :=
  if negb (ws c) || negb (isOpen sock) then false else sends sock.

Definition withSubscriptions (active tokens accounts : gset string)
    (c : t) : t :=
  {| ws := ws c;
     reconnectAttempts := reconnectAttempts c;
     reconnectTimer := reconnectTimer c;
     isReconnecting := isReconnecting c;
     activeSubscriptions := active;
     subscribedTokens := tokens;
     subscribedAccounts := accounts |}.

Definition subscribeToNewTokens (sock : Socket) (c : t) : bool * t :=
  let success := send sock c in
  if success then
    (success,
     withSubscriptions ({[ "subscribeNewToken"%string ]}
                        ∪ activeSubscriptions c)
       (subscribedTokens c) (subscribedAccounts c) c)
  else (success, c).

Definition unsubscribeFromNewTokens (sock : Socket) (c : t) : bool * t :=
  let success := send sock c in
  if success then
    (success,
     withSubscriptions (activeSubscriptions c
                        ∖ {[ "subscribeNewToken"%string ]})
       (subscribedTokens c) (subscribedAccounts c) c)
  else (success, c).

Definition subscribeToTokenTrades (sock : Socket)
    (tokenMints : list string) (c : t) : bool * t :=
  match tokenMints with
  | [] => (false, c)
  | _ =>
      let success := send sock c in
      if success then
        (success,
         withSubscriptions (activeSubscriptions c)
           (list_to_set tokenMints ∪ subscribedTokens c)
           (subscribedAccounts c) c)
      else (success, c)
  end.

Definition unsubscribeFromTokenTrades (sock : Socket)
    (tokenMints : list string) (c : t) : bool * t :=
  match tokenMints with
  | [] => (false, c)
  | _ =>
      let success := send sock c in
      if success then
        (success,
         withSubscriptions (activeSubscriptions c)
           (subscribedTokens c ∖ list_to_set tokenMints)
           (subscribedAccounts c) c)
      else (success, c)
  end.

Definition subscribeToAccountTrades (sock : Socket)
    (accounts : list string) (c : t) : bool * t :=
  match accounts with
  | [] => (false, c)
  | _ =>
      let success := send sock c in
      if success then
        (success,
         withSubscriptions (activeSubscriptions c) (subscribedTokens c)
           (list_to_set accounts ∪ subscribedAccounts c) c)
      else (success, c)
  end.

Definition unsubscribeFromAccountTrades (sock : Socket)
    (accounts : list string) (c : t) : bool * t :=
  match accounts with
  | [] => (false, c)
  | _ =>
      let success := send sock c in
      if success then
        (success,
         withSubscriptions (activeSubscriptions c) (subscribedTokens c)
           (subscribedAccounts c ∖ list_to_set accounts) c)
      else (success, c)
  end.

(** [resubscribe]; the three sends may meet the socket in three
    different states. *)
Definition resubscribe (sock1 sock2 sock3 : Socket) (c : t) : t :=
  let c1 :=
    if bool_decide ("subscribeNewToken"%string ∈ activeSubscriptions c)
    then (subscribeToNewTokens sock1 c).2 else c in
  let c2 :=
    if (0 <? size (subscribedTokens c1))%nat
    then (subscribeToTokenTrades sock2 (elements (subscribedTokens c1))
            c1).2
    else c1 in
  if (0 <? size (subscribedAccounts c2))%nat
  then (subscribeToAccountTrades sock3 (elements (subscribedAccounts c2))
          c2).2
  else c2.

(** [handleOpen] *)
Definition handleOpen (sock1 sock2 sock3 : Socket) (c : t) : t :=
  resubscribe sock1 sock2 sock3
    {| ws := ws c;
       reconnectAttempts := 0;
       reconnectTimer := reconnectTimer c;
       isReconnecting := isReconnecting c;
       activeSubscriptions := activeSubscriptions c;
       subscribedTokens := subscribedTokens c;
       subscribedAccounts := subscribedAccounts c |}.

(** [handleClose] *)
Definition handleClose (maxReconnectAttempts : Z) (c : t) : t :=
  attemptReconnect maxReconnectAttempts
    {| ws := false;
       reconnectAttempts := reconnectAttempts c;
       reconnectTimer := reconnectTimer c;
       isReconnecting := isReconnecting c;
       activeSubscriptions := activeSubscriptions c;
       subscribedTokens := subscribedTokens c;
       subscribedAccounts := subscribedAccounts c |}.

(** [close] *)
Definition close (c : t) : t :=
  {| ws := false;
     reconnectAttempts := reconnectAttempts c;
     reconnectTimer := false;
     isReconnecting := isReconnecting c;
     activeSubscriptions := activeSubscriptions c;
     subscribedTokens := subscribedTokens c;
     subscribedAccounts := subscribedAccounts c |}.
End WebSocketClient.

(* --------------------------------------------------------------------- *)
(*  Definitions the statements use                                       *)
(* --------------------------------------------------------------------- *)

Section LedgerScenarios.
Import Position Portfolio PortfolioManager.

(** The ledger operations, for statements about every sequence of
    them. *)
Inductive LedgerOp : Type :=
  | OpAdd (now : Z) (mint tokenName tokenSymbol : string)
      (price quantity solAmount stopLossPct takeProfitPct : Q)
  | OpClose (mint : string) (exitPrice quantitySold percentSold : Q)
  | OpRefresh (prices : gmap string Q).

Definition applyOp (pf : Portfolio.t) (op : LedgerOp) : Portfolio.t :=
  match op with
  | OpAdd now m tn ts price q sol sl tp =>
      (addPosition now m tn ts price q sol sl tp pf).2
  | OpClose m ex sold pct => (closePosition m ex sold pct pf).2
  | OpRefresh prices => updateUnrealizedPnl prices pf
  end.

(** The ledger after the first buy of scenario 2: 100 units of [A] at
    1.0 for 100 SOL. *)
Definition ledgerAfterFirstBuy : Portfolio.t :=
  (addPosition 1000 "A" "A" "A" 1 100 100 10 20 empty).2.
End LedgerScenarios.

Section RiskScenarios.
Import RiskManager.

(** The most restrictive of the four constraints as
    [getOptimalTradeSize] computes it: the balance term is
    [Math.max(0, balance - gasFeeBuffer)]. *)
Definition sizeLimit (cfg : Config.t) (balance portfolioValue
    dailyVolume : Q) : Q :=
  min4 (Qmax 0 (balance - gasFeeBuffer))
    (portfolioValue * (Config.maxPositionSizePercentage cfg / 100))
    (Config.maxDailyTradingVolume cfg - dailyVolume)
    (Config.maxTradeAmountSol cfg).

(** The same minimum as the specification words it: the balance term is
    [balance - feeBuffer]. *)
Definition specSizeLimit (cfg : Config.t) (balance portfolioValue
    dailyVolume : Q) : Q :=
  min4 (balance - gasFeeBuffer)
    (portfolioValue * (Config.maxPositionSizePercentage cfg / 100))
    (Config.maxDailyTradingVolume cfg - dailyVolume)
    (Config.maxTradeAmountSol cfg).

(** A wallet that holds no SOL and no token (also what the bot sees
    when the balance query fails). *)
Definition emptyWallet : Wallet.t :=
  {| Wallet.getBalance := 0; Wallet.hasToken := fun _ => false |}.

(** A wallet with [balance] SOL that holds the tokens of [held]. *)
Definition walletWith (balance : Q) (held : list string) : Wallet.t :=
  {| Wallet.getBalance := balance;
     Wallet.hasToken := fun mint => bool_decide (mint ∈ held) |}.

(** The configuration of scenario 1: the defaults with a daily cap of
    3 SOL. *)
Definition scenarioConfig : Config.t :=
  {| Config.defaultSlippage := 1;
     Config.defaultPriorityFee := 0.00001;
     Config.maxTradeAmountSol := 0.5;
     Config.minTradeAmountSol := 0.01;
     Config.stopLossPercentage := 10;
     Config.takeProfitPercentage := 20;
     Config.maxDailyTradingVolume := 3;
     Config.maxPositionSizePercentage := 5 |}.

(** A portfolio worth 2 SOL with no position. *)
Definition portfolioWorthTwo : Portfolio.t :=
  {| Portfolio.positions := [];
     Portfolio.totalInvestedSol := 2;
     Portfolio.realizedPnl := 0;
     Portfolio.unrealizedPnl := 0 |}.

(** The calls that touch the daily volume counter. *)
Inductive VolumeCall : Type :=
  | CallTrackTradeVolume (clk : Clock.t) (solAmount : Q)
  | CallGetDailyTradingVolume (clk : Clock.t)
  | CallCheckTrade (cfg : Config.t) (clk : Clock.t) (wallet : Wallet.t)
      (pf : Portfolio.t) (action : Action) (mint : string) (solAmount : Q).

Definition applyCall (rm : RiskManager.t) (c : VolumeCall) : RiskManager.t :=
  match c with
  | CallTrackTradeVolume clk solAmount => trackTradeVolume clk solAmount rm
  | CallGetDailyTradingVolume clk => (getDailyTradingVolume clk rm).2
  | CallCheckTrade cfg clk wallet pf action mint solAmount =>
      (checkTrade cfg clk wallet pf action mint solAmount rm).2
  end.

(** The clock readings of a call. *)
Definition callClock (c : VolumeCall) : Clock.t :=
  match c with
  | CallTrackTradeVolume clk _ => clk
  | CallGetDailyTradingVolume clk => clk
  | CallCheckTrade _ clk _ _ _ _ _ => clk
  end.

(** What a call adds to the counter. *)
Definition trackedAmount (c : VolumeCall) : Q :=
  match c with
  | CallTrackTradeVolume _ solAmount => solAmount
  | _ => 0
  end.

(** The counter as the call uses it: what [getDailyTradingVolume]
    returns, what the daily-cap check of [checkTrade] reads, what
    [trackTradeVolume] adds to. *)
Definition volumeUsed (rm : RiskManager.t) (c : VolumeCall) : Q :=
  dailyTradingVolume (checkDailyReset (callClock c) rm).

Definition MS_PER_HOUR : Z := 3600000.

(** Daylight saving time in the zone America/New_York in 2023 and 2024:
    from 2023-03-12T07:00Z to 2023-11-05T06:00Z and from
    2024-03-10T07:00Z to 2024-11-03T06:00Z. *)
Definition newYorkDaylightTime (t : Z) : bool :=
  ((1678604400000 <=? t) && (t <? 1699164000000)
   || (1710054000000 <=? t) && (t <? 1730613600000))%Z.

(** The zone America/New_York in those two years: four hours behind UTC
    in daylight saving time, five hours otherwise.  A local time is in
    daylight saving time from 03:00 on the day it starts until 02:00 on
    the day it ends. *)
Definition newYork : TimeZone.t :=
  {| TimeZone.offsetAtUtc := fun t =>
       if newYorkDaylightTime t then (-4 * MS_PER_HOUR)%Z
       else (-5 * MS_PER_HOUR)%Z;
     TimeZone.offsetAtLocal := fun t =>
       if newYorkDaylightTime (t + 4 * MS_PER_HOUR)
       then (-4 * MS_PER_HOUR)%Z
       else (-5 * MS_PER_HOUR)%Z |}.

(** 2023-11-05T12:00Z, the day daylight saving time ends, with the UTC
    midnight that follows and half an hour after it. *)
Definition autumnNoon : Z := 1699185600000.
Definition autumnMidnight : Z := 1699228800000.
Definition autumnHalfPastMidnight : Z := 1699230600000.

(** 2024-03-10T12:00Z, the day daylight saving time starts, with 23:00Z,
    23:10Z and 23:20Z of that day and the UTC midnight that follows. *)
Definition springNoon : Z := 1710072000000.
Definition springElevenPm : Z := 1710111600000.
Definition springTenPastEleven : Z := 1710112200000.
Definition springTwentyPastEleven : Z := 1710112800000.
Definition springMidnight : Z := 1710115200000.
End RiskScenarios.

Section SniperScenarios.

(** What the sniper strategy is asked to do, one step at a time: a
    reconfiguration, or an event handed to [shouldTrade] and, when that
    accepts, to [getTrade].  A step carries what the calls read from
    outside: the clock for the age check and, for [getTrade], the clock
    and wallet answers of the two risk-manager calls and the ledger. *)
Inductive SniperStep : Type :=
  | StepConfigure (params : SniperStrategy.Params)
  | StepEvent (now : Z) (event : WebSocketEvent)
      (clk1 : Clock.t) (wallet1 : Wallet.t)
      (clk2 : Clock.t) (wallet2 : Wallet.t) (pf : Portfolio.t).

(** What an event step did: [shouldTrade] accepted or not and, when it
    accepted, the proposal [getTrade] came back with. *)
Inductive SniperOutcome : Type :=
  | Declined
  | Accepted (proposal : option TradeRequest.t).

(** The mint of the token an event is about. *)
Definition eventMint (event : WebSocketEvent) : option string :=
  match event with
  | newToken d => Some (NewTokenData.mint d)
  | tokenTrade d => Some (TokenTradeData.mint d)
  | otherEvent _ => None
  end.

(** One step: the new strategy state, the new risk-manager state and,
    for an event, the event with what was done about it. *)
Definition sniperStep (toLowerCase : string -> string) (cfg : Config.t)
    (step : SniperStep) (s : SniperStrategy.t) (rm : RiskManager.t)
  : SniperStrategy.t * RiskManager.t
    * option (WebSocketEvent * SniperOutcome) :=
  match step with
  | StepConfigure params => (SniperStrategy.configure params s, rm, None)
  | StepEvent now event clk1 wallet1 clk2 wallet2 pf =>
      let '(go, s') :=
        SniperStrategy.shouldTrade toLowerCase now event s in
      if go then
        let '(proposal, rm') :=
          SniperStrategy.getTrade cfg clk1 wallet1 clk2 wallet2 pf event
            s' rm in
        (s', rm', Some (event, Accepted proposal))
      else (s', rm, Some (event, Declined))
  end.

(** A sequence of steps: the final states and the log of the events. *)
Fixpoint sniperRun (toLowerCase : string -> string) (cfg : Config.t)
    (steps : list SniperStep) (s : SniperStrategy.t) (rm : RiskManager.t)
  : SniperStrategy.t * RiskManager.t
    * list (WebSocketEvent * SniperOutcome) :=
  match steps with
  | [] => (s, rm, [])
  | step :: rest =>
      let '(s1, rm1, entry) := sniperStep toLowerCase cfg step s rm in
      let '(s2, rm2, log) := sniperRun toLowerCase cfg rest s1 rm1 in
      (s2, rm2, option_list entry ++ log)
  end.

(** The log entry is an acceptance of an event about [mint]. *)
Definition isAcceptanceOf (mint : string)
    (entry : WebSocketEvent * SniperOutcome) : bool :=
  match entry with
  | (event, Accepted _) =>
      match eventMint event with
      | Some m => String.eqb m mint
      | None => false
      end
  | (_, Declined) => false
  end.

(** The proposals in the log that trade [mint]. *)
Definition proposalsFor (mint : string)
    (log : list (WebSocketEvent * SniperOutcome)) : list TradeRequest.t :=
  List.filter (fun tr => String.eqb (TradeRequest.mint tr) mint)
    (omap (fun entry =>
             match entry with
             | (_, Accepted proposal) => proposal
             | (_, Declined) => None
             end) log).
End SniperScenarios.

Section PipelineScenarios.
Import StrategyManager.
Context {W : Type}.

(** The calls [processEvent] makes to the strategy at position [index]
    when it consults it: [shouldTrade], and [getTrade] when that was
    reached. *)
Definition consulted (index : nat) (reachedGetTrade : bool) : list Call :=
  CallShouldTrade index
  :: (if reachedGetTrade then [CallGetTrade index] else []).

(** A strategy abstains for an event: [shouldTrade] returns false or
    throws, or [getTrade] returns null or throws.  [w'] is the state it
    leaves behind; the flag tells whether [getTrade] was reached. *)
Inductive Abstains (event : WebSocketEvent) (strategy : TradingStrategy W)
    (w w' : W) : bool -> Prop :=
  | AbstainsDeclined :
      shouldTrade strategy event w = (Returned false, w') ->
      Abstains event strategy w w' false
  | AbstainsShouldTradeThrew (message : string) :
      shouldTrade strategy event w = (Threw message, w') ->
      Abstains event strategy w w' false
  | AbstainsNoProposal (w1 : W) :
      shouldTrade strategy event w = (Returned true, w1) ->
      getTrade strategy event w1 = (Returned None, w') ->
      Abstains event strategy w w' true
  | AbstainsGetTradeThrew (w1 : W) (message : string) :
      shouldTrade strategy event w = (Returned true, w1) ->
      getTrade strategy event w1 = (Threw message, w') ->
      Abstains event strategy w w' true.

(** A strategy accepts an event with a proposal. *)
Definition Accepts (event : WebSocketEvent) (strategy : TradingStrategy W)
    (w : W) (tradeRequest : TradeRequest.t) (w' : W) : Prop :=
  exists w1,
    shouldTrade strategy event w = (Returned true, w1)
    /\ getTrade strategy event w1 = (Returned (Some tradeRequest), w').

(** The strategies of a list, consulted one after the other from
    position [index], all abstain: the state they leave behind and the
    calls made. *)
Inductive AllAbstain (event : WebSocketEvent)
  : nat -> list (TradingStrategy W) -> W -> W -> list Call -> Prop :=
  | AllAbstainNil (index : nat) (w : W) :
      AllAbstain event index [] w w []
  | AllAbstainCons (index : nat) (strategy : TradingStrategy W)
      (rest : list (TradingStrategy W)) (w w1 w2 : W)
      (reached : bool) (trace : list Call) :
      Abstains event strategy w w1 reached ->
      AllAbstain event (S index) rest w1 w2 trace ->
      AllAbstain event index (strategy :: rest) w w2
        (consulted index reached ++ trace).

(** Registered strategies gone through in registration order without a
    proposal, for a pipeline that was started in the state [w0]: a
    strategy that is disabled in [w0] is passed over without any call
    and leaves the state alone; an enabled one is consulted and
    abstains.  [index] is the number of enabled strategies met before
    the list, [index'] that number after it; [w'] is the state left
    behind and [trace] the calls made. *)
Inductive PassedOver (event : WebSocketEvent) (w0 : W)
  : nat -> list (TradingStrategy W) -> W -> W -> list Call -> nat -> Prop :=
  | PassedOverNil (index : nat) (w : W) :
      PassedOver event w0 index [] w w [] index
  | PassedOverDisabled (index : nat) (strategy : TradingStrategy W)
      (rest : list (TradingStrategy W)) (w w' : W) (trace : list Call)
      (index' : nat) :
      isEnabled strategy w0 = false ->
      PassedOver event w0 index rest w w' trace index' ->
      PassedOver event w0 index (strategy :: rest) w w' trace index'
  | PassedOverAbstains (index : nat) (strategy : TradingStrategy W)
      (rest : list (TradingStrategy W)) (w w1 w2 : W) (reached : bool)
      (trace : list Call) (index' : nat) :
      isEnabled strategy w0 = true ->
      Abstains event strategy w w1 reached ->
      PassedOver event w0 (S index) rest w1 w2 trace index' ->
      PassedOver event w0 index (strategy :: rest) w w2
        (consulted index reached ++ trace) index'.
End PipelineScenarios.

Section PipelineExample.
Import StrategyManager.

(** Three strategies over a state that is the list of the methods run
    so far: the first throws in [shouldTrade], the second accepts with a
    proposal, the third would accept as well. *)
Definition noteCall (label : string) (w : list string) : list string :=
  w ++ [label].

Definition faulty : TradingStrategy (list string) :=
  {| name := "Faulty";
     isEnabled := fun _ => true;
     shouldTrade := fun _ w =>
       (Threw "boom", noteCall "Faulty.shouldTrade" w);
     getTrade := fun _ w =>
       (Returned None, noteCall "Faulty.getTrade" w) |}.

Definition eager (label mint : string) : TradingStrategy (list string) :=
  {| name := label;
     isEnabled := fun _ => true;
     shouldTrade := fun _ w =>
       (Returned true, noteCall (label ++ ".shouldTrade") w);
     getTrade := fun _ w =>
       (Returned (Some (buyRequest Config.default mint 0.1)),
        noteCall (label ++ ".getTrade") w) |}.

Definition disabled : TradingStrategy (list string) :=
  {| name := "Disabled";
     isEnabled := fun _ => false;
     shouldTrade := fun _ w =>
       (Returned true, noteCall "Disabled.shouldTrade" w);
     getTrade := fun _ w =>
       (Returned None, noteCall "Disabled.getTrade" w) |}.
End PipelineExample.

Section MomentumScenarios.
Import MomentumStrategy.

(** A trade event that arrives when it happened: its time stamp is the
    time at which the strategy handles it, and both clock readings of
    [shouldTrade] give that time. *)
Definition tradeAt (mint : string) (time : Z) (price amountSol : Q)
  : Z * Z * WebSocketEvent :=
  (time, time,
   tokenTrade
     {| TokenTradeData.mint := mint;
        TokenTradeData.action := buy;
        TokenTradeData.price := price;
        TokenTradeData.amountSol := amountSol;
        TokenTradeData.trader := "trader";
        TokenTradeData.signature := "signature";
        TokenTradeData.timestamp := time;
        TokenTradeData.symbol := None |}).

(** [shouldTrade] on a sequence of events, each with the two clock
    readings of its call (in [cleanupOldData], then in
    [checkMomentum]): the answers in order and the final state. *)
Fixpoint momentumRun (events : list (Z * Z * WebSocketEvent))
    (s : MomentumStrategy.t) : list (outcome bool) * MomentumStrategy.t :=
  match events with
  | [] => ([], s)
  | (nowCleanup, nowMomentum, event) :: rest =>
      let '(answer, s1) := shouldTrade nowCleanup nowMomentum event s in
      let '(answers, s2) := momentumRun rest s1 in
      (answer :: answers, s2)
  end.

(** The cooldown of [mint] runs from [since]: the token has its entry,
    stamped at [since], and the entry holds a trade from inside the
    analysis window that ended at [since]. *)
Definition coolingDown (mint : string) (since : Z)
    (s : MomentumStrategy.t) : Prop :=
  exists data,
    tokenData s !! mint = Some data
    /\ TokenData.lastBuyAttempt data = since
    /\ hasRecentTrades (since - timeWindowMs s) data = true.

(** The parameters of the strategy that [configure] sets. *)
Definition sameParameters (s s' : MomentumStrategy.t) : Prop :=
  timeWindowMs s' = timeWindowMs s
  /\ cooldownPeriodMs s' = cooldownPeriodMs s.

(** Newest first: no element is newer than one before it. *)
Definition newestFirst (l : list TokenTrade.t) : Prop :=
  StronglySorted
    (fun a b => (TokenTrade.timestamp b <= TokenTrade.timestamp a)%Z) l.

(** One hour, the retention buffer of [cleanupOldData]. *)
Definition ONE_HOUR_MS : Z := 60 * 60 * 1000.

(** The time of construction in the scenarios below, in ms since the
    epoch. *)
Definition startTime : Z := 1700000000000.

(** The momentum strategy with its defaults but a cooldown of two
    hours: [configure({ cooldownPeriodMinutes: 120 })]. *)
Definition twoHourCooldown : MomentumStrategy.t :=
  configure
    {| p_enabled := None;
       p_minTradeCount := None;
       p_timeWindowMinutes := None;
       p_minVolumeThreshold := None;
       p_priceIncreaseThreshold := None;
       p_cooldownPeriodMinutes := Some 120%Z;
       p_defaultTradeAmount := None |}
    (new startTime).

(** Five trades of [mint], one per second from [time + 1000] on, 0.2 SOL
    each, the price rising from [price] by 10%. *)
Definition burst (mint : string) (time : Z) (price : Q)
  : list (Z * Z * WebSocketEvent) :=
  [ tradeAt mint (time + 1000) price 0.2;
    tradeAt mint (time + 2000) (price * 1.02) 0.2;
    tradeAt mint (time + 3000) (price * 1.05) 0.2;
    tradeAt mint (time + 4000) (price * 1.07) 0.2;
    tradeAt mint (time + 5000) (price * 1.10) 0.2 ].

(** A burst of [A] right after the start; one trade of another token
    [B] 70 minutes after the burst; a second burst of [A] that ends 80
    minutes after the first. *)
Definition cooldownScenario : list (Z * Z * WebSocketEvent) :=
  burst "A" startTime 1
  ++ [ tradeAt "B" (startTime + 5000 + 70 * 60000) 1 0.2 ]
  ++ burst "A" (startTime + 80 * 60000) 2.
End MomentumScenarios.

(* --------------------------------------------------------------------- *)
(*  Definitions the further statements use                               *)
(* --------------------------------------------------------------------- *)

Section MoreLedgerDefinitions.
Import Position Portfolio PortfolioManager.

(** The sum of a list of numbers. *)
Definition sumQ (l : list Q) : Q := foldr Qplus 0 l.

(** The open positions whose token has a known price other than zero,
    each with that price. *)
Definition pricedOpenPositions (prices : gmap string Q) (pf : Portfolio.t)
  : list (Position.t * Q) :=
  omap (fun p =>
          match prices !! mint p with
          | Some price => if truthy price then Some (p, price) else None
          | None => None
          end) (getOpenPositions pf).

(** Mark to market: what one open position is up or down at [price]. *)
Definition markToMarket (entry : Position.t * Q) : Q :=
  (entry.2 - entryPrice entry.1) * amount entry.1.

(** The SOL a position stands for at its entry price. *)
Definition costBasis (p : Position.t) : Q := entryPrice p * amount p.
End MoreLedgerDefinitions.

Section MoreRiskDefinitions.
Import RiskManager.

(** The five conditions of the buy branch of [checkTrade] for an
    amount, against the wallet, the ledger and the risk manager as the
    check sees them. *)
Definition passesBuyChecks (cfg : Config.t) (wallet : Wallet.t)
    (pf : Portfolio.t) (rm : RiskManager.t) (solAmount : Q) : Prop :=
  solAmount + gasFeeBuffer <= Wallet.getBalance wallet
  /\ dailyTradingVolume rm + solAmount <= Config.maxDailyTradingVolume cfg
  /\ Config.minTradeAmountSol cfg <= solAmount
  /\ solAmount <= Config.maxTradeAmountSol cfg
  /\ solAmount
     <= PortfolioManager.getTotalValue pf
        * (Config.maxPositionSizePercentage cfg / 100).

(** One buy as the bot goes through it: the risk check of the proposal
    and, when the check allows it and the execution succeeds, the
    tracking of its volume. *)
Record BuyAttempt : Type := mkBuyAttempt {
  checkClock : Clock.t;
  checkWallet : Wallet.t;
  checkPortfolio : Portfolio.t;
  buyMint : string;
  buyAmount : Q;
  executed : bool;
  volumeClock : Clock.t
}.

Definition attemptBuy (cfg : Config.t) (rm : RiskManager.t)
    (b : BuyAttempt) : RiskManager.t :=
  let '(riskCheck, rm1) :=
    checkTrade cfg (checkClock b) (checkWallet b) (checkPortfolio b) buy
      (buyMint b) (buyAmount b) rm in
  if RiskCheckResult.allowed riskCheck && executed b
  then trackTradeVolume (volumeClock b) (buyAmount b) rm1
  else rm1.

(** Buys in flight together: [handleEvent] awaits the execution between
    the check of a buy and the tracking of its volume, so the checks of
    several buys can all come before the first tracking.  [checkAll]
    runs the checks one after the other and gives their verdicts;
    [trackAll] then tracks the volumes. *)
Fixpoint checkAll (cfg : Config.t) (buys : list BuyAttempt)
    (rm : RiskManager.t) : list bool * RiskManager.t :=
  match buys with
  | [] => ([], rm)
  | b :: rest =>
      let '(riskCheck, rm1) :=
        checkTrade cfg (checkClock b) (checkWallet b) (checkPortfolio b)
          buy (buyMint b) (buyAmount b) rm in
      let '(verdicts, rm2) := checkAll cfg rest rm1 in
      (RiskCheckResult.allowed riskCheck :: verdicts, rm2)
  end.

Definition trackAll (buys : list BuyAttempt) (rm : RiskManager.t)
  : RiskManager.t :=
  fold_left (fun rm' b => trackTradeVolume (volumeClock b) (buyAmount b) rm')
    buys rm.

(** The verdict of the buy check on [b] against a daily counter at
    [volume]. *)
Definition verdictAt (cfg : Config.t) (volume : Q) (b : BuyAttempt)
  : bool :=
  RiskCheckResult.allowed
    (checkBuy cfg (Wallet.getBalance (checkWallet b))
       (PortfolioManager.getTotalValue (checkPortfolio b)) volume
       (buyAmount b)).

(** Neither clock reading of the buy reaches the scheduled reset. *)
Definition beforeReset (rm : RiskManager.t) (b : BuyAttempt) : Prop :=
  (Clock.dateNow (checkClock b) < dailyResetTimestamp rm)%Z
  /\ (Clock.dateNow (volumeClock b) < dailyResetTimestamp rm)%Z.
End MoreRiskDefinitions.

Section MoreMomentumDefinitions.
Import MomentumStrategy.

(** Every token's history is kept newest first and holds at most
    [maxTradeHistory] trades. *)
Definition historiesBounded (s : MomentumStrategy.t) : Prop :=
  forall (mint : string) (data : TokenData.t),
    tokenData s !! mint = Some data ->
    (length (TokenData.trades data) <= maxTradeHistory)%nat
    /\ newestFirst (TokenData.trades data).

(** The momentum strategy with its defaults, but no minimum trade count
    and no minimum volume:
    [configure({ minTradeCount: 0, minVolumeThreshold: 0 })]. *)
Definition noMinimums : MomentumStrategy.t :=
  configure
    {| p_enabled := None;
       p_minTradeCount := Some 0%Z;
       p_timeWindowMinutes := None;
       p_minVolumeThreshold := Some 0;
       p_priceIncreaseThreshold := None;
       p_cooldownPeriodMinutes := None;
       p_defaultTradeAmount := None |}
    (new startTime).

(** A trade event handled at [startTime + 1000] whose own time stamp is
    ten minutes older, outside the analysis window. *)
Definition staleTrade : WebSocketEvent :=
  tokenTrade
    {| TokenTradeData.mint := "A";
       TokenTradeData.action := buy;
       TokenTradeData.price := 1;
       TokenTradeData.amountSol := 1;
       TokenTradeData.trader := "trader";
       TokenTradeData.signature := "signature";
       TokenTradeData.timestamp := startTime - 600000;
       TokenTradeData.symbol := None |}.
End MoreMomentumDefinitions.

Section MoreExitDefinitions.
Import PositionManagementStrategy.

(** Calls of [shouldTrade] of the exit strategy one after the other,
    each with its reading of the clock, the ledger as it is then, and
    its event: the answers in order, and the strategy afterwards. *)
Fixpoint exitRun (calls : list (Z * Portfolio.t * WebSocketEvent))
    (s : PositionManagementStrategy.t)
  : list bool * PositionManagementStrategy.t :=
  match calls with
  | [] => ([], s)
  | (now, pf, event) :: rest =>
      let '(answer, s1) := shouldTrade now pf event s in
      let '(answers, s2) := exitRun rest s1 in
      (answer :: answers, s2)
  end.

(** The call is about a trade of [mint]. *)
Definition isTradeOf (mint : string)
    (call : Z * Portfolio.t * WebSocketEvent) : bool :=
  match call.2 with
  | tokenTrade d => String.eqb (TokenTradeData.mint d) mint
  | _ => false
  end.
End MoreExitDefinitions.

Section MoreStrategyDefinitions.

(** A string of ASCII characters only. *)
Definition isAsciiChar (c : ascii) : bool := (nat_of_ascii c <? 128)%nat.

Fixpoint isAscii (s : string) : bool :=
  match s with
  | EmptyString => true
  | String c rest => isAsciiChar c && isAscii rest
  end.

(** What [toLowerCase] does to a string of ASCII characters: the
    letters A to Z become a to z, every other character stays. *)
Definition lowerAscii (c : ascii) : ascii :=
  let n := nat_of_ascii c in
  if ((65 <=? n) && (n <=? 90))%nat then ascii_of_nat (n + 32) else c.

Fixpoint asciiToLowerCase (s : string) : string :=
  match s with
  | EmptyString => EmptyString
  | String c rest => String (lowerAscii c) (asciiToLowerCase rest)
  end.

(** A [toLowerCase] that treats the strings of ASCII characters as the
    language prescribes; nothing is asked of it on other strings. *)
Definition foldsAscii (toLowerCase : string -> string) : Prop :=
  forall text : string,
    isAscii text = true -> toLowerCase text = asciiToLowerCase text.

(** Two strings that differ at most in the case of ASCII letters. *)
Definition sameUpToCase (a b : string) : Prop :=
  asciiToLowerCase a = asciiToLowerCase b.

(** The token of the repository's test of the blocked phrases. *)
Definition testToken : NewTokenData.t :=
  {| NewTokenData.mint := "token123";
     NewTokenData.name := "Test Token";
     NewTokenData.symbol := "TEST";
     NewTokenData.createdAt := startTime;
     NewTokenData.creatorAddress := "creator123" |}.

(** The sniper strategy of that test:
    [configure({ blockedPhrases: ['scam', 'test'] })]. *)
Definition sniperWithBlockedPhrases : SniperStrategy.t :=
  SniperStrategy.configure
    {| SniperStrategy.p_enabled := None;
       SniperStrategy.p_maxAgeSeconds := None;
       SniperStrategy.p_blockedCreators := None;
       SniperStrategy.p_blockedPhrases := Some ["scam"; "test"]%string;
       SniperStrategy.p_defaultTradeAmount := None |}
    (SniperStrategy.new Config.default).

(** What [handleEvent] is told when a trade was executed: [startTime]
    on every clock, the given token balance, and a [parseFloat] that
    reads ['100%'] as 100. *)
Definition executedOutside (balance : option Q) : TradingBot.Outside :=
  {| TradingBot.success := true;
     TradingBot.trackClock := Clock.at_ startTime;
     TradingBot.addClock := startTime;
     TradingBot.tokenBalance := balance;
     TradingBot.parseFloat := fun _ => 100 |}.

(** The same when the execution failed. *)
Definition failedOutside : TradingBot.Outside :=
  {| TradingBot.success := false;
     TradingBot.trackClock := Clock.at_ startTime;
     TradingBot.addClock := startTime;
     TradingBot.tokenBalance := None;
     TradingBot.parseFloat := fun _ => 100 |}.

(** A bot that holds the position of scenario 2 and has seen [A] trade
    at [price]. *)
Definition botHoldingA (price : Q) : TradingBot.t :=
  {| TradingBot.portfolio := ledgerAfterFirstBuy;
     TradingBot.riskManager := RiskManager.new (Clock.at_ startTime);
     TradingBot.tokenPrices := {[ "A"%string := price ]} |}.
End MoreStrategyDefinitions.

Section MorePipelineDefinitions.
Import BotStrategies.

(** The risk manager [rm'] is [rm] as it was, or a reset has emptied
    the counter: in no case was volume added. *)
Definition resetOnly (rm rm' : RiskManager.t) : Prop :=
  rm' = rm \/ RiskManager.dailyTradingVolume rm' = 0.

(** None of the clock readings the risk manager makes while the
    strategies handle an event reaches the scheduled reset. *)
Definition noResetDue (w : World) : Prop :=
  (Clock.dateNow (sizeClock (reads w))
   < RiskManager.dailyResetTimestamp (risk w))%Z
  /\ (Clock.dateNow (checkClock (reads w))
      < RiskManager.dailyResetTimestamp (risk w))%Z
  /\ (Clock.dateNow (sellClock (reads w))
      < RiskManager.dailyResetTimestamp (risk w))%Z.

(** What the strategies may do to the world [w0] while they handle an
    event: they leave what they read from outside and the ledger
    alone, and the risk manager they at most reset. *)
Definition booksKept (w0 w : World) : Prop :=
  reads w = reads w0
  /\ ledger w = ledger w0
  /\ resetOnly (risk w0) (risk w)
  /\ (noResetDue w0 -> risk w = risk w0).

(** Every clock of an event reads [time]; both wallets hold [balance]
    SOL and the tokens of [held]; the texts are ASCII. *)
Definition readsAt (time : Z) (balance : Q) (held : list string) : Reads :=
  {| toLowerCase := asciiToLowerCase;
     sniperNow := time;
     cleanupNow := time;
     momentumNow := time;
     exitNow := time;
     sizeClock := Clock.at_ time;
     sizeWallet := walletWith balance held;
     checkClock := Clock.at_ time;
     checkWallet := walletWith balance held;
     logClock := fun _ => time;
     sellClock := Clock.at_ time;
     sellWallet := walletWith balance held |}.

(** The bot holds the position of scenario 2 in [A]; the momentum
    strategy has seen four rising trades of [A]; the fifth arrives at
    [startTime + 5000]. *)
Definition worldBeforeFifthTrade : World :=
  {| reads := readsAt (startTime + 5000) 1 ["A"%string];
     sniper := SniperStrategy.new Config.default;
     momentum :=
       (momentumRun
          [ tradeAt "A" (startTime + 1000) 1 0.2;
            tradeAt "A" (startTime + 2000) 1.02 0.2;
            tradeAt "A" (startTime + 3000) 1.05 0.2;
            tradeAt "A" (startTime + 4000) 1.07 0.2 ]
          (MomentumStrategy.new startTime)).2;
     exitStrategy := PositionManagementStrategy.new;
     ledger := ledgerAfterFirstBuy;
     risk := RiskManager.new (Clock.at_ startTime) |}.

(** The fifth trade: [A] at 1.25, above the take-profit 1.2 of the
    position. *)
Definition fifthTrade : TokenTradeData.t :=
  {| TokenTradeData.mint := "A";
     TokenTradeData.action := buy;
     TokenTradeData.price := 1.25;
     TokenTradeData.amountSol := 0.2;
     TokenTradeData.trader := "trader";
     TokenTradeData.signature := "signature";
     TokenTradeData.timestamp := startTime + 5000;
     TokenTradeData.symbol := None |}.

(** A call of [shouldTrade]. *)
Definition isShouldTradeCall (c : StrategyManager.Call) : bool :=
  match c with
  | StrategyManager.CallShouldTrade _ => true
  | StrategyManager.CallGetTrade _ => false
  end.
End MorePipelineDefinitions.

(** What can happen to a [WebSocketClient] after its construction: the
    socket's events, the reconnect timer, and the public methods. *)
Inductive ClientEvent : Type :=
  | socketOpened (sock1 sock2 sock3 : WebSocketClient.Socket)
  | socketClosed
  | timerFired (sock : WebSocketClient.Socket)
  | callSubscribeNew (sock : WebSocketClient.Socket)
  | callUnsubscribeNew (sock : WebSocketClient.Socket)
  | callSubscribeTokens (sock : WebSocketClient.Socket) (keys : list string)
  | callUnsubscribeTokens (sock : WebSocketClient.Socket)
      (keys : list string)
  | callSubscribeAccounts (sock : WebSocketClient.Socket)
      (keys : list string)
  | callUnsubscribeAccounts (sock : WebSocketClient.Socket)
      (keys : list string)
  | callClose.

Definition clientStep (maxReconnectAttempts : Z) (c : WebSocketClient.t)
    (e : ClientEvent) : WebSocketClient.t :=
  match e with
  | socketOpened s1 s2 s3 => WebSocketClient.handleOpen s1 s2 s3 c
  | socketClosed => WebSocketClient.handleClose maxReconnectAttempts c
  | timerFired s =>
      WebSocketClient.reconnectTimerFires s maxReconnectAttempts c
  | callSubscribeNew s => (WebSocketClient.subscribeToNewTokens s c).2
  | callUnsubscribeNew s =>
      (WebSocketClient.unsubscribeFromNewTokens s c).2
  | callSubscribeTokens s l =>
      (WebSocketClient.subscribeToTokenTrades s l c).2
  | callUnsubscribeTokens s l =>
      (WebSocketClient.unsubscribeFromTokenTrades s l c).2
  | callSubscribeAccounts s l =>
      (WebSocketClient.subscribeToAccountTrades s l c).2
  | callUnsubscribeAccounts s l =>
      (WebSocketClient.unsubscribeFromAccountTrades s l c).2
  | callClose => WebSocketClient.close c
  end.

(** The three subscription sets of a client. *)
Definition subscriptions (c : WebSocketClient.t)
    : gset string * gset string * gset string :=
  (WebSocketClient.activeSubscriptions c,
   WebSocketClient.subscribedTokens c,
   WebSocketClient.subscribedAccounts c).

(** The connection fields of a client. *)
Definition connection (c : WebSocketClient.t) : bool * Z * bool * bool :=
  (WebSocketClient.ws c, WebSocketClient.reconnectAttempts c,
   WebSocketClient.reconnectTimer c, WebSocketClient.isReconnecting c).

(* ===================================================================== *)
(*  Properties                                                           *)
(* ===================================================================== *)

(* --------------------------------------------------------------------- *)
(*  Comparisons on numbers                                               *)
(* --------------------------------------------------------------------- *)

Lemma Qltb_true (a b : Q) : Qltb a b = true <-> a < b.
Proof.
  unfold Qltb. rewrite negb_true_iff.
  destruct (Qle_bool b a) eqn:E.
  - apply Qle_bool_iff in E. split; [discriminate | intros H; lra].
  - split; [intros _ | reflexivity].
    destruct (Qlt_le_dec a b) as [H | H]; [exact H |].
    apply Qle_bool_iff in H. congruence.
Qed.

Lemma Qltb_false (a b : Q) : Qltb a b = false <-> b <= a.
Proof.
  unfold Qltb. rewrite negb_false_iff. apply Qle_bool_iff.
Qed.

Lemma Qgtb_true (a b : Q) : Qgtb a b = true <-> b < a.
Proof. apply Qltb_true. Qed.

Lemma Qgtb_false (a b : Q) : Qgtb a b = false <-> a <= b.
Proof. apply Qltb_false. Qed.

Lemma Qgeb_true (a b : Q) : Qgeb a b = true <-> b <= a.
Proof. apply Qle_bool_iff. Qed.

Lemma Qgeb_false (a b : Q) : Qgeb a b = false <-> a < b.
Proof.
  unfold Qgeb. destruct (Qle_bool b a) eqn:E.
  - apply Qle_bool_iff in E. split; [discriminate | intros H; lra].
  - split; [intros _ | reflexivity].
    destruct (Qlt_le_dec a b) as [H | H]; [exact H |].
    apply Qle_bool_iff in H. congruence.
Qed.

(* --------------------------------------------------------------------- *)
(*  The position ledger                                                  *)
(* --------------------------------------------------------------------- *)

Section Ledger.
Import Position Portfolio PortfolioManager.

(** Changing the first element that passes [test]: what the filter by
    another predicate sees when the change does not move elements in or
    out of it. *)
Lemma filter_mutateFirst_same (test keep : Position.t -> bool)
    (f : Position.t -> Position.t) (l : list Position.t) :
  (forall p, test p = true -> keep (f p) = keep p) ->
  length (List.filter keep (mutateFirst test f l))
  = length (List.filter keep l).
Proof.
  intros Hf. induction l as [| p rest IH]; [reflexivity |].
  cbn [mutateFirst]. destruct (test p) eqn:Ht.
  - cbn [List.filter]. rewrite (Hf p Ht). destruct (keep p); reflexivity.
  - cbn [List.filter]. destruct (keep p); cbn [length]; congruence.
Qed.

(** The same when the change can only take the element out. *)
Lemma filter_mutateFirst_le (test keep : Position.t -> bool)
    (f : Position.t -> Position.t) (l : list Position.t) :
  (forall p, test p = true -> keep (f p) = true -> keep p = true) ->
  (length (List.filter keep (mutateFirst test f l))
   <= length (List.filter keep l))%nat.
Proof.
  intros Hf. induction l as [| p rest IH]; [reflexivity |].
  cbn [mutateFirst]. destruct (test p) eqn:Ht.
  - cbn [List.filter]. destruct (keep (f p)) eqn:Hk.
    + rewrite (Hf p Ht Hk). reflexivity.
    + destruct (keep p); cbn [length]; lia.
  - cbn [List.filter]. destruct (keep p); cbn [length]; lia.
Qed.

(** The filter by [test] itself: its head is the element that changes. *)
Lemma filter_mutateFirst_head (test : Position.t -> bool)
    (f : Position.t -> Position.t) (l : list Position.t)
    (e : Position.t) (r : list Position.t) :
  List.filter test l = e :: r ->
  List.filter test (mutateFirst test f l)
  = if test (f e) then f e :: r else r.
Proof.
  induction l as [| p rest IH]; [discriminate |].
  cbn [mutateFirst List.filter]. destruct (test p) eqn:Ht.
  - intros [= <- <-]. cbn [List.filter]. reflexivity.
  - intros H. cbn [List.filter]. rewrite Ht. auto.
Qed.

Lemma length_mutateFirst (test : Position.t -> bool)
    (f : Position.t -> Position.t) (l : list Position.t) :
  length (mutateFirst test f l) = length l.
Proof.
  induction l as [| p rest IH]; [reflexivity |].
  cbn [mutateFirst]. destruct (test p); cbn [length]; congruence.
Qed.

Lemma getOpenPositionForToken_Some (pf : Portfolio.t) (m : string)
    (e : Position.t) :
  getOpenPositionForToken pf m = Some e ->
  exists r, List.filter (isOpenFor m) (positions pf) = e :: r.
Proof.
  unfold getOpenPositionForToken.
  destruct (List.filter (isOpenFor m) (positions pf)) as [| p r];
    [discriminate |].
  intros [= ->]. eauto.
Qed.

Lemma getOpenPositionForToken_None (pf : Portfolio.t) (m : string) :
  getOpenPositionForToken pf m = None ->
  List.filter (isOpenFor m) (positions pf) = [].
Proof.
  unfold getOpenPositionForToken.
  destruct (List.filter (isOpenFor m) (positions pf)); [auto | discriminate].
Qed.

Lemma getOpenPositionForToken_isOpenFor (pf : Portfolio.t) (m : string)
    (e : Position.t) :
  getOpenPositionForToken pf m = Some e -> isOpenFor m e = true.
Proof.
  intros H. destruct (getOpenPositionForToken_Some _ _ _ H) as [r Hr].
  assert (Hin : In e (List.filter (isOpenFor m) (positions pf)))
    by (rewrite Hr; left; reflexivity).
  apply filter_In in Hin. tauto.
Qed.

Lemma isOpenFor_mergeInto (m : string) (a sol sl tp : Q) (p : Position.t) :
  isOpenFor m (mergeInto a sol sl tp p) = isOpenFor m p.
Proof. reflexivity. Qed.

Lemma isOpenFor_reduceAmount (m : string) (sold : Q) (p : Position.t) :
  isOpenFor m (reduceAmount sold p) = isOpenFor m p.
Proof. reflexivity. Qed.

Lemma isOpenFor_markClosed (m : string) (ex pl : Q) (p : Position.t) :
  isOpenFor m (markClosed ex pl p) = false.
Proof. unfold isOpenFor, isOpen. cbn. apply andb_false_r. Qed.

Lemma isOpenFor_other (m m' : string) (p : Position.t) :
  isOpenFor m p = true -> m' <> m -> isOpenFor m' p = false.
Proof.
  unfold isOpenFor. intros H Hne.
  apply andb_true_iff in H as [H _]. apply String.eqb_eq in H.
  destruct (String.eqb_spec (mint p) m'); [congruence | reflexivity].
Qed.

Lemma openCount_empty (m : string) : openCount empty m = 0%nat.
Proof. reflexivity. Qed.

Lemma atMostOneOpenPerMint_empty : atMostOneOpenPerMint empty.
Proof. intros m. rewrite openCount_empty. lia. Qed.

(** [addPosition] keeps the invariant. *)
Lemma addPosition_invariant (now : Z) (m tn ts : string)
    (price q sol sl tp : Q) (pf : Portfolio.t) :
  atMostOneOpenPerMint pf ->
  atMostOneOpenPerMint (addPosition now m tn ts price q sol sl tp pf).2.
Proof.
  intros Hinv m'. unfold addPosition.
  destruct (getOpenPositionForToken pf m) as [e |] eqn:Hget;
    cbn [snd]; unfold openCount; cbn [positions].
  - rewrite filter_mutateFirst_same; [apply Hinv |].
    intros p _. apply isOpenFor_mergeInto.
  - rewrite List.filter_app, length_app. cbn [List.filter].
    specialize (Hinv m'). unfold openCount in Hinv.
    unfold isOpenFor at 2. cbn [mint status isOpen Status_eqb].
    rewrite andb_true_r.
    destruct (String.eqb_spec m m') as [-> | Hne]; cbn [length].
    + rewrite (getOpenPositionForToken_None _ _ Hget). cbn. lia.
    + lia.
Qed.

(** [closePosition] keeps the invariant. *)
Lemma closePosition_invariant (m : string) (ex sold pct : Q)
    (pf : Portfolio.t) :
  atMostOneOpenPerMint pf ->
  atMostOneOpenPerMint (closePosition m ex sold pct pf).2.
Proof.
  intros Hinv m'. unfold closePosition.
  destruct (getOpenPositionForToken pf m) as [e |] eqn:Hget;
    [| apply Hinv].
  destruct (Qgeb pct 100 || Qgeb sold (amount e));
    cbn [snd]; unfold openCount; cbn [positions].
  - etransitivity; [| apply (Hinv m')].
    apply filter_mutateFirst_le. intros p _.
    rewrite isOpenFor_markClosed. discriminate.
  - rewrite filter_mutateFirst_same; [apply Hinv |].
    intros p _. apply isOpenFor_reduceAmount.
Qed.

(** [updateUnrealizedPnl] does not touch the positions. *)
Lemma updateUnrealizedPnl_invariant (prices : gmap string Q)
    (pf : Portfolio.t) :
  atMostOneOpenPerMint pf ->
  atMostOneOpenPerMint (updateUnrealizedPnl prices pf).
Proof. intros Hinv m. apply Hinv. Qed.
End Ledger.

Section LedgerClaims.
Import Position Portfolio PortfolioManager.


(** Whatever the caller does with a ledger that starts empty, no mint
    ever has two open positions. *)
Lemma atMostOneOpenPerMint_always (ops : list LedgerOp) :
  atMostOneOpenPerMint (fold_left applyOp ops empty).
Proof.
  generalize atMostOneOpenPerMint_empty. generalize empty.
  induction ops as [| op ops IH]; intros pf Hinv; [exact Hinv |].
  cbn [fold_left]. apply IH. destruct op; cbn [applyOp].
  - apply addPosition_invariant, Hinv.
  - apply closePosition_invariant, Hinv.
  - apply updateUnrealizedPnl_invariant, Hinv.
Qed.

(** C3.  At most one open position per mint, kept by every ledger
    operation.  From a ledger with at most one open position per mint:
    [addPosition], [closePosition] and [updateUnrealizedPnl] give such a
    ledger again; [addPosition] on a mint without an open position
    appends exactly one position, which is open, has the supplied price
    as entry price, stop-loss price*(1 - stopLossPct/100) and take-profit
    price*(1 + takeProfitPct/100), and is then the only open one of the
    mint; [addPosition] on a mint with an open position (q1 at p1)
    changes that record in place - quantity q1+q2, entry price
    (q1*p1 + sol2)/(q1+q2), stop-loss and take-profit from the new entry
    price and the supplied percentages - adds no record, and the mint
    still has exactly one open position. *)
Theorem C3_at_most_one_open_position_per_mint (pf : Portfolio.t) :
  atMostOneOpenPerMint pf ->
  (forall now m tn ts price q sol sl tp,
      atMostOneOpenPerMint (addPosition now m tn ts price q sol sl tp pf).2)
  /\ (forall m ex sold pct,
         atMostOneOpenPerMint (closePosition m ex sold pct pf).2)
  /\ (forall prices, atMostOneOpenPerMint (updateUnrealizedPnl prices pf))
  /\ (forall now m tn ts price q sol sl tp,
         getOpenPositionForToken pf m = None ->
         let r := addPosition now m tn ts price q sol sl tp pf in
         positions r.2 = positions pf ++ [r.1]
         /\ mint r.1 = m
         /\ status r.1 = open
         /\ entryPrice r.1 == price
         /\ amount r.1 == q
         /\ stopLoss r.1 == price * (1 - sl / 100)
         /\ takeProfit r.1 == price * (1 + tp / 100)
         /\ openCount r.2 m = 1%nat
         /\ getOpenPositionForToken r.2 m = Some r.1)
  /\ (forall now m tn ts price q sol sl tp e,
         getOpenPositionForToken pf m = Some e ->
         let r := addPosition now m tn ts price q sol sl tp pf in
         length (positions r.2) = length (positions pf)
         /\ mint r.1 = m
         /\ status r.1 = open
         /\ amount r.1 == amount e + q
         /\ entryPrice r.1
            == (amount e * entryPrice e + sol) / (amount e + q)
         /\ stopLoss r.1 == entryPrice r.1 * (1 - sl / 100)
         /\ takeProfit r.1 == entryPrice r.1 * (1 + tp / 100)
         /\ openCount r.2 m = 1%nat
         /\ getOpenPositionForToken r.2 m = Some r.1).
Proof.
  intros Hinv.
  split; [intros; apply addPosition_invariant, Hinv |].
  split; [intros; apply closePosition_invariant, Hinv |].
  split; [intros; apply updateUnrealizedPnl_invariant, Hinv |].
  split.
  - intros now m tn ts price q sol sl tp Hnone r. subst r.
    unfold addPosition. rewrite Hnone. cbn [fst snd positions].
    pose proof (getOpenPositionForToken_None _ _ Hnone) as Hnil.
    assert (Hself : forall p : Position.t,
               mint p = m -> status p = open -> isOpenFor m p = true).
    { intros p Hm Hs. unfold isOpenFor, isOpen. rewrite Hm, Hs.
      rewrite String.eqb_refl. reflexivity. }
    repeat split; try reflexivity.
    + unfold openCount. cbn [positions].
      rewrite List.filter_app, Hnil. cbn [List.filter app].
      rewrite Hself; reflexivity.
    + unfold getOpenPositionForToken. cbn [positions].
      rewrite List.filter_app, Hnil. cbn [List.filter app].
      rewrite Hself; reflexivity.
  - intros now m tn ts price q sol sl tp e Hsome r. subst r.
    unfold addPosition. rewrite Hsome. cbn [fst snd positions].
    pose proof (getOpenPositionForToken_isOpenFor _ _ _ Hsome) as Hopen.
    destruct (getOpenPositionForToken_Some _ _ _ Hsome) as [rest Hrest].
    pose proof (Hinv m) as Hone. unfold openCount in Hone.
    rewrite Hrest in Hone. cbn [length] in Hone.
    assert (rest = []) as ->.
    { destruct rest; [reflexivity |]. exfalso. cbn [length] in Hone. lia. }
    assert (Hfilter :
      List.filter (isOpenFor m)
        (mutateFirst (isOpenFor m) (mergeInto q sol sl tp) (positions pf))
      = [mergeInto q sol sl tp e]).
    { rewrite (filter_mutateFirst_head _ _ _ _ _ Hrest).
      rewrite isOpenFor_mergeInto, Hopen. reflexivity. }
    unfold isOpenFor, isOpen in Hopen.
    apply andb_true_iff in Hopen as [Hm Hs].
    apply String.eqb_eq in Hm.
    repeat split; try reflexivity.
    + apply length_mutateFirst.
    + exact Hm.
    + cbn [status mergeInto]. destruct (status e); [reflexivity | discriminate].
    + unfold openCount. cbn [positions]. rewrite Hfilter. reflexivity.
    + unfold getOpenPositionForToken. cbn [positions]. rewrite Hfilter.
      reflexivity.
Qed.


(** The second buy of scenario 2 (50 units at 1.2 for 60 SOL) merges into
    the open position: entry (100*1.0 + 60)/150, one open position. *)
Lemma C3_witness :
  atMostOneOpenPerMint ledgerAfterFirstBuy
  /\ (let r := addPosition 2000 "A" "A" "A" 1.2 50 60 10 20
                 ledgerAfterFirstBuy in
      entryPrice r.1 == 160 / 150
      /\ amount r.1 == 150
      /\ openCount r.2 "A" = 1%nat
      /\ length (positions r.2) = 1%nat).
Proof.
  assert (Hinv : atMostOneOpenPerMint ledgerAfterFirstBuy).
  { apply addPosition_invariant, atMostOneOpenPerMint_empty. }
  split; [exact Hinv |].
  destruct (C3_at_most_one_open_position_per_mint ledgerAfterFirstBuy Hinv)
    as (_ & _ & _ & _ & Hmerge).
  specialize (Hmerge 2000%Z "A"%string "A"%string "A"%string 1.2 50 60 10 20
                (addPosition 1000 "A" "A" "A" 1 100 100 10 20 empty).1
                eq_refl).
  destruct Hmerge as (Hlen & _ & _ & Hamt & Hentry & _ & _ & Hcount & _).
  split; [| split; [| split]].
  - rewrite Hentry. reflexivity.
  - rewrite Hamt. reflexivity.
  - exact Hcount.
  - rewrite Hlen. reflexivity.
Defined.


(** The two branches of [addPosition] and the invested total: a new
    position adds the SOL spent, a merge leaves the total as it was. *)
Lemma addPosition_totalInvestedSol (now : Z) (m tn ts : string)
    (price q sol sl tp : Q) (pf : Portfolio.t) :
  totalInvestedSol (addPosition now m tn ts price q sol sl tp pf).2
  = match getOpenPositionForToken pf m with
    | Some _ => totalInvestedSol pf
    | None => totalInvestedSol pf + sol
    end.
Proof.
  unfold addPosition. destruct (getOpenPositionForToken pf m); reflexivity.
Qed.

(** C5.  The code at the failing input: after the first buy of [A] for
    100 SOL the invested total is 100; the second buy of [A] for 60 SOL
    merges into the open position and the invested total is still 100,
    not 160. *)
Theorem C5_merge_leaves_totalInvestedSol :
  let r := addPosition 2000 "A" "A" "A" 1.2 50 60 10 20
             ledgerAfterFirstBuy in
  totalInvestedSol ledgerAfterFirstBuy == 100
  /\ totalInvestedSol r.2 == 100
  /\ ~ totalInvestedSol r.2 == totalInvestedSol ledgerAfterFirstBuy + 60.
Proof.
  cbv zeta. split; [reflexivity |]. split; [reflexivity |].
  intros H. vm_compute in H. discriminate H.
Qed.
End LedgerClaims.

(* --------------------------------------------------------------------- *)
(*  The risk gate                                                        *)
(* --------------------------------------------------------------------- *)

Section RiskGate.
Import RiskCheckResult RiskManager.

Lemma min4_le (a b c d x : Q) :
  x <= min4 a b c d <-> x <= a /\ x <= b /\ x <= c /\ x <= d.
Proof.
  unfold min4. rewrite !Q.min_glb_iff. tauto.
Qed.

Lemma min4_mono (a a' b c d : Q) :
  a <= a' -> min4 a b c d <= min4 a' b c d.
Proof.
  intros H. apply min4_le.
  pose proof (proj1 (min4_le a b c d (min4 a b c d)) (Qle_refl _))
    as (Ha & Hb & Hc & Hd).
  repeat split; try assumption. lra.
Qed.

Lemma specSizeLimit_le_sizeLimit (cfg : Config.t) (balance pv vol : Q) :
  specSizeLimit cfg balance pv vol <= sizeLimit cfg balance pv vol.
Proof. apply min4_mono, Q.le_max_r. Qed.

(** When the specification's minimum is not negative the balance covers
    the fee buffer and the two minima agree. *)
Lemma specSizeLimit_nonneg (cfg : Config.t) (balance pv vol : Q) :
  0 <= specSizeLimit cfg balance pv vol ->
  sizeLimit cfg balance pv vol == specSizeLimit cfg balance pv vol.
Proof.
  intros H. apply min4_le in H as (Ha & _).
  unfold sizeLimit, specSizeLimit, min4.
  rewrite (Q.max_r 0 (balance - gasFeeBuffer)) by exact Ha. reflexivity.
Qed.

Lemma checkDailyReset_at_or_after (clk : Clock.t) (rm : RiskManager.t) :
  (dailyResetTimestamp rm <= Clock.dateNow clk)%Z ->
  checkDailyReset clk rm = resetDailyVolume clk rm.
Proof.
  intros H. unfold checkDailyReset.
  destruct (Z.geb_spec (Clock.dateNow clk) (dailyResetTimestamp rm));
    [reflexivity | lia].
Qed.

Lemma checkDailyReset_before (clk : Clock.t) (rm : RiskManager.t) :
  (Clock.dateNow clk < dailyResetTimestamp rm)%Z ->
  checkDailyReset clk rm = rm.
Proof.
  intros H. unfold checkDailyReset.
  destruct (Z.geb_spec (Clock.dateNow clk) (dailyResetTimestamp rm));
    [lia | reflexivity].
Qed.

(** In a zone with a fixed offset the scheduled reset is the first UTC
    midnight after the reading. *)
Lemma tomorrow_fixed (offset now : Z) :
  tomorrow (TimeZone.fixed offset) now
  = (now / MS_PER_DAY * MS_PER_DAY + MS_PER_DAY)%Z.
Proof.
  unfold tomorrow, setDateNextDay, setUTCHoursZero, TimeZone.fixed.
  cbn [TimeZone.offsetAtUtc TimeZone.offsetAtLocal]. lia.
Qed.

Lemma tomorrow_fixed_spec (offset now : Z) :
  (tomorrow (TimeZone.fixed offset) now mod MS_PER_DAY = 0
   /\ now < tomorrow (TimeZone.fixed offset) now <= now + MS_PER_DAY)%Z.
Proof.
  rewrite tomorrow_fixed. unfold MS_PER_DAY. split.
  - rewrite <- Z.mul_succ_l. apply Z.mod_mul. lia.
  - pose proof (Z.mod_pos_bound now 86400000 ltac:(lia)).
    pose proof (Z.div_mod now 86400000 ltac:(lia)). lia.
Qed.

Lemma checkDailyReset_nonneg (clk : Clock.t) (rm : RiskManager.t) :
  0 <= dailyTradingVolume rm ->
  0 <= dailyTradingVolume (checkDailyReset clk rm).
Proof.
  intros H. unfold checkDailyReset.
  destruct (Clock.dateNow clk >=? dailyResetTimestamp rm)%Z;
    [cbn; lra | exact H].
Qed.

Lemma applyCall_volume (rm : RiskManager.t) (c : VolumeCall) :
  dailyTradingVolume (applyCall rm c) == volumeUsed rm c + trackedAmount c
  /\ dailyResetTimestamp (applyCall rm c)
     = dailyResetTimestamp (checkDailyReset (callClock c) rm).
Proof.
  unfold volumeUsed.
  destruct c as [clk a | clk | cfg clk wallet pf action mint a];
    cbn [applyCall callClock trackedAmount].
  - unfold trackTradeVolume. cbn. split; reflexivity.
  - unfold getDailyTradingVolume. cbn [snd]. split; [ring | reflexivity].
  - unfold checkTrade. destruct action; cbn [snd].
    + split; [ring | reflexivity].
    + destruct (negb (Wallet.hasToken wallet mint)); cbn [snd];
        (split; [ring | reflexivity]).
Qed.

Lemma applyCall_nonneg (rm : RiskManager.t) (c : VolumeCall) :
  0 <= trackedAmount c ->
  0 <= dailyTradingVolume rm ->
  0 <= dailyTradingVolume (applyCall rm c).
Proof.
  intros Ha Hrm. destruct (applyCall_volume rm c) as [-> _].
  pose proof (checkDailyReset_nonneg (callClock c) rm Hrm).
  unfold volumeUsed. lra.
Qed.
End RiskGate.

Section RiskGateClaims.
Import RiskCheckResult RiskManager.

(** C1 as stated fails: with an empty wallet (balance 0), the default
    configuration, a portfolio worth 100 SOL and nothing traded today,
    min(balance - feeBuffer, ...) is -0.01, and [getOptimalTradeSize]
    returns 0, which exceeds it. *)
Lemma C1_counterexample :
  let r :=
    getOptimalTradeSize Config.default (Clock.at_ 1000) emptyWallet
      ledgerAfterFirstBuy "B" (RiskManager.new (Clock.at_ 0)) in
  let bound :=
    specSizeLimit Config.default (Wallet.getBalance emptyWallet)
      (PortfolioManager.getTotalValue ledgerAfterFirstBuy) 0 in
  r.1 == 0 /\ bound == -0.01 /\ bound < r.1.
Proof.
  cbv zeta. split; [reflexivity |]. split; reflexivity.
Qed.

(** C1, amended.  Let m be the minimum of max(0, balance - feeBuffer),
    portfolioValue * maxPositionSizePercentage/100, dailyCap minus the
    daily volume after the lazy reset, and maxTradeAmount.
    [getOptimalTradeSize] leaves the risk manager as the lazy reset
    leaves it and returns 0 when m is below the configured minimum trade
    amount, m when it is not and the token has no open position, and
    half of m when it is not and the token has one.  The returned amount
    therefore lies between 0 and m whenever m is not negative, and never
    exceeds min(balance - feeBuffer, ...) whenever that minimum is not
    negative. *)
Theorem C1_getOptimalTradeSize_limit (cfg : Config.t) (clk : Clock.t)
    (wallet : Wallet.t) (pf : Portfolio.t) (mint : string)
    (rm : RiskManager.t) :
  let rm1 := checkDailyReset clk rm in
  let m :=
    sizeLimit cfg (Wallet.getBalance wallet)
      (PortfolioManager.getTotalValue pf) (dailyTradingVolume rm1) in
  let spec :=
    specSizeLimit cfg (Wallet.getBalance wallet)
      (PortfolioManager.getTotalValue pf) (dailyTradingVolume rm1) in
  let r := getOptimalTradeSize cfg clk wallet pf mint rm in
  r.2 = rm1
  /\ (m < Config.minTradeAmountSol cfg -> r.1 == 0)
  /\ (Config.minTradeAmountSol cfg <= m ->
      PortfolioManager.getOpenPositionForToken pf mint = None ->
      r.1 == m)
  /\ (Config.minTradeAmountSol cfg <= m ->
      PortfolioManager.getOpenPositionForToken pf mint <> None ->
      r.1 == m / 2)
  /\ (0 <= m -> 0 <= r.1 /\ r.1 <= m)
  /\ (0 <= spec ->
      r.1 <= spec /\ (spec < Config.minTradeAmountSol cfg -> r.1 == 0)).
Proof.
  cbv zeta.
  set (rm1 := checkDailyReset clk rm).
  set (m := sizeLimit cfg _ _ _).
  set (spec := specSizeLimit cfg _ _ _).
  assert (Hr :
    getOptimalTradeSize cfg clk wallet pf mint rm
    = (if Qltb m (Config.minTradeAmountSol cfg) then 0
       else match PortfolioManager.getOpenPositionForToken pf mint with
            | Some _ => m * 0.5
            | None => m
            end, rm1)).
  { unfold getOptimalTradeSize, getDailyTradingVolume. fold rm1.
    unfold m, sizeLimit.
    destruct (Qltb _ _); [reflexivity |].
    destruct (PortfolioManager.getOpenPositionForToken pf mint);
      reflexivity. }
  rewrite Hr. cbn [fst snd].
  assert (Hcases :
    (m < Config.minTradeAmountSol cfg ->
     Qltb m (Config.minTradeAmountSol cfg) = true)
    /\ (Config.minTradeAmountSol cfg <= m ->
        Qltb m (Config.minTradeAmountSol cfg) = false)).
  { split; intros H; [apply Qltb_true | apply Qltb_false]; exact H. }
  destruct Hcases as [Hlt Hge].
  assert (Hbound : 0 <= m ->
    0 <= (if Qltb m (Config.minTradeAmountSol cfg) then 0
          else match PortfolioManager.getOpenPositionForToken pf mint with
               | Some _ => m * 0.5
               | None => m
               end)
    /\ (if Qltb m (Config.minTradeAmountSol cfg) then 0
        else match PortfolioManager.getOpenPositionForToken pf mint with
             | Some _ => m * 0.5
             | None => m
             end) <= m).
  { intros Hm. destruct (Qltb _ _); [lra |].
    destruct (PortfolioManager.getOpenPositionForToken pf mint);
      split; lra. }
  split; [reflexivity |].
  split; [intros H; rewrite (Hlt H); reflexivity |].
  split.
  { intros H Hnone. rewrite (Hge H), Hnone. reflexivity. }
  split.
  { intros H Hsome. rewrite (Hge H).
    destruct (PortfolioManager.getOpenPositionForToken pf mint);
      [| congruence].
    field. }
  split; [exact Hbound |].
  intros Hspec.
  pose proof (specSizeLimit_nonneg cfg (Wallet.getBalance wallet)
                (PortfolioManager.getTotalValue pf)
                (dailyTradingVolume rm1) Hspec) as Heq.
  fold m spec in Heq.
  assert (Hm : 0 <= m) by lra.
  split.
  - destruct (Hbound Hm) as [_ Hle]. lra.
  - intros Hbelow. rewrite Hlt by lra. reflexivity.
Qed.

(** Closes the conjuncts about the checks of a buy once the outcome of
    each comparison is a hypothesis. *)
Ltac settle_checks :=
  repeat split; try discriminate; try reflexivity; try assumption;
  intros;
  repeat match goal with H : _ /\ _ |- _ => destruct H end;
  try discriminate; try reflexivity; try lra.

(** C2.  [checkTrade] leaves the risk manager as the lazy reset leaves
    it.  For a buy it allows the trade iff all five checks pass -
    balance >= amount + 0.01, daily volume (after the reset) + amount <=
    daily cap, amount >= minimum, amount <= maximum, amount <= the
    configured percentage of the portfolio value - and otherwise
    answers with the reason of the first check, in that order, that
    fails.  For a sell it allows the trade iff the wallet holds the
    token, whatever the amount. *)
Theorem C2_checkTrade_checks_in_order (cfg : Config.t) (clk : Clock.t)
    (wallet : Wallet.t) (pf : Portfolio.t) (action : Action)
    (mint : string) (solAmount : Q) (rm : RiskManager.t) :
  let rm1 := checkDailyReset clk rm in
  let r := checkTrade cfg clk wallet pf action mint solAmount rm in
  r.2 = rm1
  /\ (allowed r.1 = true <-> reason r.1 = None)
  /\ match action with
     | buy =>
         let balance := Wallet.getBalance wallet in
         let maxPositionSize :=
           PortfolioManager.getTotalValue pf
           * (Config.maxPositionSizePercentage cfg / 100) in
         let c1 := solAmount + gasFeeBuffer <= balance in
         let c2 :=
           dailyTradingVolume rm1 + solAmount
           <= Config.maxDailyTradingVolume cfg in
         let c3 := Config.minTradeAmountSol cfg <= solAmount in
         let c4 := solAmount <= Config.maxTradeAmountSol cfg in
         let c5 := solAmount <= maxPositionSize in
         (allowed r.1 = true <-> c1 /\ c2 /\ c3 /\ c4 /\ c5)
         /\ (~ c1 ->
             r.1 = deny (InsufficientBalance balance
                           (solAmount + gasFeeBuffer)))
         /\ (c1 -> ~ c2 ->
             r.1 = deny (ExceedsDailyVolume
                           (Config.maxDailyTradingVolume cfg)))
         /\ (c1 -> c2 -> ~ c3 ->
             r.1 = deny (BelowMinimum solAmount
                           (Config.minTradeAmountSol cfg)))
         /\ (c1 -> c2 -> c3 -> ~ c4 ->
             r.1 = deny (AboveMaximum solAmount
                           (Config.maxTradeAmountSol cfg)))
         /\ (c1 -> c2 -> c3 -> c4 -> ~ c5 ->
             r.1 = deny (ExceedsPositionSize solAmount
                           (Config.maxPositionSizePercentage cfg)
                           maxPositionSize))
     | sell =>
         (allowed r.1 = true <-> Wallet.hasToken wallet mint = true)
         /\ (Wallet.hasToken wallet mint = false ->
             r.1 = deny (TokenNotInWallet mint))
         /\ (forall otherAmount,
                (checkTrade cfg clk wallet pf sell mint otherAmount rm).1
                = r.1)
     end.
Proof.
  cbv zeta. unfold checkTrade. destruct action; cbn [fst snd].
  - split; [reflexivity |].
    unfold checkBuy.
    set (balance := Wallet.getBalance wallet).
    set (vol := dailyTradingVolume (checkDailyReset clk rm)).
    set (mps := PortfolioManager.getTotalValue pf
                * (Config.maxPositionSizePercentage cfg / 100)).
    destruct (Qltb balance (solAmount + gasFeeBuffer)) eqn:E1;
      [apply Qltb_true in E1; cbn; settle_checks
      | apply Qltb_false in E1].
    destruct (Qgtb (vol + solAmount) (Config.maxDailyTradingVolume cfg))
      eqn:E2;
      [apply Qgtb_true in E2; cbn; settle_checks
      | apply Qgtb_false in E2].
    destruct (Qltb solAmount (Config.minTradeAmountSol cfg)) eqn:E3;
      [apply Qltb_true in E3; cbn; settle_checks
      | apply Qltb_false in E3].
    destruct (Qgtb solAmount (Config.maxTradeAmountSol cfg)) eqn:E4;
      [apply Qgtb_true in E4; cbn; settle_checks
      | apply Qgtb_false in E4].
    destruct (Qgtb solAmount mps) eqn:E5;
      [apply Qgtb_true in E5; cbn; settle_checks
      | apply Qgtb_false in E5].
    cbn. settle_checks.
  - destruct (Wallet.hasToken wallet mint) eqn:Eh; cbn; settle_checks.
Qed.

(** The lazy reset of the daily counter.  After any sequence of calls
    of [trackTradeVolume], [getDailyTradingVolume] and [checkTrade] on a
    new risk manager in which every tracked amount is non-negative, the
    counter is not negative.  For the next such call: if its reading of
    the clock is at or after the scheduled reset, the counter the call
    uses is 0, the counter afterwards is what the call tracks, and the
    next reset is scheduled at [tomorrow]; in a zone with a fixed offset
    from UTC that is the first UTC midnight after the time of the
    reset.  If its reading is before the scheduled reset, nothing is
    reset: the call uses the counter as it is, adds what it tracks and
    keeps the schedule. *)
Lemma daily_volume_reset_mechanism (clk0 : Clock.t)
    (calls : list VolumeCall) :
  Forall (fun c => 0 <= trackedAmount c) calls ->
  let rm := fold_left applyCall calls (RiskManager.new clk0) in
  0 <= dailyTradingVolume rm
  /\ forall c : VolumeCall,
       let clk := callClock c in
       ((dailyResetTimestamp rm <= Clock.dateNow clk)%Z ->
        volumeUsed rm c == 0
        /\ dailyTradingVolume (applyCall rm c) == trackedAmount c
        /\ dailyResetTimestamp (applyCall rm c)
           = tomorrow (Clock.zone clk) (Clock.newDate clk)
        /\ (forall offset,
               Clock.zone clk = TimeZone.fixed offset ->
               (dailyResetTimestamp (applyCall rm c) mod MS_PER_DAY = 0
                /\ Clock.newDate clk < dailyResetTimestamp (applyCall rm c)
                   <= Clock.newDate clk + MS_PER_DAY)%Z))
       /\ ((Clock.dateNow clk < dailyResetTimestamp rm)%Z ->
           volumeUsed rm c == dailyTradingVolume rm
           /\ dailyTradingVolume (applyCall rm c)
              == dailyTradingVolume rm + trackedAmount c
           /\ dailyResetTimestamp (applyCall rm c)
              = dailyResetTimestamp rm).
Proof.
  intros Hcalls. cbv zeta. split.
  - assert (Hnew : 0 <= dailyTradingVolume (RiskManager.new clk0))
      by (cbn; lra).
    revert Hnew. generalize (RiskManager.new clk0).
    induction Hcalls as [| c calls Hc _ IH]; intros rm Hrm;
      [exact Hrm |].
    cbn [fold_left]. apply IH, applyCall_nonneg; assumption.
  - intros c. generalize (fold_left applyCall calls (RiskManager.new clk0)).
    intros rm. destruct (applyCall_volume rm c) as [Hvol Hts].
    unfold volumeUsed in *. split; intros Hclk.
    + rewrite checkDailyReset_at_or_after in * by exact Hclk.
      cbn [resetDailyVolume dailyTradingVolume dailyResetTimestamp] in *.
      rewrite Hts.
      split; [reflexivity |]. split; [lra |]. split; [reflexivity |].
      intros offset ->. apply tomorrow_fixed_spec.
    + rewrite checkDailyReset_before in * by exact Hclk.
      repeat split; try reflexivity; try lra; try exact Hts.
Qed.

(** C6.  The reset is not scheduled at the UTC midnight.
    [resetDailyVolume] goes to the start of the UTC day with
    [setUTCHours] and then one day on with [setDate], which works on the
    local calendar; where the offset of the zone changes in between, the
    result is off the UTC midnight by the change.  In the zone
    America/New_York:

    - a risk manager constructed at 2023-11-05T12:00Z schedules the
      reset at 2023-11-06T01:00Z; 2 SOL tracked on the 5th are still in
      the counter at 00:30Z on the 6th, after the UTC midnight;

    - a risk manager constructed at 2024-03-10T12:00Z schedules the
      reset at 23:00Z of the same day, and a reset between 23:00Z and
      the midnight schedules 23:00Z of the same day again, so that
      every call in that hour resets: 2 SOL tracked at 23:10Z are
      forgotten at 23:20Z, on the same UTC day. *)
Theorem C6_reset_misses_utc_midnight :
  let autumn := RiskManager.new (Clock.atIn newYork autumnNoon) in
  let autumn1 :=
    trackTradeVolume (Clock.atIn newYork (autumnNoon + 1000)) 2 autumn in
  let spring := RiskManager.new (Clock.atIn newYork springNoon) in
  let spring1 :=
    trackTradeVolume (Clock.atIn newYork springTenPastEleven) 2 spring in
  (dailyResetTimestamp autumn = autumnMidnight + MS_PER_HOUR)%Z
  /\ (getDailyTradingVolume (Clock.atIn newYork autumnHalfPastMidnight)
        autumn1).1 = 2
  /\ dailyResetTimestamp spring = springElevenPm
  /\ (springElevenPm = springMidnight - MS_PER_HOUR)%Z
  /\ dailyTradingVolume spring1 == 2
  /\ dailyResetTimestamp spring1 = springElevenPm
  /\ (getDailyTradingVolume (Clock.atIn newYork springTwentyPastEleven)
        spring1).1 = 0
  /\ dailyTradingVolume
       (RiskManager.new (Clock.at_ autumnNoon)) = 0
  /\ dailyResetTimestamp (RiskManager.new (Clock.at_ autumnNoon))
     = autumnMidnight.
Proof.
  cbv zeta.
  (* autumn: the schedule, and the counter after the UTC midnight *)
  split; [reflexivity |]. split; [reflexivity |].
  (* spring: the schedule, the reset at 23:10Z, the reset at 23:20Z *)
  split; [reflexivity |]. split; [reflexivity |].
  split; [reflexivity |]. split; [reflexivity |].
  split; [reflexivity |].
  (* the same construction in the zone UTC *)
  split; reflexivity.
Qed.
End RiskGateClaims.

(* --------------------------------------------------------------------- *)
(*  The new-token (sniper) strategy                                      *)
(* --------------------------------------------------------------------- *)

Section Sniper.
Import SniperStrategy.
Variable toLowerCase : string -> string.

Lemma processed_configure (params : Params) (s : SniperStrategy.t) :
  processed (configure params s) = processed s.
Proof. reflexivity. Qed.

(** What [shouldTrade] accepts, and what accepting does. *)
Lemma shouldTrade_true (now : Z) (event : WebSocketEvent)
    (s : SniperStrategy.t) :
  (shouldTrade toLowerCase now event s).1 = true ->
  exists d,
    event = newToken d
    /\ isEnabled s = true
    /\ (NewTokenData.mint d ∉ processed s)
    /\ (now - NewTokenData.createdAt d <= maxAgeMs s)%Z
    /\ (NewTokenData.creatorAddress d ∉ blockedCreators s)
    /\ hasBlockedPhrase toLowerCase s (NewTokenData.name d)
         (NewTokenData.symbol d)
       = false
    /\ (shouldTrade toLowerCase now event s).2
       = markProcessed (NewTokenData.mint d) s.
Proof.
  unfold shouldTrade. destruct (isEnabled s); cbn [negb]; [| discriminate].
  destruct event as [d | d | ty]; try discriminate.
  case_bool_decide as Hproc; [discriminate |].
  destruct (Z.gtb_spec (now - NewTokenData.createdAt d) (maxAgeMs s));
    [discriminate |].
  case_bool_decide as Hcreator; [discriminate |].
  destruct (hasBlockedPhrase toLowerCase s _ _) eqn:Hphrase; [discriminate |].
  intros _. exists d. cbn [snd]. repeat split; auto.
Qed.

(** Declining leaves the strategy as it was. *)
Lemma shouldTrade_false (now : Z) (event : WebSocketEvent)
    (s : SniperStrategy.t) :
  (shouldTrade toLowerCase now event s).1 = false ->
  (shouldTrade toLowerCase now event s).2 = s.
Proof.
  unfold shouldTrade. destruct (isEnabled s); cbn [negb]; [| reflexivity].
  destruct event as [d | d | ty]; try reflexivity.
  case_bool_decide; [reflexivity |].
  destruct (_ >? _)%Z; [reflexivity |].
  case_bool_decide; [reflexivity |].
  destruct (hasBlockedPhrase toLowerCase s _ _); [reflexivity | discriminate].
Qed.

(** A processed mint is declined. *)
Lemma shouldTrade_processed (now : Z) (d : NewTokenData.t)
    (s : SniperStrategy.t) :
  NewTokenData.mint d ∈ processed s ->
  shouldTrade toLowerCase now (newToken d) s = (false, s).
Proof.
  intros H. unfold shouldTrade. destruct (isEnabled s); [| reflexivity].
  cbn [negb]. rewrite bool_decide_eq_true_2 by exact H. reflexivity.
Qed.

(** A proposal of [getTrade] trades the mint of the event. *)
Lemma getTrade_mint (cfg : Config.t) (clk1 : Clock.t) (wallet1 : Wallet.t)
    (clk2 : Clock.t) (wallet2 : Wallet.t) (pf : Portfolio.t)
    (event : WebSocketEvent) (s : SniperStrategy.t) (rm : RiskManager.t)
    (tr : TradeRequest.t) :
  (getTrade cfg clk1 wallet1 clk2 wallet2 pf event s rm).1 = Some tr ->
  eventMint event = Some (TradeRequest.mint tr)
  /\ TradeRequest.action tr = buy.
Proof.
  unfold getTrade. destruct event as [d | d | ty]; try discriminate.
  destruct (sizeAndCheck _ _ _ _ _ _ _ _ _) as [[a |] rm'];
    [| discriminate].
  cbn [fst]. intros [= <-]. split; reflexivity.
Qed.

(** The processed set only grows along a step. *)
Lemma sniperStep_processed (cfg : Config.t) (step : SniperStep)
    (s : SniperStrategy.t) (rm : RiskManager.t) :
  processed s ⊆ processed (sniperStep toLowerCase cfg step s rm).1.1.
Proof.
  destruct step as [params | now event clk1 w1 clk2 w2 pf];
    cbn [sniperStep]; [reflexivity |].
  destruct (shouldTrade toLowerCase now event s) as [go s'] eqn:Hgo.
  destruct go.
  - destruct (getTrade _ _ _ _ _ _ _ _ _) as [p rm']. cbn [fst].
    pose proof (shouldTrade_true now event s) as H.
    rewrite Hgo in H. cbn [fst snd] in H.
    destruct (H eq_refl) as (d & _ & _ & _ & _ & _ & _ & ->).
    cbn. set_solver.
  - cbn [fst]. pose proof (shouldTrade_false now event s) as H.
    rewrite Hgo in H. cbn [fst snd] in H. rewrite (H eq_refl).
    reflexivity.
Qed.

(** An accepting step puts the mint of its event into the set. *)
Lemma sniperStep_accepts (cfg : Config.t) (step : SniperStep)
    (s : SniperStrategy.t) (rm : RiskManager.t) (mint : string)
    (entry : WebSocketEvent * SniperOutcome) :
  (sniperStep toLowerCase cfg step s rm).2 = Some entry ->
  isAcceptanceOf mint entry = true ->
  (mint ∉ processed s)
  /\ (mint ∈ processed (sniperStep toLowerCase cfg step s rm).1.1).
Proof.
  destruct step as [params | now event clk1 w1 clk2 w2 pf];
    cbn [sniperStep]; [discriminate |].
  destruct (shouldTrade toLowerCase now event s) as [go s'] eqn:Hgo.
  destruct go.
  - destruct (getTrade _ _ _ _ _ _ _ _ _) as [p rm'].
    cbn [fst snd]. intros [= <-]. cbn [isAcceptanceOf].
    pose proof (shouldTrade_true now event s) as H.
    rewrite Hgo in H. cbn [fst snd] in H.
    destruct (H eq_refl) as (d & -> & _ & Hnew & _ & _ & _ & ->).
    cbn [eventMint]. intros Heq. apply String.eqb_eq in Heq. subst mint.
    split; [exact Hnew | cbn; set_solver].
  - cbn [snd]. intros [= <-]. discriminate.
Qed.

(** Once a mint is in the set no later step accepts it. *)
Lemma sniperRun_processed (cfg : Config.t) (steps : list SniperStep)
    (s : SniperStrategy.t) (rm : RiskManager.t) (mint : string) :
  mint ∈ processed s ->
  List.filter (isAcceptanceOf mint) (sniperRun toLowerCase cfg steps s rm).2
  = [].
Proof.
  revert s rm. induction steps as [| step rest IH]; intros s rm Hin;
    [reflexivity |].
  cbn [sniperRun].
  pose proof (sniperStep_processed cfg step s rm) as Hsub.
  pose proof (sniperStep_accepts cfg step s rm mint) as Hacc.
  destruct (sniperStep toLowerCase cfg step s rm) as [[s1 rm1] entry].
  cbn [fst snd] in *.
  specialize (IH s1 rm1 (Hsub _ Hin)).
  destruct (sniperRun toLowerCase cfg rest s1 rm1) as [[s2 rm2] log].
  cbn [snd] in *. rewrite List.filter_app, IH, app_nil_r.
  destruct entry as [e |]; [| reflexivity]. cbn.
  destruct (isAcceptanceOf mint e) eqn:He; [| reflexivity].
  destruct (Hacc e eq_refl He) as [Hnot _]. contradiction.
Qed.

(** Proposals for a mint come from acceptances of that mint. *)
Lemma proposalsFor_le (mint : string)
    (log : list (WebSocketEvent * SniperOutcome)) :
  Forall (fun entry =>
            match entry with
            | (event, Accepted (Some tr)) =>
                eventMint event = Some (TradeRequest.mint tr)
            | _ => True
            end) log ->
  (length (proposalsFor mint log)
   <= length (List.filter (isAcceptanceOf mint) log))%nat.
Proof.
  unfold proposalsFor.
  induction 1 as [| [event out] log Hentry _ IH]; [reflexivity |].
  cbn [omap list_omap List.filter isAcceptanceOf].
  destruct out as [| [tr |]]; cbn [List.filter].
  - exact IH.
  - rewrite Hentry.
    destruct (String.eqb (TradeRequest.mint tr) mint); cbn [length]; lia.
  - destruct (match eventMint event with
              | Some m => String.eqb m mint
              | None => false
              end); cbn [length]; lia.
Qed.

Lemma sniperRun_log_mints (cfg : Config.t) (steps : list SniperStep)
    (s : SniperStrategy.t) (rm : RiskManager.t) :
  Forall (fun entry =>
            match entry with
            | (event, Accepted (Some tr)) =>
                eventMint event = Some (TradeRequest.mint tr)
            | _ => True
            end) (sniperRun toLowerCase cfg steps s rm).2.
Proof.
  revert s rm. induction steps as [| step rest IH]; intros s rm;
    [constructor |].
  cbn [sniperRun].
  destruct (sniperStep toLowerCase cfg step s rm) as [[s1 rm1] entry] eqn:Hstep.
  specialize (IH s1 rm1).
  destruct (sniperRun toLowerCase cfg rest s1 rm1) as [[s2 rm2] log].
  cbn [snd] in *. apply Forall_app. split; [| exact IH].
  destruct step as [params | now event clk1 w1 clk2 w2 pf];
    cbn [sniperStep] in Hstep.
  - injection Hstep as <- <- <-. constructor.
  - destruct (shouldTrade toLowerCase now event s) as [go s'].
    destruct go.
    + destruct (getTrade cfg clk1 w1 clk2 w2 pf event s' rm)
        as [p rm'] eqn:Hp.
      injection Hstep as <- <- <-. cbn. constructor; [| constructor].
      destruct p as [tr |]; [| exact I].
      apply (getTrade_mint cfg clk1 w1 clk2 w2 pf event s' rm tr).
      rewrite Hp. reflexivity.
    + injection Hstep as <- <- <-. cbn. constructor; [exact I | constructor].
Qed.

(** At most one acceptance per mint in any run. *)
Lemma sniperRun_accepts_once (cfg : Config.t) (steps : list SniperStep)
    (s : SniperStrategy.t) (rm : RiskManager.t) (mint : string) :
  (length (List.filter (isAcceptanceOf mint)
             (sniperRun toLowerCase cfg steps s rm).2)
   <= 1)%nat.
Proof.
  revert s rm. induction steps as [| step rest IH]; intros s rm;
    [cbn; lia |].
  cbn [sniperRun].
  pose proof (sniperStep_accepts cfg step s rm mint) as Hacc.
  destruct (sniperStep toLowerCase cfg step s rm) as [[s1 rm1] entry].
  cbn [fst snd] in *.
  pose proof (sniperRun_processed cfg rest s1 rm1 mint) as Hafter.
  specialize (IH s1 rm1).
  destruct (sniperRun toLowerCase cfg rest s1 rm1) as [[s2 rm2] log].
  cbn [snd] in *. rewrite List.filter_app, length_app.
  destruct entry as [e |]; cbv [option_list option_rect];
    cbn [List.filter]; [| cbn [length Nat.add]; lia].
  destruct (isAcceptanceOf mint e) eqn:He;
    [| cbn [length Nat.add]; lia].
  destruct (Hacc e eq_refl He) as [_ Hin].
  rewrite (Hafter Hin). cbn [length Nat.add]. lia.
Qed.

(** C8.  The sniper strategy accepts a mint at most once.  A newToken
    event is accepted iff the strategy is enabled, the mint is not in
    the processed set, the token is not older than [maxAgeMs], its
    creator is not blocked and its name and symbol hold no blocked
    phrase; accepting puts the mint into the processed set at once; an
    event whose mint is in the set is declined and changes nothing.
    Hence in every sequence of reconfigurations and events, from every
    state, at most one event per mint is accepted and at most one
    proposal per mint is emitted, and none for a mint already in the
    set. *)
Theorem C8_sniper_accepts_a_mint_once (cfg : Config.t)
    (steps : list SniperStep) (s : SniperStrategy.t) (rm : RiskManager.t)
    (mint : string) :
  let log := (sniperRun toLowerCase cfg steps s rm).2 in
  (length (List.filter (isAcceptanceOf mint) log) <= 1)%nat
  /\ (length (proposalsFor mint log) <= 1)%nat
  /\ (mint ∈ processed s ->
      List.filter (isAcceptanceOf mint) log = []
      /\ proposalsFor mint log = [])
  /\ (forall (now : Z) (d : NewTokenData.t),
         let r := shouldTrade toLowerCase now (newToken d) s in
         (r.1 = true <->
          isEnabled s = true
          /\ (NewTokenData.mint d ∉ processed s)
          /\ (now - NewTokenData.createdAt d <= maxAgeMs s)%Z
          /\ (NewTokenData.creatorAddress d ∉ blockedCreators s)
          /\ hasBlockedPhrase toLowerCase s (NewTokenData.name d)
               (NewTokenData.symbol d) = false)
         /\ (r.1 = true ->
             processed r.2 = {[ NewTokenData.mint d ]} ∪ processed s)
         /\ (NewTokenData.mint d ∈ processed s -> r = (false, s))).
Proof.
  cbv zeta.
  pose proof (sniperRun_accepts_once cfg steps s rm mint) as Honce.
  pose proof (proposalsFor_le mint _ (sniperRun_log_mints cfg steps s rm))
    as Hle.
  split; [exact Honce |]. split; [lia |]. split.
  - intros Hin.
    pose proof (sniperRun_processed cfg steps s rm mint Hin) as Hnil.
    split; [exact Hnil |].
    rewrite Hnil in Hle. cbn [length] in Hle.
    destruct (proposalsFor mint _); [reflexivity | cbn in Hle; lia].
  - intros now d. split; [| split].
    + split.
      * intros H. destruct (shouldTrade_true _ _ _ H)
          as (d' & [= <-] & He & Hp & Ha & Hc & Hb & _).
        auto.
      * intros (He & Hp & Ha & Hc & Hb). unfold shouldTrade.
        rewrite He. cbn [negb].
        rewrite bool_decide_eq_false_2 by exact Hp.
        destruct (Z.gtb_spec (now - NewTokenData.createdAt d) (maxAgeMs s));
          [lia |].
        rewrite bool_decide_eq_false_2 by exact Hc.
        rewrite Hb. reflexivity.
    + intros H. destruct (shouldTrade_true _ _ _ H)
        as (d' & [= <-] & _ & _ & _ & _ & _ & ->).
      reflexivity.
    + apply shouldTrade_processed.
Qed.
End Sniper.

(* --------------------------------------------------------------------- *)
(*  The exit strategy                                                    *)
(* --------------------------------------------------------------------- *)

Section ExitClaims.
Import PositionManagementStrategy.

(** An open position is left when the price is at or below its
    stop-loss or at or above its take-profit. *)
Lemma shouldExitPosition_open (p : Position.t) (price : Q) :
  Position.status p = open ->
  (shouldExitPosition p price = true
   <-> price <= Position.stopLoss p \/ Position.takeProfit p <= price).
Proof.
  intros Hs. unfold shouldExitPosition. rewrite Hs. cbn [Status_eqb negb].
  destruct (Qle_bool price (Position.stopLoss p)) eqn:E1.
  - apply Qle_bool_iff in E1. tauto.
  - destruct (Qgeb price (Position.takeProfit p)) eqn:E2.
    + apply Qgeb_true in E2. tauto.
    + apply Qgeb_false in E2.
      assert (Position.stopLoss p < price).
      { destruct (Qlt_le_dec (Position.stopLoss p) price) as [H | H];
          [exact H |].
        apply Qle_bool_iff in H. congruence. }
      split; [discriminate | intros [H' | H']; lra].
Qed.

(** C9 as stated fails.  The ledger holds an open position in [A] with
    stop-loss 0.9.  A trade of [A] at price 1.0 is processed at time
    20 000; a trade at price 0.89, below the stop-loss, arrives 5 seconds
    later, inside the 10 second processing interval of the token, and
    [shouldTrade] returns false. *)
Lemma C9_counterexample :
  let trade price :=
    tokenTrade
      {| TokenTradeData.mint := "A";
         TokenTradeData.action := sell;
         TokenTradeData.price := price;
         TokenTradeData.amountSol := 1;
         TokenTradeData.trader := "T";
         TokenTradeData.signature := "S";
         TokenTradeData.timestamp := 0;
         TokenTradeData.symbol := None |} in
  let s1 := (shouldTrade 20000 ledgerAfterFirstBuy (trade 1) new).2 in
  let r := shouldTrade 25000 ledgerAfterFirstBuy (trade 0.89) s1 in
  isEnabled s1 = true
  /\ (exists p,
         PortfolioManager.getOpenPositionForToken ledgerAfterFirstBuy "A"
         = Some p
         /\ Position.stopLoss p == 0.9
         /\ 0.89 <= Position.stopLoss p)
  /\ r.1 = false.
Proof.
  cbv zeta. split; [reflexivity |]. split; [| reflexivity].
  eexists. split; [reflexivity |].
  split; [reflexivity | apply Qle_bool_iff; reflexivity].
Qed.

(** C9, amended.  [shouldTrade] of the exit strategy returns true iff
    the strategy is enabled, the event is a tokenTrade, the ledger holds
    an open position for its mint, at least [minProcessingIntervalMs]
    have passed since the token was last processed (since time 0 for a
    token never processed), and the price of the event is at or below
    the stop-loss or at or above the take-profit of that position.
    When it does, [getTrade] proposes to sell 100% of the holdings
    provided the wallet holds the token, and nothing otherwise. *)
Theorem C9_exit_fires_iff (now : Z) (pf : Portfolio.t)
    (event : WebSocketEvent) (s : PositionManagementStrategy.t) :
  ((shouldTrade now pf event s).1 = true
   <-> isEnabled s = true
       /\ exists d p,
            event = tokenTrade d
            /\ PortfolioManager.getOpenPositionForToken pf
                 (TokenTradeData.mint d) = Some p
            /\ (minProcessingIntervalMs s
                <= now - default 0%Z
                           (lastProcessedTime s !! TokenTradeData.mint d))%Z
            /\ (TokenTradeData.price d <= Position.stopLoss p
                \/ Position.takeProfit p <= TokenTradeData.price d))
  /\ forall (cfg : Config.t) (clk : Clock.t) (wallet : Wallet.t)
       (rm : RiskManager.t),
       (shouldTrade now pf event s).1 = true ->
       exists d,
         event = tokenTrade d
         /\ (getTrade cfg clk wallet pf event rm).1
            = if Wallet.hasToken wallet (TokenTradeData.mint d)
              then Some (sellAllRequest cfg (TokenTradeData.mint d))
              else None.
Proof.
  assert (Hchar :
    (shouldTrade now pf event s).1 = true
    <-> isEnabled s = true
        /\ exists d p,
             event = tokenTrade d
             /\ PortfolioManager.getOpenPositionForToken pf
                  (TokenTradeData.mint d) = Some p
             /\ (minProcessingIntervalMs s
                 <= now - default 0%Z
                            (lastProcessedTime s !! TokenTradeData.mint d))%Z
             /\ (TokenTradeData.price d <= Position.stopLoss p
                 \/ Position.takeProfit p <= TokenTradeData.price d)).
  { unfold shouldTrade. destruct (isEnabled s); cbn [negb].
    2: { split; [discriminate | intros [? _]; discriminate]. }
    destruct event as [d | d | ty].
    1, 3: split; [discriminate | intros (_ & d' & p & ? & _); discriminate].
    destruct (PortfolioManager.getOpenPositionForToken pf
                (TokenTradeData.mint d)) as [p |] eqn:Hget.
    2: { split; [discriminate |].
         intros (_ & d' & p & [= <-] & Hp & _). congruence. }
    pose proof (getOpenPositionForToken_isOpenFor _ _ _ Hget) as Hopen.
    assert (Hstatus : Position.status p = open).
    { unfold PortfolioManager.isOpenFor, PortfolioManager.isOpen in Hopen.
      apply andb_true_iff in Hopen as [_ Hs].
      destruct (Position.status p); [reflexivity | discriminate]. }
    unfold shouldProcessToken.
    cbn [updateTokenPrice lastProcessedTime minProcessingIntervalMs].
    destruct (Z.ltb_spec
                (now - default 0%Z
                         (lastProcessedTime s !! TokenTradeData.mint d))
                (minProcessingIntervalMs s)) as [Hlt | Hge]; cbn [negb fst].
    - split; [discriminate |].
      intros (_ & d' & p' & [= <-] & _ & Hint & _). lia.
    - rewrite (shouldExitPosition_open _ _ Hstatus). split.
      + intros Hx. split; [reflexivity |]. exists d, p. auto.
      + intros (_ & d' & p' & [= <-] & Hp & _ & Hx).
        rewrite Hget in Hp. injection Hp as <-. exact Hx. }
  split; [exact Hchar |].
  intros cfg clk wallet rm Hfire.
  apply Hchar in Hfire as (_ & d & p & -> & Hget & _).
  exists d. split; [reflexivity |].
  unfold getTrade. rewrite Hget. unfold RiskManager.checkTrade.
  destruct (Wallet.hasToken wallet (TokenTradeData.mint d)); reflexivity.
Qed.
End ExitClaims.

(* --------------------------------------------------------------------- *)
(*  The strategy pipeline                                                *)
(* --------------------------------------------------------------------- *)

Section Pipeline.
Import StrategyManager.
Context {W : Type}.

(** Every strategy either accepts or abstains. *)
Lemma accepts_or_abstains (event : WebSocketEvent)
    (strategy : TradingStrategy W) (w : W) :
  (exists tr w', Accepts event strategy w tr w')
  \/ (exists w' reached, Abstains event strategy w w' reached).
Proof.
  destruct (shouldTrade strategy event w) as [[[|] | msg] w1] eqn:Hs.
  - destruct (getTrade strategy event w1) as [[[tr |] | msg] w2] eqn:Hg.
    + left. exists tr, w2, w1. auto.
    + right. exists w2, true. eapply AbstainsNoProposal; eauto.
    + right. exists w2, true. eapply AbstainsGetTradeThrew; eauto.
  - right. exists w1, false. apply AbstainsDeclined; auto.
  - right. exists w1, false. eapply AbstainsShouldTradeThrew; eauto.
Qed.

(** The loop steps over a strategy that abstains. *)
Lemma tryStrategies_abstains (event : WebSocketEvent) (index : nat)
    (strategy : TradingStrategy W) (rest : list (TradingStrategy W))
    (w w1 : W) (reached : bool) :
  Abstains event strategy w w1 reached ->
  tryStrategies event index (strategy :: rest) w
  = let r := tryStrategies event (S index) rest w1 in
    mkRun (result r) (final r) (consulted index reached ++ calls r).
Proof.
  intros [Hs | msg Hs | w0 Hs Hg | w0 msg Hs Hg]; cbn [tryStrategies];
    rewrite Hs; try rewrite Hg; reflexivity.
Qed.

(** The loop stops at a strategy that accepts. *)
Lemma tryStrategies_accepts (event : WebSocketEvent) (index : nat)
    (strategy : TradingStrategy W) (rest : list (TradingStrategy W))
    (w w2 : W) (tr : TradeRequest.t) :
  Accepts event strategy w tr w2 ->
  tryStrategies event index (strategy :: rest) w
  = mkRun (Some (strategy, tr)) w2 (consulted index true).
Proof.
  intros (w1 & Hs & Hg). cbn [tryStrategies]. rewrite Hs, Hg. reflexivity.
Qed.

Lemma tryStrategies_first_accepts (event : WebSocketEvent)
    (pre : list (TradingStrategy W)) :
  forall (index : nat) (strategy : TradingStrategy W)
    (post : list (TradingStrategy W)) (w w1 w2 : W) (trace : list Call)
    (tr : TradeRequest.t),
    AllAbstain event index pre w w1 trace ->
    Accepts event strategy w1 tr w2 ->
    tryStrategies event index (pre ++ strategy :: post) w
    = mkRun (Some (strategy, tr)) w2
        (trace ++ consulted (index + length pre) true).
Proof.
  induction pre as [| s0 pre IH];
    intros index strategy post w w1 w2 trace tr Hall Hacc.
  - inversion Hall; subst. cbn [app length].
    rewrite Nat.add_0_r. apply tryStrategies_accepts, Hacc.
  - inversion Hall as [| ? ? ? ? wm ? reached trace' Hab Hrest]; subst.
    cbn [app]. rewrite (tryStrategies_abstains _ _ _ _ _ _ _ Hab).
    rewrite (IH _ _ post _ _ _ _ _ Hrest Hacc).
    cbn [result final calls length].
    replace (index + S (length pre))%nat with (S index + length pre)%nat
      by lia.
    rewrite <- app_assoc. reflexivity.
Qed.

Lemma tryStrategies_all_abstain (event : WebSocketEvent)
    (enabled : list (TradingStrategy W)) :
  forall (index : nat) (w w' : W) (trace : list Call),
    AllAbstain event index enabled w w' trace ->
    tryStrategies event index enabled w = mkRun None w' trace.
Proof.
  induction enabled as [| s0 rest IH]; intros index w w' trace Hall.
  - inversion Hall; subst. reflexivity.
  - inversion Hall as [| ? ? ? ? wm ? reached trace' Hab Hrest]; subst.
    rewrite (tryStrategies_abstains _ _ _ _ _ _ _ Hab).
    rewrite (IH _ _ _ _ Hrest). reflexivity.
Qed.

(** One of the two always applies. *)
Lemma tryStrategies_cases (event : WebSocketEvent)
    (enabled : list (TradingStrategy W)) :
  forall (index : nat) (w : W),
    (exists pre strategy post w1 w2 trace tr,
        enabled = pre ++ strategy :: post
        /\ AllAbstain event index pre w w1 trace
        /\ Accepts event strategy w1 tr w2)
    \/ (exists w' trace, AllAbstain event index enabled w w' trace).
Proof.
  induction enabled as [| s0 rest IH]; intros index w.
  - right. exists w, []. constructor.
  - destruct (accepts_or_abstains event s0 w)
      as [(tr & w2 & Hacc) | (w1 & reached & Hab)].
    + left. exists [], s0, rest, w, w2, [], tr.
      split; [reflexivity |]. split; [constructor | exact Hacc].
    + destruct (IH (S index) w1)
        as [(pre & s & post & wa & wb & trace & tr & -> & Hall & Hacc)
           | (w' & trace & Hall)].
      * left. exists (s0 :: pre), s, post, wa, wb,
          (consulted index reached ++ trace), tr.
        split; [reflexivity |]. split; [| exact Hacc].
        econstructor; eauto.
      * right. exists w', (consulted index reached ++ trace).
        econstructor; eauto.
Qed.

(** Going through registered strategies is going through the enabled
    ones among them. *)
Lemma PassedOver_AllAbstain (event : WebSocketEvent) (w0 : W)
    (index : nat) (strategies : list (TradingStrategy W)) (w w' : W)
    (trace : list Call) (index' : nat) :
  PassedOver event w0 index strategies w w' trace index' ->
  AllAbstain event index (getEnabledStrategies strategies w0) w w' trace
  /\ index' = (index + length (getEnabledStrategies strategies w0))%nat.
Proof.
  unfold getEnabledStrategies.
  induction 1 as [index w
                 | index s rest w w' trace index' Hoff _ [IHa IHn]
                 | index s rest w w1 w2 reached trace index' Hon Hab _
                     [IHa IHn]];
    cbn [List.filter length].
  - split; [constructor | lia].
  - rewrite Hoff. auto.
  - rewrite Hon. cbn [length]. split; [| lia].
    econstructor; eauto.
Qed.

Lemma AllAbstain_PassedOver (event : WebSocketEvent) (w0 : W)
    (strategies : list (TradingStrategy W)) :
  forall (index : nat) (w w' : W) (trace : list Call),
    AllAbstain event index (getEnabledStrategies strategies w0) w w' trace ->
    PassedOver event w0 index strategies w w' trace
      (index + length (getEnabledStrategies strategies w0)).
Proof.
  unfold getEnabledStrategies.
  induction strategies as [| s rest IH]; intros index w w' trace Hall;
    cbn [List.filter length] in *.
  - inversion Hall; subst. rewrite Nat.add_0_r. constructor.
  - destruct (isEnabled s w0) eqn:Hs.
    + inversion Hall as [| ? ? ? ? wm ? reached trace' Hab Hrest]; subst.
      cbn [length].
      replace (index + S (length (List.filter
                 (fun strategy => isEnabled strategy w0) rest)))%nat
        with (S index + length (List.filter
                 (fun strategy => isEnabled strategy w0) rest))%nat by lia.
      eapply PassedOverAbstains; eauto.
    + apply PassedOverDisabled; auto.
Qed.

(** Where the enabled strategies split, the registered ones do. *)
Lemma getEnabledStrategies_split (w0 : W)
    (strategies : list (TradingStrategy W)) :
  forall (pre' : list (TradingStrategy W)) (strategy : TradingStrategy W)
    (post' : list (TradingStrategy W)),
    getEnabledStrategies strategies w0 = pre' ++ strategy :: post' ->
    exists pre post,
      strategies = pre ++ strategy :: post
      /\ getEnabledStrategies pre w0 = pre'
      /\ isEnabled strategy w0 = true.
Proof.
  unfold getEnabledStrategies.
  induction strategies as [| s rest IH]; intros pre' strategy post' H;
    cbn [List.filter] in H.
  - destruct pre'; discriminate.
  - destruct (isEnabled s w0) eqn:Hs.
    + destruct pre' as [| s' pre'].
      * injection H as -> _. exists [], rest. auto.
      * injection H as -> H.
        destruct (IH _ _ _ H) as (pre & post & -> & <- & Hon).
        exists (s' :: pre), post. cbn [List.filter]. rewrite Hs. auto.
    + destruct (IH _ _ _ H) as (pre & post & -> & <- & Hon).
      exists (s :: pre), post. cbn [List.filter]. rewrite Hs. auto.
Qed.

Lemma getEnabledStrategies_app (w0 : W)
    (pre post : list (TradingStrategy W)) :
  getEnabledStrategies (pre ++ post) w0
  = getEnabledStrategies pre w0 ++ getEnabledStrategies post w0.
Proof. apply List.filter_app. Qed.
End Pipeline.

Section PipelineClaims.
Import StrategyManager.

(** C10.  [processEvent] goes through the registered strategies in
    registration order, passes over those that are disabled when it
    starts, and consults the others, [shouldTrade] first and [getTrade]
    when that returned true.  If the registered strategies before some
    strategy are passed over in this way - the disabled ones not
    called, the enabled ones abstaining, a call that throws counting as
    abstaining - and that strategy is enabled and comes back with a
    proposal, the result is that strategy and its proposal, the calls
    made are those to the enabled strategies before it followed by
    [shouldTrade] and [getTrade] of that strategy, and no strategy
    registered after it is called: the run is the same whatever is
    registered after it.  If every registered strategy is passed over,
    the result is null.  One of the two is always the case. *)
Theorem C10_first_proposal_wins {W : Type}
    (strategies : list (TradingStrategy W)) (event : WebSocketEvent)
    (w : W) :
  (forall pre strategy post w1 w2 trace index tr,
      strategies = pre ++ strategy :: post ->
      PassedOver event w 0 pre w w1 trace index ->
      isEnabled strategy w = true ->
      Accepts event strategy w1 tr w2 ->
      processEvent strategies event w
      = mkRun (Some (strategy, tr)) w2
          (trace ++ [CallShouldTrade index; CallGetTrade index])
      /\ forall later,
           processEvent (pre ++ strategy :: later) event w
           = processEvent strategies event w)
  /\ (forall w' trace index,
         PassedOver event w 0 strategies w w' trace index ->
         processEvent strategies event w = mkRun None w' trace)
  /\ ((exists pre strategy post w1 w2 trace index tr,
          strategies = pre ++ strategy :: post
          /\ PassedOver event w 0 pre w w1 trace index
          /\ isEnabled strategy w = true
          /\ Accepts event strategy w1 tr w2)
      \/ (exists w' trace index,
            PassedOver event w 0 strategies w w' trace index)).
Proof.
  split; [| split].
  - intros pre strategy post w1 w2 trace index tr -> Hpre Hon Hacc.
    apply PassedOver_AllAbstain in Hpre as [Hall ->].
    assert (Hrun : forall later,
      processEvent (pre ++ strategy :: later) event w
      = mkRun (Some (strategy, tr)) w2
          (trace ++ [CallShouldTrade (length (getEnabledStrategies pre w));
                     CallGetTrade (length (getEnabledStrategies pre w))])).
    { intros later. unfold processEvent.
      rewrite getEnabledStrategies_app.
      unfold getEnabledStrategies at 2. cbn [List.filter]. rewrite Hon.
      exact (tryStrategies_first_accepts event _ 0 strategy _
               w w1 w2 trace tr Hall Hacc). }
    split; [apply Hrun |]. intros later. now rewrite !Hrun.
  - intros w' trace index Hall.
    apply PassedOver_AllAbstain in Hall as [Hall _].
    apply tryStrategies_all_abstain, Hall.
  - destruct (tryStrategies_cases event (getEnabledStrategies strategies w)
                0 w)
      as [(pre' & s & post' & w1 & w2 & trace & tr & Hsplit & Hall & Hacc)
         | (w' & trace & Hall)].
    + left.
      destruct (getEnabledStrategies_split w strategies _ _ _ Hsplit)
        as (pre & post & -> & <- & Hon).
      exists pre, s, post, w1, w2, trace,
        (0 + length (getEnabledStrategies pre w))%nat, tr.
      split; [reflexivity |].
      split; [exact (AllAbstain_PassedOver event w pre 0 w w1 trace Hall) |].
      auto.
    + right.
      exists w', trace, (0 + length (getEnabledStrategies strategies w))%nat.
      exact (AllAbstain_PassedOver event w strategies 0 w w' trace Hall).
Qed.

(** The pipeline on the example strategies: the disabled one is not
    consulted, the faulty one throws and counts as abstaining, the
    first eager one accepts, and the second eager one is never called
    (the state records no call of it). *)
Example processEvent_example :
  let r :=
    processEvent [disabled; faulty; eager "First" "A"; eager "Second" "B"]
      (otherEvent "ping") [] in
  (name <$> (fst <$> result r)) = Some "First"%string
  /\ (TradeRequest.mint <$> (snd <$> result r)) = Some "A"%string
  /\ final r
     = ["Faulty.shouldTrade"; "First.shouldTrade";
        "First.getTrade"]%string
  /\ calls r = [CallShouldTrade 0; CallShouldTrade 1; CallGetTrade 1].
Proof. cbv zeta. repeat split. Qed.
End PipelineClaims.

(* --------------------------------------------------------------------- *)
(*  The momentum strategy                                                *)
(* --------------------------------------------------------------------- *)

Section Momentum.
Import MomentumStrategy.

(** Momentum detected: the cooldown time stamp of the token is set to
    the time of the detection before [checkMomentum] returns, hence
    before [getTrade] sizes or checks anything. *)
Lemma checkMomentum_stamps (now : Z) (mint : string)
    (s s' : MomentumStrategy.t) :
  checkMomentum now mint s = (Returned true, s') ->
  TokenData.lastBuyAttempt <$> (tokenData s' !! mint) = Some now.
Proof.
  unfold checkMomentum.
  destruct (tokenData s !! mint) as [data |]; [| discriminate].
  destruct (_ <? _)%Z; [discriminate |].
  destruct (_ <? _)%Z; [discriminate |].
  destruct (Qltb _ _); [discriminate |].
  destruct (last _) as [oldest |]; [| discriminate].
  destruct (head _) as [newest |]; [| discriminate].
  destruct (priceIncreaseBelow _ _ _); [discriminate |].
  intros [= <-]. cbn [tokenData withTokenData].
  rewrite lookup_insert_eq. reflexivity.
Qed.

(** Inside the cooldown of a token whose entry is still in the map
    nothing is detected and nothing changes. *)
Lemma checkMomentum_cooldown (now : Z) (mint : string)
    (s : MomentumStrategy.t) (data : TokenData.t) :
  tokenData s !! mint = Some data ->
  (now - TokenData.lastBuyAttempt data < cooldownPeriodMs s)%Z ->
  checkMomentum now mint s = (Returned false, s).
Proof.
  intros Hdata Hcool. unfold checkMomentum. rewrite Hdata.
  destruct (Z.ltb_spec (now - TokenData.lastBuyAttempt data)
              (cooldownPeriodMs s)); [reflexivity | lia].
Qed.

(** ** The cooldown survives while the entry of the token survives *)

Lemma existsb_insertNewestFirst (test : TokenTrade.t -> bool)
    (x : TokenTrade.t) (l : list TokenTrade.t) :
  existsb test (insertNewestFirst x l) = test x || existsb test l.
Proof.
  induction l as [| y rest IH]; [reflexivity |].
  cbn [insertNewestFirst]. destruct (_ >? _)%Z; cbn [existsb].
  - rewrite IH. destruct (test x), (test y); reflexivity.
  - reflexivity.
Qed.

Lemma existsb_sortNewestFirst (test : TokenTrade.t -> bool)
    (l : list TokenTrade.t) :
  existsb test (sortNewestFirst l) = existsb test l.
Proof.
  induction l as [| x rest IH]; [reflexivity |].
  cbn [sortNewestFirst foldr existsb].
  rewrite existsb_insertNewestFirst. fold (sortNewestFirst rest).
  rewrite IH. reflexivity.
Qed.

Lemma In_insertNewestFirst (x z : TokenTrade.t) (l : list TokenTrade.t) :
  In z (insertNewestFirst x l) -> z = x \/ In z l.
Proof.
  induction l as [| y rest IH]; cbn [insertNewestFirst].
  - intros [<- | []]. left. reflexivity.
  - destruct (_ >? _)%Z.
    + intros [<- | H]; [right; left; reflexivity |].
      destruct (IH H) as [-> | Hin]; [left | right; right]; auto.
    + intros [<- | H]; [left; reflexivity | right; exact H].
Qed.

Lemma newestFirst_insert (x : TokenTrade.t) (l : list TokenTrade.t) :
  newestFirst l -> newestFirst (insertNewestFirst x l).
Proof.
  unfold newestFirst. induction 1 as [| y rest Hrest IH Hy];
    cbn [insertNewestFirst].
  - repeat constructor.
  - destruct (Z.gtb_spec (TokenTrade.timestamp y) (TokenTrade.timestamp x))
      as [Hgt | Hle].
    + constructor; [exact IH |].
      apply Forall_forall. intros z Hz.
      apply list_elem_of_In, In_insertNewestFirst in Hz as [-> | Hin];
        [lia |].
      rewrite Forall_forall in Hy. apply Hy, list_elem_of_In, Hin.
    + constructor; [constructor; assumption |].
      constructor; [exact Hle |].
      eapply Forall_impl; [exact Hy |]. cbn. intros z Hz. lia.
Qed.

Lemma newestFirst_sort (l : list TokenTrade.t) :
  newestFirst (sortNewestFirst l).
Proof.
  induction l as [| x rest IH]; [constructor |].
  cbn [sortNewestFirst foldr]. apply newestFirst_insert, IH.
Qed.

(** In a history kept newest first, a trade newer than [cutoff] shows
    in every non-empty prefix. *)
Lemma hasRecent_take (cutoff : Z) (n : nat) (l : list TokenTrade.t) :
  newestFirst l ->
  existsb (fun t => (TokenTrade.timestamp t >? cutoff)%Z) l = true ->
  existsb (fun t => (TokenTrade.timestamp t >? cutoff)%Z) (take (S n) l)
  = true.
Proof.
  intros Hsorted Hex. destruct l as [| h rest]; [discriminate |].
  cbn [take existsb]. apply orb_true_iff. left.
  apply existsb_exists in Hex as (y & Hy & Hnew).
  apply Z.gtb_lt in Hnew. apply Z.gtb_lt.
  destruct Hy as [<- | Hy]; [exact Hnew |].
  apply StronglySorted_inv in Hsorted as [_ Hh].
  rewrite Forall_forall in Hh.
  specialize (Hh y (proj2 (list_elem_of_In _ _) Hy)). cbn in Hh. lia.
Qed.

Lemma hasRecentTrades_earlier (cutoff cutoff' : Z) (data : TokenData.t) :
  (cutoff' <= cutoff)%Z ->
  hasRecentTrades cutoff data = true ->
  hasRecentTrades cutoff' data = true.
Proof.
  unfold hasRecentTrades. intros Hle Hex.
  apply existsb_exists in Hex as (y & Hy & Hnew).
  apply existsb_exists. exists y. split; [exact Hy |].
  apply Z.gtb_lt in Hnew. apply Z.gtb_lt. lia.
Qed.

Lemma updateTokenData_coolingDown (d : TokenTradeData.t) (mint : string)
    (since : Z) (s : MomentumStrategy.t) :
  coolingDown mint since s ->
  coolingDown mint since (updateTokenData d s)
  /\ sameParameters s (updateTokenData d s).
Proof.
  intros (data & Hdata & Hsince & Hrecent).
  split; [| split; reflexivity].
  unfold coolingDown, updateTokenData.
  cbn [tokenData withTokenData timeWindowMs].
  destruct (decide (TokenTradeData.mint d = mint)) as [-> | Hne].
  - rewrite lookup_insert_eq, Hdata. cbn [from_option id].
    eexists. split; [reflexivity |]. split; [exact Hsince |].
    unfold hasRecentTrades in *. cbn [TokenData.trades].
    match goal with
    | |- context [sortNewestFirst ?l] => set (pushed := l)
    end.
    assert (Hsorted : existsb
              (fun t => (TokenTrade.timestamp t >? since - timeWindowMs s)%Z)
              (sortNewestFirst pushed) = true).
    { rewrite existsb_sortNewestFirst. unfold pushed.
      rewrite existsb_app, Hrecent. reflexivity. }
    destruct (maxTradeHistory <? length (sortNewestFirst pushed))%nat;
      [| exact Hsorted].
    apply (hasRecent_take _ 99); [apply newestFirst_sort | exact Hsorted].
  - rewrite lookup_insert_ne by exact Hne.
    exists data. auto.
Qed.

(** The sweep keeps the entry of a token whose cooldown started less
    than an hour before it. *)
Lemma cleanupOldData_coolingDown (now : Z) (mint : string) (since : Z)
    (s : MomentumStrategy.t) :
  (now <= since + ONE_HOUR_MS)%Z ->
  coolingDown mint since s ->
  coolingDown mint since (cleanupOldData now s)
  /\ sameParameters s (cleanupOldData now s).
Proof.
  intros Hnow (data & Hdata & Hsince & Hrecent).
  unfold cleanupOldData.
  destruct (_ <? _)%Z; [split; [exists data; auto | split; reflexivity] |].
  split; [| split; reflexivity].
  exists data. cbn [tokenData timeWindowMs].
  split; [| auto].
  apply map_lookup_filter_Some. split; [exact Hdata |]. cbn [snd].
  apply (hasRecentTrades_earlier (since - timeWindowMs s)); [| exact Hrecent].
  unfold ONE_HOUR_MS in Hnow. lia.
Qed.

Lemma checkMomentum_other (now : Z) (mint other : string) (since : Z)
    (s : MomentumStrategy.t) :
  other <> mint ->
  coolingDown mint since s ->
  coolingDown mint since (checkMomentum now other s).2
  /\ sameParameters s (checkMomentum now other s).2.
Proof.
  intros Hne Hcool. unfold checkMomentum.
  assert (Hsame : coolingDown mint since s /\ sameParameters s s)
    by (split; [exact Hcool | split; reflexivity]).
  destruct (tokenData s !! other) as [data' |]; [| exact Hsame].
  destruct (_ <? _)%Z; [exact Hsame |].
  destruct (_ <? _)%Z; [exact Hsame |].
  destruct (Qltb _ _); [exact Hsame |].
  destruct (last _) as [oldest |]; [| exact Hsame].
  destruct (head _) as [newest |]; [| exact Hsame].
  destruct (priceIncreaseBelow _ _ _); [exact Hsame |].
  cbn [snd]. split; [| split; reflexivity].
  destruct Hcool as (data & Hdata & Hsince & Hrecent).
  exists data. cbn [tokenData withTokenData timeWindowMs].
  rewrite lookup_insert_ne by exact Hne. auto.
Qed.

(** A detection starts the cooldown of the token. *)
Lemma shouldTrade_starts_cooldown (nowCleanup nowMomentum : Z)
    (d : TokenTradeData.t) (s s' : MomentumStrategy.t) :
  shouldTrade nowCleanup nowMomentum (tokenTrade d) s = (Returned true, s') ->
  coolingDown (TokenTradeData.mint d) nowMomentum s'
  /\ sameParameters s s'.
Proof.
  unfold shouldTrade. destruct (isEnabled s); cbn [negb]; [| discriminate].
  set (s2 := cleanupOldData nowCleanup (updateTokenData d s)).
  assert (Hpar : sameParameters s s2).
  { unfold s2, cleanupOldData. destruct (_ <? _)%Z; split; reflexivity. }
  destruct Hpar as [Hw Hc].
  unfold checkMomentum.
  destruct (tokenData s2 !! TokenTradeData.mint d) as [data |];
    [| discriminate].
  destruct (_ <? _)%Z; [discriminate |].
  destruct (_ <? _)%Z; [discriminate |].
  destruct (Qltb _ _); [discriminate |].
  destruct (last _) as [oldest |] eqn:Hlast; [| discriminate].
  destruct (head _) as [newest |]; [| discriminate].
  destruct (priceIncreaseBelow _ _ _); [discriminate |].
  intros [= <-]. split; [| split; assumption].
  eexists. cbn [tokenData withTokenData timeWindowMs].
  rewrite lookup_insert_eq. split; [reflexivity |].
  split; [reflexivity |].
  unfold hasRecentTrades. cbn [stamp TokenData.trades].
  apply last_Some_elem_of in Hlast.
  apply list_elem_of_In in Hlast. unfold recentTrades in Hlast.
  apply filter_In in Hlast as [Hin Hnew].
  apply existsb_exists. exists oldest. split; [exact Hin |].
  apply Z.ltb_lt in Hnew. apply Z.gtb_lt. lia.
Qed.

(** Inside a cooldown of at most one hour: the token does not trigger,
    and the cooldown stays in place whatever the event is about. *)
Lemma shouldTrade_coolingDown (nowCleanup nowMomentum : Z)
    (event : WebSocketEvent) (mint : string) (since : Z)
    (s : MomentumStrategy.t) :
  coolingDown mint since s ->
  (cooldownPeriodMs s <= ONE_HOUR_MS)%Z ->
  (nowCleanup <= nowMomentum)%Z ->
  (nowMomentum - since < cooldownPeriodMs s)%Z ->
  let r := shouldTrade nowCleanup nowMomentum event s in
  coolingDown mint since r.2
  /\ sameParameters s r.2
  /\ (eventMint event = Some mint -> r.1 = Returned false).
Proof.
  intros Hcool Hhour Hclock Hin. cbv zeta. unfold shouldTrade.
  assert (Hsame : coolingDown mint since s /\ sameParameters s s)
    by (split; [exact Hcool | split; reflexivity]).
  destruct (isEnabled s); cbn [negb fst snd];
    [| destruct Hsame; auto].
  destruct event as [d | d | ty]; cbn [fst snd eventMint];
    [destruct Hsame; auto | | destruct Hsame; auto].
  destruct (updateTokenData_coolingDown d mint since s Hcool)
    as [Hcool1 [Hw1 Hc1]].
  destruct (cleanupOldData_coolingDown nowCleanup mint since
              (updateTokenData d s) ltac:(lia) Hcool1)
    as [Hcool2 [Hw2 Hc2]].
  set (s2 := cleanupOldData nowCleanup (updateTokenData d s)) in *.
  destruct (decide (TokenTradeData.mint d = mint)) as [Heq | Hne].
  - destruct Hcool2 as (data & Hdata & Hsince & Hrecent).
    rewrite Heq.
    rewrite (checkMomentum_cooldown nowMomentum mint s2 data Hdata)
      by (rewrite Hsince, Hc2, Hc1; exact Hin).
    cbn [fst snd]. split; [exists data; auto |].
    split; [split; congruence | reflexivity].
  - destruct (checkMomentum_other nowMomentum mint _ since s2 Hne Hcool2)
      as [Hcool3 [Hw3 Hc3]].
    split; [exact Hcool3 |]. split; [split; congruence |].
    intros [= Hm]. contradiction.
Qed.

(** The same along a sequence of events that all fall inside the
    cooldown: no event of the token gets the answer true. *)
Lemma momentumRun_coolingDown (mint : string) (since : Z)
    (events : list (Z * Z * WebSocketEvent)) :
  forall s : MomentumStrategy.t,
    coolingDown mint since s ->
    (cooldownPeriodMs s <= ONE_HOUR_MS)%Z ->
    Forall (fun e : Z * Z * WebSocketEvent =>
              (e.1.1 <= e.1.2 /\ e.1.2 - since < cooldownPeriodMs s)%Z)
      events ->
    Forall2 (fun (e : Z * Z * WebSocketEvent) (answer : outcome bool) =>
               eventMint e.2 = Some mint -> answer = Returned false)
      events (momentumRun events s).1.
Proof.
  induction events as [| [[nowC nowM] event] rest IH];
    intros s Hcool Hhour Hall; [constructor |].
  apply Forall_cons in Hall as [[Hclock Hin] Hrest]. cbn [fst snd] in *.
  cbn [momentumRun].
  pose proof (shouldTrade_coolingDown nowC nowM event mint since s
                Hcool Hhour Hclock Hin) as (Hcool1 & [Hw Hc] & Hanswer).
  destruct (shouldTrade nowC nowM event s) as [answer s1].
  cbn [fst snd] in *.
  specialize (IH s1 Hcool1).
  rewrite Hc in IH. specialize (IH Hhour Hrest).
  destruct (momentumRun rest s1) as [answers s2]. cbn [fst] in *.
  constructor; [exact Hanswer | exact IH].
Qed.

(** From a detection on, for a cooldown of at most one hour: no later
    event of the token that is handled inside the cooldown gets the
    answer true, however many trades arrive. *)
Lemma momentum_cooldown_within_one_hour (nowCleanup nowMomentum : Z)
    (d : TokenTradeData.t) (s s' : MomentumStrategy.t)
    (events : list (Z * Z * WebSocketEvent)) :
  shouldTrade nowCleanup nowMomentum (tokenTrade d) s = (Returned true, s') ->
  (cooldownPeriodMs s <= ONE_HOUR_MS)%Z ->
  Forall (fun e : Z * Z * WebSocketEvent =>
            (e.1.1 <= e.1.2 /\ e.1.2 - nowMomentum < cooldownPeriodMs s)%Z)
    events ->
  Forall2 (fun (e : Z * Z * WebSocketEvent) (answer : outcome bool) =>
             eventMint e.2 = Some (TokenTradeData.mint d) ->
             answer = Returned false)
    events (momentumRun events s').1.
Proof.
  intros Htrigger Hhour Hall.
  destruct (shouldTrade_starts_cooldown _ _ _ _ _ Htrigger)
    as [Hcool [Hw Hc]].
  apply (momentumRun_coolingDown (TokenTradeData.mint d) nowMomentum
           events s' Hcool); rewrite Hc; assumption.
Qed.
End Momentum.

Section MomentumClaims.
Import MomentumStrategy.

(** C7.  The code at the failing input.  The strategy is configured
    with a cooldown of 120 minutes.  A burst of five trades of [A]
    triggers momentum and stamps the cooldown.  70 minutes later a trade
    of another token runs the periodic sweep, which drops the entry of
    [A] - its trades are older than the analysis window plus one hour -
    and the cooldown stamp with it.  A second burst of [A] triggers
    momentum again 80 minutes after the first trigger, inside the
    configured cooldown.  (For a cooldown of at most one hour the sweep
    cannot do this: [momentum_cooldown_within_one_hour].) *)
Theorem C7_cooldown_lost_by_cleanup :
  let firstBurst := burst "A" startTime 1 in
  let otherToken := [tradeAt "B" (startTime + 5000 + 70 * 60000) 1 0.2] in
  let secondBurst := burst "A" (startTime + 80 * 60000) 2 in
  let run1 := momentumRun firstBurst twoHourCooldown in
  let run2 := momentumRun otherToken run1.2 in
  let run3 := momentumRun secondBurst run2.2 in
  cooldownPeriodMs twoHourCooldown = (120 * 60000)%Z
  /\ last run1.1 = Some (Returned true)
  /\ TokenData.lastBuyAttempt <$> (tokenData run1.2 !! "A")
     = Some (startTime + 5000)%Z
  /\ tokenData run2.2 !! "A" = None
  /\ last run3.1 = Some (Returned true)
  /\ ((startTime + 80 * 60000 + 5000) - (startTime + 5000)
      < cooldownPeriodMs run2.2)%Z
  /\ (momentumRun cooldownScenario twoHourCooldown).1
     = [Returned false; Returned false; Returned false; Returned false;
        Returned true;
        Returned false;
        Returned false; Returned false; Returned false; Returned false;
        Returned true].
Proof.
  cbv zeta. repeat split; vm_compute; reflexivity.
Qed.
End MomentumClaims.

(* --------------------------------------------------------------------- *)
(*  The example scenarios of the specification                           *)
(* --------------------------------------------------------------------- *)

Section SpecScenarios.

(** Scenario 1: balance 1.0, portfolio value 2.0, 5% position limit,
    daily cap 3 unused, maximum trade 0.5: the optimal size is 0.10. *)
Example scenario_optimal_size :
  (RiskManager.getOptimalTradeSize scenarioConfig (Clock.at_ startTime)
     (walletWith 1 []) portfolioWorthTwo "A"
     (RiskManager.new (Clock.at_ startTime))).1
  == 0.10.
Proof. reflexivity. Qed.

(** Scenario 3: five trades of 0.1 SOL inside the window, the price
    moving from 1.00 to 1.06, trigger momentum; a sixth trade one minute
    later does not trigger again. *)
Example scenario_momentum :
  (momentumRun
     [ tradeAt "A" (startTime + 1000) 1.00 0.1;
       tradeAt "A" (startTime + 2000) 1.01 0.1;
       tradeAt "A" (startTime + 3000) 1.03 0.1;
       tradeAt "A" (startTime + 4000) 1.05 0.1;
       tradeAt "A" (startTime + 5000) 1.06 0.1;
       tradeAt "A" (startTime + 65000) 1.20 0.1 ]
     (MomentumStrategy.new startTime)).1
  = [Returned false; Returned false; Returned false; Returned false;
     Returned true; Returned false].
Proof. vm_compute. reflexivity. Qed.

(** Scenario 4: a position entered at 1.0 with stop-loss 0.9; a trade
    at 0.89 makes the exit strategy propose to sell 100%. *)
Example scenario_stop_loss :
  let event := (tradeAt "A" startTime 0.89 1).2 in
  (PositionManagementStrategy.shouldTrade startTime ledgerAfterFirstBuy
     event PositionManagementStrategy.new).1 = true
  /\ (PositionManagementStrategy.getTrade Config.default
        (Clock.at_ startTime) (walletWith 1 ["A"%string])
        ledgerAfterFirstBuy event (RiskManager.new (Clock.at_ startTime))).1
     = Some (PositionManagementStrategy.sellAllRequest Config.default "A").
Proof. cbv zeta. split; reflexivity. Qed.

(** Scenario 5: daily cap 5; three buys of 2 SOL are tracked; a fourth
    buy of 1 SOL is rejected with the daily-volume reason. *)
Example scenario_daily_cap :
  let rm :=
    fold_left applyCall
      [CallTrackTradeVolume (Clock.at_ (startTime + 1000)) 2;
       CallTrackTradeVolume (Clock.at_ (startTime + 2000)) 2;
       CallTrackTradeVolume (Clock.at_ (startTime + 3000)) 2]
      (RiskManager.new (Clock.at_ startTime)) in
  RiskManager.dailyTradingVolume rm == 6
  /\ (RiskManager.checkTrade Config.default (Clock.at_ (startTime + 4000))
        (walletWith 10 []) ledgerAfterFirstBuy buy "A" 1 rm).1
     = RiskCheckResult.deny (ExceedsDailyVolume 5).
Proof. cbv zeta. split; reflexivity. Qed.
End SpecScenarios.

(* ===================================================================== *)
(*  Further properties of the code                                       *)
(* ===================================================================== *)

(* --------------------------------------------------------------------- *)
(*  The position ledger                                                  *)
(* --------------------------------------------------------------------- *)

Section MoreLedger.
Import Position Portfolio PortfolioManager.

Lemma fold_left_Qplus (f : Position.t -> Q) (l : list Position.t) (acc : Q) :
  fold_left (fun a p => a + f p) l acc == acc + sumQ (map f l).
Proof.
  revert acc. induction l as [| p rest IH]; intros acc;
    cbn [fold_left map].
  - unfold sumQ. cbn [foldr]. ring.
  - rewrite IH. unfold sumQ. cbn [foldr]. ring.
Qed.

Lemma sumQ_pricedOpenPositions (prices : gmap string Q)
    (l : list Position.t) :
  sumQ (map (positionPnl prices) l)
  == sumQ (map markToMarket
             (omap (fun p =>
                      match prices !! mint p with
                      | Some price =>
                          if truthy price then Some (p, price) else None
                      | None => None
                      end) l)).
Proof.
  unfold sumQ. induction l as [| p rest IH]; [reflexivity |].
  cbn [map omap list_omap foldr]. rewrite IH. unfold positionPnl.
  destruct (prices !! mint p) as [price |];
    [destruct (truthy price) |]; cbn [map foldr];
    unfold markToMarket; cbn [fst snd]; ring.
Qed.

(** X1.  [updateUnrealizedPnl] overwrites the unrealized P&L with the
    mark-to-market sum over the open positions whose token has a known
    price other than zero; closed positions, unknown prices and a price
    of zero contribute nothing.  The previous value plays no part:
    refreshing twice gives what the last refresh alone gives.
    Positions, invested total and realized P&L are untouched. *)
Theorem X1_updateUnrealizedPnl_overwrites (prices prices' : gmap string Q)
    (pf : Portfolio.t) :
  unrealizedPnl (updateUnrealizedPnl prices pf)
  == sumQ (map markToMarket (pricedOpenPositions prices pf))
  /\ updateUnrealizedPnl prices (updateUnrealizedPnl prices' pf)
     = updateUnrealizedPnl prices pf
  /\ positions (updateUnrealizedPnl prices pf) = positions pf
  /\ totalInvestedSol (updateUnrealizedPnl prices pf) = totalInvestedSol pf
  /\ realizedPnl (updateUnrealizedPnl prices pf) = realizedPnl pf
  /\ unrealizedPnl (updateUnrealizedPnl ∅ pf) == 0.
Proof.
  split; [| split; [reflexivity | repeat split]].
  - unfold updateUnrealizedPnl. cbn [unrealizedPnl].
    rewrite fold_left_Qplus, sumQ_pricedOpenPositions.
    unfold pricedOpenPositions. ring.
  - unfold updateUnrealizedPnl. cbn [unrealizedPnl].
    rewrite fold_left_Qplus, sumQ_pricedOpenPositions.
    assert (Hnone :
      omap (fun p : Position.t =>
              match (∅ : gmap string Q) !! mint p with
              | Some price => if truthy price then Some (p, price) else None
              | None => None
              end) (getOpenPositions pf) = []).
    { induction (getOpenPositions pf) as [| p rest IH]; [reflexivity |].
      cbn [omap list_omap]. rewrite lookup_empty. exact IH. }
    rewrite Hnone. unfold sumQ. cbn [map foldr]. ring.
Qed.

Lemma truthy_true (a : Q) : truthy a = true <-> ~ a == 0.
Proof.
  unfold truthy. rewrite negb_true_iff.
  destruct (Qeq_bool a 0) eqn:E.
  - apply Qeq_bool_iff in E. split; [discriminate | tauto].
  - split; [| reflexivity]. intros _ H.
    apply Qeq_bool_iff in H. congruence.
Qed.

Lemma In_exitSignals (prices : gmap string Q) (p x : Position.t) :
  In x (exitSignals prices p)
  <-> x = p
      /\ exists price,
           prices !! mint p = Some price
           /\ ~ price == 0
           /\ (price <= stopLoss p \/ takeProfit p <= price).
Proof.
  unfold exitSignals. destruct (prices !! mint p) as [price |].
  2: { split; [intros [] | intros (_ & ? & ? & _); discriminate]. }
  destruct (truthy price) eqn:Ht.
  2: { split; [intros [] |].
       intros (_ & price' & [= <-] & Hnz & _).
       apply truthy_true in Hnz. congruence. }
  apply truthy_true in Ht.
  destruct (Qle_bool price (stopLoss p)) eqn:E1;
    destruct (Qgeb price (takeProfit p)) eqn:E2; cbn [app In];
    try apply Qle_bool_iff in E1; try apply Qgeb_true in E2;
    try apply Qgeb_false in E2.
  - split; [intros [<- | [<- | []]] | intros [-> _]; auto];
      (split; [reflexivity | exists price; auto]).
  - split; [intros [<- | []] | intros [-> _]; auto].
    split; [reflexivity | exists price; auto].
  - split; [intros [<- | []] | intros [-> _]; auto].
    split; [reflexivity | exists price; auto].
  - split; [intros [] |].
    intros (_ & price' & [= <-] & _ & [H | H]).
    + apply Qle_bool_iff in H. congruence.
    + lra.
Qed.

(** X2.  [checkPositionsForExitSignals] lists a position iff it is
    open, its token has a known price other than zero, and that price
    is at or below the stop-loss or at or above the take-profit: for
    such a price this is the test [shouldExitPosition] of the exit
    strategy.  A position whose stop-loss is not below its take-profit
    can meet both tests, and is then listed twice. *)
Theorem X2_exit_signal_scan (prices : gmap string Q) (pf : Portfolio.t) :
  (forall x,
      In x (checkPositionsForExitSignals prices pf)
      <-> In x (getOpenPositions pf)
          /\ exists price,
               prices !! mint x = Some price
               /\ ~ price == 0
               /\ PositionManagementStrategy.shouldExitPosition x price
                  = true)
  /\ (length (checkPositionsForExitSignals prices pf)
      <= 2 * length (getOpenPositions pf))%nat
  /\ (forall p price,
         prices !! mint p = Some price ->
         ~ price == 0 ->
         takeProfit p <= price ->
         price <= stopLoss p ->
         exitSignals prices p = [p; p]).
Proof.
  split; [| split].
  - intros x. unfold checkPositionsForExitSignals. rewrite in_flat_map.
    split.
    + intros (p & Hp & Hx). apply In_exitSignals in Hx
        as (-> & price & Hprice & Hnz & Hcross).
      split; [exact Hp |]. exists price. split; [exact Hprice |].
      split; [exact Hnz |].
      apply shouldExitPosition_open; [| exact Hcross].
      unfold getOpenPositions in Hp. apply filter_In in Hp as [_ Ho].
      unfold isOpen in Ho. destruct (status p); [reflexivity | discriminate].
    + intros (Hx & price & Hprice & Hnz & Hexit). exists x.
      split; [exact Hx |]. apply In_exitSignals. split; [reflexivity |].
      exists price. split; [exact Hprice |]. split; [exact Hnz |].
      apply shouldExitPosition_open; [| exact Hexit].
      unfold getOpenPositions in Hx. apply filter_In in Hx as [_ Ho].
      unfold isOpen in Ho. destruct (status x); [reflexivity | discriminate].
  - unfold checkPositionsForExitSignals.
    induction (getOpenPositions pf) as [| p rest IH]; [cbn; lia |].
    cbn [flat_map]. rewrite length_app. cbn [length].
    assert (length (exitSignals prices p) <= 2)%nat; [| lia].
    unfold exitSignals. destruct (prices !! mint p); [| cbn; lia].
    destruct (truthy q); [| cbn; lia].
    destruct (Qle_bool _ _), (Qgeb _ _); cbn; lia.
  - intros p price Hprice Hnz Htp Hsl. unfold exitSignals.
    rewrite Hprice. apply truthy_true in Hnz. rewrite Hnz.
    apply Qle_bool_iff in Hsl. rewrite Hsl.
    apply Qgeb_true in Htp. rewrite Htp. reflexivity.
Qed.

(** The records of a ledger after [mutateFirst]: each index holds what
    it held, or the change of it when it passed the test. *)
Lemma mutateFirst_lookup (test : Position.t -> bool)
    (f : Position.t -> Position.t) (l : list Position.t) (i : nat)
    (p : Position.t) :
  l !! i = Some p ->
  mutateFirst test f l !! i = Some p
  \/ (test p = true /\ mutateFirst test f l !! i = Some (f p)).
Proof.
  revert i. induction l as [| x rest IH]; intros i Hi; [discriminate |].
  cbn [mutateFirst]. destruct (test x) eqn:Ht.
  - destruct i as [| i]; cbn in *.
    + injection Hi as <-. right. auto.
    + left. exact Hi.
  - destruct i as [| i]; cbn in *.
    + left. exact Hi.
    + apply IH, Hi.
Qed.

Lemma isOpenFor_status (m : string) (p : Position.t) :
  isOpenFor m p = true -> status p = open.
Proof.
  unfold isOpenFor, isOpen. intros H. apply andb_true_iff in H as [_ H].
  destruct (status p); [reflexivity | discriminate].
Qed.

(** X4.  No ledger operation removes a position, moves one, or touches
    a closed one: after [addPosition], [closePosition] or
    [updateUnrealizedPnl] every index that held a position still holds
    a position of the same mint with the same creation time, and a
    closed position is still there unchanged. *)
Theorem X4_ledger_keeps_history (op : LedgerOp) (pf : Portfolio.t) :
  let pf' := applyOp pf op in
  (length (positions pf) <= length (positions pf'))%nat
  /\ forall (i : nat) (p : Position.t),
       positions pf !! i = Some p ->
       (exists p',
           positions pf' !! i = Some p'
           /\ mint p' = mint p
           /\ timestamp p' = timestamp p
           /\ tokenName p' = tokenName p)
       /\ (status p = closed -> positions pf' !! i = Some p).
Proof.
  cbv zeta.
  assert (Hmut : forall m f,
    (forall p, mint (f p) = mint p /\ timestamp (f p) = timestamp p
               /\ tokenName (f p) = tokenName p) ->
    (length (positions pf)
     <= length (mutateFirst (isOpenFor m) f (positions pf)))%nat
    /\ forall i p,
         positions pf !! i = Some p ->
         (exists p',
             mutateFirst (isOpenFor m) f (positions pf) !! i = Some p'
             /\ mint p' = mint p /\ timestamp p' = timestamp p
             /\ tokenName p' = tokenName p)
         /\ (status p = closed ->
             mutateFirst (isOpenFor m) f (positions pf) !! i = Some p)).
  { intros m f Hf. split; [rewrite length_mutateFirst; lia |].
    intros i p Hi.
    destruct (mutateFirst_lookup (isOpenFor m) f _ i p Hi)
      as [Hsame | [Ht Hchg]].
    - split; [exists p; auto | auto].
    - split; [exists (f p); split; [exact Hchg | apply Hf] |].
      intros Hc. apply isOpenFor_status in Ht. congruence. }
  assert (Hid :
    (length (positions pf) <= length (positions pf))%nat
    /\ forall i p,
         positions pf !! i = Some p ->
         (exists p',
             positions pf !! i = Some p'
             /\ mint p' = mint p /\ timestamp p' = timestamp p
             /\ tokenName p' = tokenName p)
         /\ (status p = closed -> positions pf !! i = Some p)).
  { split; [lia |]. intros i p Hi. split; [exists p; auto | auto]. }
  destruct op as [now m tn ts price q sol sl tp | m ex sold pct | prices];
    cbn [applyOp].
  - unfold addPosition.
    destruct (getOpenPositionForToken pf m); cbn [snd positions].
    + apply Hmut. intros p. repeat split.
    + split; [rewrite length_app; lia |].
      intros i p Hi.
      split; [exists p; split; [apply lookup_app_l_Some; exact Hi | auto] |].
      intros _. apply lookup_app_l_Some. exact Hi.
  - unfold closePosition.
    destruct (getOpenPositionForToken pf m) as [e |]; [| exact Hid].
    destruct (_ || _); cbn [snd positions]; apply Hmut; intros p;
      repeat split.
  - exact Hid.
Qed.

(** X3.  A merged buy keeps the books: after [addPosition] on a mint
    with an open position, entry price times quantity of the position
    is what it was before plus the SOL just spent (unless the new total
    quantity is zero). *)
Theorem X3_merge_keeps_cost_basis (now : Z) (m tn ts : string)
    (price q sol sl tp : Q) (pf : Portfolio.t) (e : Position.t) :
  getOpenPositionForToken pf m = Some e ->
  ~ amount e + q == 0 ->
  costBasis (addPosition now m tn ts price q sol sl tp pf).1
  == costBasis e + sol.
Proof.
  intros Hget Hnz. unfold addPosition. rewrite Hget. cbn [fst].
  unfold costBasis, mergeInto. cbn [entryPrice amount].
  field. exact Hnz.
Qed.

(** Scenario 2 again: 100 units at 1.0, then 50 units for 60 SOL: the
    position stands for 160 SOL. *)
Lemma X3_witness :
  getOpenPositionForToken ledgerAfterFirstBuy "A"
  = Some (addPosition 1000 "A" "A" "A" 1 100 100 10 20 empty).1
  /\ costBasis
       (addPosition 2000 "A" "A" "A" 1.2 50 60 10 20 ledgerAfterFirstBuy).1
     == 160.
Proof.
  split; [reflexivity |].
  rewrite (X3_merge_keeps_cost_basis 2000 "A" "A" "A" 1.2 50 60 10 20
             ledgerAfterFirstBuy _ eq_refl).
  - reflexivity.
  - cbn. intros H. discriminate H.
Defined.

(** X5.  Partial closes add up: after a partial close of [q1] at
    [exitP] a second close of [q2] at the same price leaves the
    realized P&L where one close of [q1 + q2] would have put it. *)
Theorem X5_partial_closes_add_up (m : string) (exitP q1 pct1 q2 pct2 : Q)
    (pf : Portfolio.t) (e : Position.t) :
  getOpenPositionForToken pf m = Some e ->
  q1 < amount e ->
  pct1 < 100 ->
  let pf1 := (closePosition m exitP q1 pct1 pf).2 in
  getOpenPositionForToken pf1 m = Some (reduceAmount q1 e)
  /\ realizedPnl (closePosition m exitP q2 pct2 pf1).2
     == realizedPnl pf + (exitP - entryPrice e) * (q1 + q2).
Proof.
  intros Hget Hq Hpct. cbv zeta.
  destruct (getOpenPositionForToken_Some _ _ _ Hget) as [rest Hrest].
  pose proof (getOpenPositionForToken_isOpenFor _ _ _ Hget) as Hopen.
  assert (Hpf1 :
    closePosition m exitP q1 pct1 pf
    = (Some (reduceAmount q1 e),
       {| positions :=
            mutateFirst (isOpenFor m) (reduceAmount q1) (positions pf);
          totalInvestedSol := totalInvestedSol pf;
          realizedPnl :=
            realizedPnl pf + (exitP * q1 - entryPrice e * q1);
          unrealizedPnl := unrealizedPnl pf |})).
  { unfold closePosition. rewrite Hget.
    apply Qgeb_false in Hq. apply Qgeb_false in Hpct.
    rewrite Hq, Hpct. reflexivity. }
  rewrite Hpf1. cbn [snd].
  assert (Hget1 :
    getOpenPositionForToken
      {| positions :=
           mutateFirst (isOpenFor m) (reduceAmount q1) (positions pf);
         totalInvestedSol := totalInvestedSol pf;
         realizedPnl := realizedPnl pf + (exitP * q1 - entryPrice e * q1);
         unrealizedPnl := unrealizedPnl pf |} m
    = Some (reduceAmount q1 e)).
  { unfold getOpenPositionForToken. cbn [positions].
    rewrite (filter_mutateFirst_head _ _ _ _ _ Hrest).
    rewrite isOpenFor_reduceAmount, Hopen. reflexivity. }
  split; [exact Hget1 |].
  unfold closePosition. rewrite Hget1.
  destruct (_ || _); cbn [snd realizedPnl reduceAmount entryPrice]; ring.
Qed.

Lemma X5_witness :
  let pf1 := (closePosition "A" 1.5 30 30 ledgerAfterFirstBuy).2 in
  (30 < 100 /\ 30 < 100)
  /\ realizedPnl (closePosition "A" 1.5 70 100 pf1).2 == 50.
Proof.
  cbv zeta. split; [split; reflexivity |].
  destruct (X5_partial_closes_add_up "A" 1.5 30 30 70 100
              ledgerAfterFirstBuy
              (addPosition 1000 "A" "A" "A" 1 100 100 10 20 empty).1
              eq_refl eq_refl eq_refl) as [_ H].
  rewrite H. reflexivity.
Defined.
End MoreLedger.

(* --------------------------------------------------------------------- *)
(*  The risk gate and the sizing of the entry strategies                 *)
(* --------------------------------------------------------------------- *)

Section MoreRisk.
Import RiskCheckResult RiskManager.

Lemma checkBuy_allowed (cfg : Config.t) (balance pv vol a : Q) :
  allowed (checkBuy cfg balance pv vol a) = true
  <-> a + gasFeeBuffer <= balance
      /\ vol + a <= Config.maxDailyTradingVolume cfg
      /\ Config.minTradeAmountSol cfg <= a
      /\ a <= Config.maxTradeAmountSol cfg
      /\ a <= pv * (Config.maxPositionSizePercentage cfg / 100).
Proof.
  unfold checkBuy.
  set (mps := pv * (Config.maxPositionSizePercentage cfg / 100)).
  destruct (Qltb balance (a + gasFeeBuffer)) eqn:E1;
    [apply Qltb_true in E1 | apply Qltb_false in E1].
  { cbn. split; [discriminate | intros (? & _); lra]. }
  destruct (Qgtb (vol + a) (Config.maxDailyTradingVolume cfg)) eqn:E2;
    [apply Qgtb_true in E2 | apply Qgtb_false in E2].
  { cbn. split; [discriminate | intros (_ & ? & _); lra]. }
  destruct (Qltb a (Config.minTradeAmountSol cfg)) eqn:E3;
    [apply Qltb_true in E3 | apply Qltb_false in E3].
  { cbn. split; [discriminate | intros (_ & _ & ? & _); lra]. }
  destruct (Qgtb a (Config.maxTradeAmountSol cfg)) eqn:E4;
    [apply Qgtb_true in E4 | apply Qgtb_false in E4].
  { cbn. split; [discriminate | intros (_ & _ & _ & ? & _); lra]. }
  destruct (Qgtb a mps) eqn:E5;
    [apply Qgtb_true in E5 | apply Qgtb_false in E5].
  { cbn. split; [discriminate | intros (_ & _ & _ & _ & ?); lra]. }
  cbn. split; [auto | reflexivity].
Qed.

Lemma getOptimalTradeSize_state (cfg : Config.t) (clk : Clock.t)
    (wallet : Wallet.t) (pf : Portfolio.t) (mint : string)
    (rm : RiskManager.t) :
  (getOptimalTradeSize cfg clk wallet pf mint rm).2
  = checkDailyReset clk rm.
Proof.
  unfold getOptimalTradeSize, getDailyTradingVolume.
  destruct (Qltb _ _); [reflexivity |].
  destruct (PortfolioManager.getOpenPositionForToken pf mint); reflexivity.
Qed.

(** What the sizing block hands on when it does not return null. *)
Lemma sizeAndCheck_Some (cfg : Config.t) (clk1 : Clock.t)
    (wallet1 : Wallet.t) (clk2 : Clock.t) (wallet2 : Wallet.t)
    (pf : Portfolio.t) (mint : string) (dflt : Q) (rm rm' : RiskManager.t)
    (a : Q) :
  sizeAndCheck cfg clk1 wallet1 clk2 wallet2 pf mint dflt rm
  = (Some a, rm') ->
  rm' = checkDailyReset clk2 (checkDailyReset clk1 rm)
  /\ passesBuyChecks cfg wallet2 pf rm' a
  /\ a = (let optimal :=
            (getOptimalTradeSize cfg clk1 wallet1 pf mint rm).1 in
          if Qeq_bool optimal 0 then dflt else optimal).
Proof.
  unfold sizeAndCheck.
  pose proof (getOptimalTradeSize_state cfg clk1 wallet1 pf mint rm) as Hst.
  destruct (getOptimalTradeSize cfg clk1 wallet1 pf mint rm)
    as [optimal rm1].
  cbn [fst snd] in *. subst rm1.
  unfold checkTrade.
  set (amount := if Qeq_bool optimal 0 then dflt else optimal).
  destruct (allowed (checkBuy cfg (Wallet.getBalance wallet2)
              (PortfolioManager.getTotalValue pf)
              (dailyTradingVolume
                 (checkDailyReset clk2 (checkDailyReset clk1 rm)))
              amount)) eqn:Hallowed; cbn [negb]; [| discriminate].
  intros [= <- <-]. split; [reflexivity |]. split; [| reflexivity].
  apply checkBuy_allowed in Hallowed. exact Hallowed.
Qed.

(** X6.  Every proposal of an entry strategy is a SOL-denominated buy
    of the mint of its event whose amount passed all five buy checks of
    the risk gate, against the wallet and the daily counter as the
    check saw them; the amount is the optimal trade size, or the
    strategy's default amount when the optimal size is 0. *)
Theorem X6_entry_proposals_passed_the_checks (cfg : Config.t)
    (clk1 : Clock.t) (wallet1 : Wallet.t) (clk2 : Clock.t)
    (wallet2 : Wallet.t) (pf : Portfolio.t) (rm : RiskManager.t) :
  let rm' := checkDailyReset clk2 (checkDailyReset clk1 rm) in
  let sized mint dflt a :=
    passesBuyChecks cfg wallet2 pf rm' a
    /\ a = (let optimal :=
              (getOptimalTradeSize cfg clk1 wallet1 pf mint rm).1 in
            if Qeq_bool optimal 0 then dflt else optimal) in
  (forall event s tr,
      (SniperStrategy.getTrade cfg clk1 wallet1 clk2 wallet2 pf event
         s rm).1 = Some tr ->
      exists d a,
        event = newToken d
        /\ tr = buyRequest cfg (NewTokenData.mint d) a
        /\ sized (NewTokenData.mint d)
             (SniperStrategy.defaultTradeAmount s) a)
  /\ (forall logClock event s tr,
         (MomentumStrategy.getTrade cfg clk1 wallet1 clk2 wallet2 pf
            logClock event s rm).1 = Returned (Some tr) ->
         exists d a,
           event = tokenTrade d
           /\ tr = buyRequest cfg (TokenTradeData.mint d) a
           /\ sized (TokenTradeData.mint d)
                (MomentumStrategy.defaultTradeAmount s) a).
Proof.
  cbv zeta. split.
  - intros event s tr. unfold SniperStrategy.getTrade.
    destruct event as [d | d | ty]; try discriminate.
    destruct (sizeAndCheck _ _ _ _ _ _ _ _ _) as [[a |] rm1] eqn:Hsize;
      [| discriminate].
    cbn [fst]. intros [= <-]. exists d, a.
    destruct (sizeAndCheck_Some _ _ _ _ _ _ _ _ _ _ _ Hsize)
      as (-> & Hchecks & Ha).
    auto.
  - intros logClock event s tr. unfold MomentumStrategy.getTrade.
    destruct event as [d | d | ty]; try discriminate.
    destruct (MomentumStrategy.tokenData s !! TokenTradeData.mint d)
      as [data |]; [| discriminate].
    destruct (sizeAndCheck _ _ _ _ _ _ _ _ _) as [[a |] rm1] eqn:Hsize;
      [| discriminate].
    destruct (last _); [| discriminate].
    destruct (head _); [| discriminate].
    cbn [fst]. intros [= <-]. exists d, a.
    destruct (sizeAndCheck_Some _ _ _ _ _ _ _ _ _ _ _ Hsize)
      as (-> & Hchecks & Ha).
    auto.
Qed.

Lemma checkDailyReset_volume_le (clk : Clock.t) (rm : RiskManager.t) :
  0 <= dailyTradingVolume rm ->
  0 <= dailyTradingVolume (checkDailyReset clk rm)
  /\ dailyTradingVolume (checkDailyReset clk rm) <= dailyTradingVolume rm.
Proof.
  intros H. unfold checkDailyReset.
  destruct (_ >=? _)%Z; cbn [resetDailyVolume dailyTradingVolume]; lra.
Qed.

Lemma attemptBuy_bounds (cfg : Config.t) (rm : RiskManager.t)
    (b : BuyAttempt) :
  0 <= Config.minTradeAmountSol cfg ->
  0 <= dailyTradingVolume rm
  /\ dailyTradingVolume rm <= Config.maxDailyTradingVolume cfg ->
  0 <= dailyTradingVolume (attemptBuy cfg rm b)
  /\ dailyTradingVolume (attemptBuy cfg rm b)
     <= Config.maxDailyTradingVolume cfg.
Proof.
  intros Hmin [Hlo Hhi]. unfold attemptBuy, checkTrade.
  destruct (checkDailyReset_volume_le (checkClock b) rm Hlo) as [Hv1 Hle1].
  set (rm1 := checkDailyReset (checkClock b) rm) in *.
  destruct (allowed (checkBuy cfg _ _ _ _)) eqn:Hallowed; cbn [andb].
  2: { lra. }
  destruct (executed b); [| lra].
  apply checkBuy_allowed in Hallowed as (_ & Hcap & Hamt & _).
  destruct (checkDailyReset_volume_le (volumeClock b) rm1 Hv1)
    as [Hv2 Hle2].
  unfold trackTradeVolume. cbn [dailyTradingVolume]. lra.
Qed.

Lemma checkAll_before_reset (cfg : Config.t) (buys : list BuyAttempt)
    (rm : RiskManager.t) :
  Forall (beforeReset rm) buys ->
  checkAll cfg buys rm
  = (map (verdictAt cfg (dailyTradingVolume rm)) buys, rm).
Proof.
  induction 1 as [| b rest [Hb _] _ IH]; [reflexivity |].
  cbn [checkAll map]. unfold checkTrade.
  rewrite (checkDailyReset_before _ _ Hb), IH. reflexivity.
Qed.

Lemma trackAll_before_reset (buys : list BuyAttempt) (rm : RiskManager.t) :
  Forall (beforeReset rm) buys ->
  dailyTradingVolume (trackAll buys rm)
  == dailyTradingVolume rm + sumQ (map buyAmount buys)
  /\ dailyResetTimestamp (trackAll buys rm) = dailyResetTimestamp rm.
Proof.
  revert rm. induction buys as [| b rest IH]; intros rm Hall.
  - cbn. split; [ring | reflexivity].
  - inversion Hall as [| ? ? [_ Hb] Hrest]; subst.
    change (trackAll (b :: rest) rm)
      with (trackAll rest
              (trackTradeVolume (volumeClock b) (buyAmount b) rm)).
    set (rm1 := trackTradeVolume (volumeClock b) (buyAmount b) rm).
    assert (Hrm1 :
      dailyTradingVolume rm1 == dailyTradingVolume rm + buyAmount b
      /\ dailyResetTimestamp rm1 = dailyResetTimestamp rm).
    { subst rm1. unfold trackTradeVolume.
      rewrite (checkDailyReset_before _ _ Hb). split; reflexivity. }
    destruct Hrm1 as [Hvol Hts].
    destruct (IH rm1) as [Hv Ht].
    { unfold beforeReset in *. rewrite Hts. exact Hrest. }
    split; [| rewrite Ht; exact Hts].
    rewrite Hv, Hvol. unfold sumQ. cbn [map foldr]. ring.
Qed.

(** X8.  The daily cap holds only when buys are settled one at a time.
    With a configured minimum trade amount and a daily cap that are
    not negative:

    - after any sequence of buys in which each buy is checked by
      [checkTrade] and, when allowed and executed, tracked by
      [trackTradeVolume] before the next buy is checked, the daily
      counter of a new risk manager lies between 0 and the cap,
      whatever the clocks, wallets and ledgers were;

    - [checkTrade] reserves nothing.  Of buys that are all checked
      before any of them is tracked, on a day without reset, each is
      judged against the counter as it was before the first, and the
      checks leave the risk manager as it was; once they are tracked
      the counter is that value plus the sum of their amounts, which
      is above the cap as soon as the sum is above what the cap had
      left. *)
Theorem X8_daily_cap_one_buy_at_a_time (cfg : Config.t) (clk0 : Clock.t)
    (attempts inFlight : list BuyAttempt) (rm : RiskManager.t) :
  0 <= Config.minTradeAmountSol cfg ->
  0 <= Config.maxDailyTradingVolume cfg ->
  (let rm' := fold_left (attemptBuy cfg) attempts (RiskManager.new clk0) in
   0 <= dailyTradingVolume rm'
   /\ dailyTradingVolume rm' <= Config.maxDailyTradingVolume cfg)
  /\ (Forall (beforeReset rm) inFlight ->
      checkAll cfg inFlight rm
      = (map (verdictAt cfg (dailyTradingVolume rm)) inFlight, rm)
      /\ dailyTradingVolume (trackAll inFlight rm)
         == dailyTradingVolume rm + sumQ (map buyAmount inFlight)
      /\ (Config.maxDailyTradingVolume cfg - dailyTradingVolume rm
          < sumQ (map buyAmount inFlight) ->
          Config.maxDailyTradingVolume cfg
          < dailyTradingVolume (trackAll inFlight rm))).
Proof.
  intros Hmin Hcap. split.
  - cbv zeta.
    assert (Hnew :
      0 <= dailyTradingVolume (RiskManager.new clk0)
      /\ dailyTradingVolume (RiskManager.new clk0)
         <= Config.maxDailyTradingVolume cfg) by (cbn; lra).
    revert Hnew. generalize (RiskManager.new clk0).
    induction attempts as [| b rest IH]; intros rm0 Hrm; [exact Hrm |].
    cbn [fold_left]. apply IH, attemptBuy_bounds; assumption.
  - intros Hall. split; [apply checkAll_before_reset, Hall |].
    destruct (trackAll_before_reset inFlight rm Hall) as [Hvol _].
    split; [exact Hvol |]. intros Hsum. rewrite Hvol. lra.
Qed.

(** Under the default configuration (a cap of 5 SOL, at most 0.5 SOL a
    trade): three buys of 0.4 SOL one after the other stay under the
    cap; eleven buys of 0.5 SOL in flight together are all allowed, each
    against a counter of 0, and leave the counter at 5.5 SOL. *)
Lemma X8_witness :
  let b amount time :=
    {| checkClock := Clock.at_ time;
       checkWallet := walletWith 10 [];
       checkPortfolio := ledgerAfterFirstBuy;
       buyMint := "A";
       buyAmount := amount;
       executed := true;
       volumeClock := Clock.at_ (time + 500) |} in
  let rm :=
    fold_left (attemptBuy Config.default)
      [b 0.4 (startTime + 1000)%Z; b 0.4 (startTime + 2000)%Z;
       b 0.4 (startTime + 3000)%Z]
      (RiskManager.new (Clock.at_ startTime)) in
  let inFlight := repeat (b 0.5 (startTime + 1000)%Z) 11 in
  (0 <= dailyTradingVolume rm /\ dailyTradingVolume rm <= 5)
  /\ (checkAll Config.default inFlight
        (RiskManager.new (Clock.at_ startTime))).1
     = repeat true 11
  /\ 5 < dailyTradingVolume
           (trackAll inFlight (RiskManager.new (Clock.at_ startTime))).
Proof.
  cbv zeta.
  pose proof
    (X8_daily_cap_one_buy_at_a_time Config.default (Clock.at_ startTime)
       [ {| checkClock := Clock.at_ (startTime + 1000);
            checkWallet := walletWith 10 [];
            checkPortfolio := ledgerAfterFirstBuy;
            buyMint := "A";
            buyAmount := 0.4;
            executed := true;
            volumeClock := Clock.at_ (startTime + 1000 + 500) |};
         {| checkClock := Clock.at_ (startTime + 2000);
            checkWallet := walletWith 10 [];
            checkPortfolio := ledgerAfterFirstBuy;
            buyMint := "A";
            buyAmount := 0.4;
            executed := true;
            volumeClock := Clock.at_ (startTime + 2000 + 500) |};
         {| checkClock := Clock.at_ (startTime + 3000);
            checkWallet := walletWith 10 [];
            checkPortfolio := ledgerAfterFirstBuy;
            buyMint := "A";
            buyAmount := 0.4;
            executed := true;
            volumeClock := Clock.at_ (startTime + 3000 + 500) |} ]
       (repeat
          {| checkClock := Clock.at_ (startTime + 1000);
             checkWallet := walletWith 10 [];
             checkPortfolio := ledgerAfterFirstBuy;
             buyMint := "A";
             buyAmount := 0.5;
             executed := true;
             volumeClock := Clock.at_ (startTime + 1000 + 500) |} 11)
       (RiskManager.new (Clock.at_ startTime))
       ltac:(apply Qle_bool_iff; reflexivity)
       ltac:(apply Qle_bool_iff; reflexivity)) as [Hseq Hflight].
  split; [exact Hseq |].
  destruct Hflight as (Hchecks & _ & Hover).
  { repeat constructor. }
  split.
  - rewrite Hchecks. reflexivity.
  - apply Hover. reflexivity.
Defined.
End MoreRisk.

(* --------------------------------------------------------------------- *)
(*  The momentum strategy                                                *)
(* --------------------------------------------------------------------- *)

Section MoreMomentum.
Import MomentumStrategy.

Lemma length_insertNewestFirst (x : TokenTrade.t) (l : list TokenTrade.t) :
  length (insertNewestFirst x l) = S (length l).
Proof.
  induction l as [| y rest IH]; [reflexivity |].
  cbn [insertNewestFirst]. destruct (_ >? _)%Z; cbn [length]; congruence.
Qed.

Lemma length_sortNewestFirst (l : list TokenTrade.t) :
  length (sortNewestFirst l) = length l.
Proof.
  induction l as [| x rest IH]; [reflexivity |].
  cbn [sortNewestFirst foldr]. rewrite length_insertNewestFirst.
  fold (sortNewestFirst rest). rewrite IH. reflexivity.
Qed.

Lemma newestFirst_take (n : nat) (l : list TokenTrade.t) :
  newestFirst l -> newestFirst (take n l).
Proof.
  unfold newestFirst. intros H. revert n.
  induction H as [| x rest Hrest IH Hx]; intros [| n]; cbn [take];
    try constructor.
  - apply IH.
  - apply Forall_take, Hx.
Qed.

Lemma updateTokenData_bounded (d : TokenTradeData.t)
    (s : MomentumStrategy.t) :
  historiesBounded s -> historiesBounded (updateTokenData d s).
Proof.
  intros Hs mint data. unfold updateTokenData.
  cbn [tokenData withTokenData].
  destruct (decide (TokenTradeData.mint d = mint)) as [-> | Hne].
  - rewrite lookup_insert_eq. intros [= <-]. cbn [TokenData.trades].
    match goal with
    | |- context [sortNewestFirst ?l] => set (pushed := l)
    end.
    pose proof (newestFirst_sort pushed) as Hsorted.
    destruct (Nat.ltb_spec maxTradeHistory (length (sortNewestFirst pushed))).
    + split; [rewrite length_take; lia | apply newestFirst_take, Hsorted].
    + split; [lia | exact Hsorted].
  - rewrite lookup_insert_ne by exact Hne. apply Hs.
Qed.

Lemma cleanupOldData_bounded (now : Z) (s : MomentumStrategy.t) :
  historiesBounded s -> historiesBounded (cleanupOldData now s).
Proof.
  intros Hs mint data. unfold cleanupOldData.
  destruct (_ <? _)%Z; [apply Hs |]. cbn [tokenData].
  intros H. apply map_lookup_filter_Some in H as [H _]. apply (Hs _ _ H).
Qed.

Lemma checkMomentum_bounded (now : Z) (mint : string)
    (s : MomentumStrategy.t) :
  historiesBounded s -> historiesBounded (checkMomentum now mint s).2.
Proof.
  intros Hs. unfold checkMomentum.
  destruct (tokenData s !! mint) as [data |] eqn:Hdata; [| exact Hs].
  destruct (_ <? _)%Z; [exact Hs |].
  destruct (_ <? _)%Z; [exact Hs |].
  destruct (Qltb _ _); [exact Hs |].
  destruct (last _); [| exact Hs].
  destruct (head _); [| exact Hs].
  destruct (priceIncreaseBelow _ _ _); [exact Hs |].
  cbn [snd]. intros mint' data'. cbn [tokenData withTokenData].
  destruct (decide (mint = mint')) as [<- | Hne].
  - rewrite lookup_insert_eq. intros [= <-]. cbn [stamp TokenData.trades].
    apply (Hs _ _ Hdata).
  - rewrite lookup_insert_ne by exact Hne. apply Hs.
Qed.

Lemma shouldTrade_bounded (nowCleanup nowMomentum : Z)
    (event : WebSocketEvent) (s : MomentumStrategy.t) :
  historiesBounded s ->
  historiesBounded (shouldTrade nowCleanup nowMomentum event s).2.
Proof.
  intros Hs. unfold shouldTrade.
  destruct (isEnabled s); cbn [negb]; [| exact Hs].
  destruct event as [d | d | ty]; try exact Hs.
  apply checkMomentum_bounded, cleanupOldData_bounded,
    updateTokenData_bounded, Hs.
Qed.

(** X9.  The trade history of every token is bounded and ordered.
    After any sequence of events handed to [shouldTrade] of a new
    momentum strategy, with any clock readings and time stamps, every
    token's history holds at most 100 trades and lists them newest
    first. *)
Theorem X9_trade_histories_bounded (now : Z)
    (events : list (Z * Z * WebSocketEvent)) :
  historiesBounded (momentumRun events (MomentumStrategy.new now)).2.
Proof.
  assert (Hnew : historiesBounded (MomentumStrategy.new now)).
  { intros mint data H. cbn in H. rewrite lookup_empty in H.
    discriminate. }
  revert Hnew. generalize (MomentumStrategy.new now).
  induction events as [| [[nowC nowM] event] rest IH]; intros s Hs;
    [exact Hs |].
  cbn [momentumRun].
  pose proof (shouldTrade_bounded nowC nowM event s Hs) as H1.
  destruct (shouldTrade nowC nowM event s) as [answer s1].
  specialize (IH s1 H1).
  destruct (momentumRun rest s1) as [answers s2]. exact IH.
Qed.

(** X10.  [shouldTrade] of the momentum strategy throws only when the
    strategy demands no trades and no volume: a TypeError leaves it
    only if the configured minimum trade count and the minimum volume
    are both at most 0 (then an event with no trade inside the
    analysis window reaches the price comparison on an empty list).
    With a minimum trade count of at least 1, the default 5 included,
    it always returns a boolean. *)
Theorem X10_shouldTrade_throws_only_without_minimums
    (nowCleanup nowMomentum : Z) (event : WebSocketEvent)
    (s : MomentumStrategy.t) (message : string) :
  (shouldTrade nowCleanup nowMomentum event s).1 = Threw message ->
  (minTradeCount s <= 0)%Z /\ minVolumeThreshold s <= 0.
Proof.
  unfold shouldTrade. destruct (isEnabled s); cbn [negb]; [| discriminate].
  destruct event as [d | d | ty]; try discriminate.
  set (s2 := cleanupOldData nowCleanup (updateTokenData d s)).
  assert (Hpar : minTradeCount s2 = minTradeCount s
                 /\ minVolumeThreshold s2 = minVolumeThreshold s).
  { unfold s2, cleanupOldData. destruct (_ <? _)%Z; split; reflexivity. }
  destruct Hpar as [<- <-].
  unfold checkMomentum.
  destruct (tokenData s2 !! TokenTradeData.mint d) as [data |];
    [| discriminate].
  destruct (_ <? _)%Z; [discriminate |].
  set (recent := recentTrades nowMomentum (timeWindowMs s2) data).
  destruct (Z.ltb_spec (Z.of_nat (length recent)) (minTradeCount s2));
    [discriminate |].
  destruct (Qltb (totalVolume recent) (minVolumeThreshold s2)) eqn:Hvol;
    [discriminate |].
  apply Qltb_false in Hvol.
  destruct recent as [| t0 rest] eqn:Hrecent.
  - intros _. cbn in *. split; [lia | exact Hvol].
  - rewrite last_cons. cbn [head].
    destruct (last rest); destruct (priceIncreaseBelow _ _ _); discriminate.
Qed.

(** Without minimums a trade that is already out of the window when it
    arrives makes [shouldTrade] throw. *)
Lemma X10_witness :
  (shouldTrade (startTime + 1000) (startTime + 1000) staleTrade
     noMinimums).1
  = Threw "Cannot read properties of undefined (reading 'price')"
  /\ (minTradeCount noMinimums <= 0)%Z
  /\ minVolumeThreshold noMinimums <= 0.
Proof.
  split; [vm_compute; reflexivity |].
  apply (X10_shouldTrade_throws_only_without_minimums
           (startTime + 1000) (startTime + 1000) staleTrade noMinimums
           "Cannot read properties of undefined (reading 'price')").
  vm_compute. reflexivity.
Defined.

Lemma recentTradesAt_nil (clock : nat -> Z) (window : Z)
    (l : list TokenTrade.t) :
  forall k : nat,
    recentTradesAt clock k window l = []
    <-> forall (i : nat) (trade : TokenTrade.t),
          l !! i = Some trade ->
          (window <= clock (k + i)%nat - TokenTrade.timestamp trade)%Z.
Proof.
  induction l as [| x rest IH]; intros k; cbn [recentTradesAt].
  - split; [intros _ i trade H; discriminate | reflexivity].
  - destruct (Z.ltb_spec (clock k - TokenTrade.timestamp x) window)
      as [Hlt | Hge].
    + split; [discriminate |]. intros H.
      specialize (H 0%nat x eq_refl). rewrite Nat.add_0_r in H. lia.
    + rewrite IH. split.
      * intros H [| i] trade Hi; cbn in Hi.
        -- injection Hi as <-. rewrite Nat.add_0_r. exact Hge.
        -- replace (k + S i)%nat with (S k + i)%nat by lia. apply H, Hi.
      * intros H i trade Hi.
        replace (S k + i)%nat with (k + S i)%nat by lia. apply H. exact Hi.
Qed.

(** X11.  [getTrade] of the momentum strategy throws exactly when the
    token has an entry, the sizing block has come back with an amount
    the risk gate allows, and no trade of the entry is inside the
    analysis window any more at the clock readings taken for the log.
    In every other case it returns: null for another kind of event, a
    token without entry or a refused amount, the buy proposal
    otherwise. *)
Theorem X11_getTrade_throws_iff (cfg : Config.t) (clk1 : Clock.t)
    (wallet1 : Wallet.t) (clk2 : Clock.t) (wallet2 : Wallet.t)
    (pf : Portfolio.t) (logClock : nat -> Z) (event : WebSocketEvent)
    (s : MomentumStrategy.t) (rm : RiskManager.t) :
  let r :=
    (getTrade cfg clk1 wallet1 clk2 wallet2 pf logClock event s rm).1 in
  ((exists message, r = Threw message)
   <-> exists d data a,
         event = tokenTrade d
         /\ tokenData s !! TokenTradeData.mint d = Some data
         /\ (sizeAndCheck cfg clk1 wallet1 clk2 wallet2 pf
               (TokenTradeData.mint d) (defaultTradeAmount s) rm).1
            = Some a
         /\ forall (i : nat) (trade : TokenTrade.t),
              TokenData.trades data !! i = Some trade ->
              (timeWindowMs s
               <= logClock i - TokenTrade.timestamp trade)%Z)
  /\ (forall tr,
         r = Returned (Some tr) ->
         exists d, event = tokenTrade d
                   /\ TradeRequest.mint tr = TokenTradeData.mint d
                   /\ TradeRequest.action tr = buy
                   /\ TradeRequest.denominatedInSol tr = true).
Proof.
  cbv zeta. unfold getTrade.
  destruct event as [d | d | ty].
  1, 3: split; [split; [intros [? H]; discriminate H
                       | intros (? & ? & ? & H & _); discriminate H]
               | intros tr H; discriminate H].
  destruct (tokenData s !! TokenTradeData.mint d) as [data |] eqn:Hdata.
  2: { split; [split; [intros [? H]; discriminate H |]
              | intros tr H; discriminate H].
       intros (d' & data' & a & [= <-] & H & _). congruence. }
  destruct (sizeAndCheck cfg clk1 wallet1 clk2 wallet2 pf
              (TokenTradeData.mint d) (defaultTradeAmount s) rm)
    as [[a |] rm'] eqn:Hsize; cbn [fst].
  2: { split; [split; [intros [? H]; discriminate H |]
              | intros tr H; discriminate H].
       intros (d' & data' & a & [= <-] & _ & H & _).
       rewrite Hsize in H. discriminate H. }
  pose proof (recentTradesAt_nil logClock (timeWindowMs s)
                (TokenData.trades data) 0) as Hnil.
  destruct (recentTradesAt logClock 0 (timeWindowMs s)
              (TokenData.trades data)) as [| t0 rest] eqn:Hrecent.
  - cbn [last head fst]. split; [split |].
    + intros _. exists d, data, a. rewrite Hsize.
      repeat split; try assumption. apply Hnil. reflexivity.
    + intros _. eexists. reflexivity.
    + intros tr H. discriminate H.
  - rewrite last_cons. cbn [head].
    assert (Hsome : exists x, match last rest with
                              | Some y => Some y
                              | None => Some t0
                              end = Some x)
      by (destruct (last rest); eauto).
    destruct Hsome as [x ->]. cbn [fst]. split; [split |].
    + intros [? H]. discriminate H.
    + intros (d' & data' & a' & [= <-] & Hd & _ & Hall).
      rewrite Hdata in Hd. injection Hd as <-.
      apply Hnil in Hall. discriminate Hall.
    + intros tr [= <-]. exists d. repeat split.
Qed.

End MoreMomentum.

(* --------------------------------------------------------------------- *)
(*  The exit strategy                                                    *)
(* --------------------------------------------------------------------- *)

Section MoreExit.
Import PositionManagementStrategy.

(** While the token was last processed at [last], calls of [shouldTrade]
    that, when they are about the token, read the clock less than the
    interval after [last], answer false for the token and leave that
    time in place. *)
Lemma shouldTrade_within_interval (mint : string) (last now : Z)
    (pf : Portfolio.t) (event : WebSocketEvent)
    (s : PositionManagementStrategy.t) :
  lastProcessedTime s !! mint = Some last ->
  (isTradeOf mint (now, pf, event) = true ->
   (now - last < minProcessingIntervalMs s)%Z) ->
  lastProcessedTime (shouldTrade now pf event s).2 !! mint = Some last
  /\ minProcessingIntervalMs (shouldTrade now pf event s).2
     = minProcessingIntervalMs s
  /\ (isTradeOf mint (now, pf, event) = true ->
      (shouldTrade now pf event s).1 = false).
Proof.
  intros Hlast Hsoon. unfold shouldTrade.
  destruct (isEnabled s); cbn [negb]; [| auto].
  destruct event as [d | d | ty]; [auto | | auto].
  unfold isTradeOf in *. cbn [snd] in *.
  destruct (PortfolioManager.getOpenPositionForToken pf
              (TokenTradeData.mint d)) as [position |]; [| auto].
  unfold shouldProcessToken.
  cbn [updateTokenPrice lastProcessedTime minProcessingIntervalMs].
  destruct (String.eqb_spec (TokenTradeData.mint d) mint) as [-> | Hne].
  - rewrite Hlast. cbn [from_option id].
    destruct (Z.ltb_spec (now - last) (minProcessingIntervalMs s)) as [_ | Hge];
      [cbn [negb fst snd]; auto |].
    specialize (Hsoon eq_refl). lia.
  - destruct (_ <? _)%Z; cbn [negb fst snd lastProcessedTime
                               minProcessingIntervalMs].
    + split; [exact Hlast |]. split; [reflexivity | discriminate].
    + rewrite lookup_insert_ne by exact Hne.
      split; [exact Hlast |]. split; [reflexivity | discriminate].
Qed.

Lemma exitRun_within_interval (mint : string) (last : Z)
    (calls : list (Z * Portfolio.t * WebSocketEvent)) :
  forall s : PositionManagementStrategy.t,
    lastProcessedTime s !! mint = Some last ->
    Forall (fun call =>
              isTradeOf mint call = true ->
              (call.1.1 - last < minProcessingIntervalMs s)%Z) calls ->
    forall (i : nat) (call : Z * Portfolio.t * WebSocketEvent),
      calls !! i = Some call ->
      isTradeOf mint call = true ->
      (exitRun calls s).1 !! i = Some false.
Proof.
  induction calls as [| [[now pf] event] rest IH]; intros s Hlast Hall i call;
    [discriminate |].
  inversion Hall as [| ? ? Hhead Hrest]; subst. cbn [fst snd] in Hhead.
  destruct (shouldTrade_within_interval mint last now pf event s Hlast Hhead)
    as (Hlast1 & Hint1 & Hfalse).
  cbn [exitRun].
  destruct (shouldTrade now pf event s) as [answer s1]. cbn [fst snd] in *.
  specialize (IH s1 Hlast1).
  rewrite Hint1 in IH. specialize (IH Hrest).
  destruct (exitRun rest s1) as [answers s2]. cbn [fst] in *.
  destruct i as [| i]; cbn [lookup list_lookup].
  - intros [= <-] Htrade. rewrite (Hfalse Htrade). reflexivity.
  - intros Hcall Htrade. exact (IH i call Hcall Htrade).
Qed.

(** X13.  The exit strategy fires at most once per processing interval
    and token.  After [shouldTrade] returned true for a trade of a
    token at time [now], take any further calls of [shouldTrade], about
    any tokens, on any ledgers: as long as the calls about that token
    read the clock less than [minProcessingIntervalMs] after [now],
    every one of them returns false, whatever its price and however
    many calls came in between. *)
Theorem X13_exit_fires_once_per_interval (now : Z) (pf : Portfolio.t)
    (d : TokenTradeData.t) (s : PositionManagementStrategy.t)
    (calls : list (Z * Portfolio.t * WebSocketEvent)) :
  (shouldTrade now pf (tokenTrade d) s).1 = true ->
  Forall (fun call =>
            isTradeOf (TokenTradeData.mint d) call = true ->
            (call.1.1 - now < minProcessingIntervalMs s)%Z) calls ->
  forall (i : nat) (call : Z * Portfolio.t * WebSocketEvent),
    calls !! i = Some call ->
    isTradeOf (TokenTradeData.mint d) call = true ->
    (exitRun calls (shouldTrade now pf (tokenTrade d) s).2).1 !! i
    = Some false.
Proof.
  intros Hfire Hsoon.
  assert (Hstate :
    minProcessingIntervalMs (shouldTrade now pf (tokenTrade d) s).2
    = minProcessingIntervalMs s
    /\ lastProcessedTime (shouldTrade now pf (tokenTrade d) s).2
         !! TokenTradeData.mint d = Some now).
  { revert Hfire. unfold shouldTrade.
    destruct (isEnabled s) eqn:He; cbn [negb]; [| discriminate].
    destruct (PortfolioManager.getOpenPositionForToken pf
                (TokenTradeData.mint d)); [| discriminate].
    unfold shouldProcessToken.
    cbn [updateTokenPrice lastProcessedTime minProcessingIntervalMs].
    destruct (_ <? _)%Z; cbn [negb fst snd]; [discriminate |].
    intros _. cbn [minProcessingIntervalMs lastProcessedTime].
    rewrite lookup_insert_eq. auto. }
  destruct Hstate as (Hint & Hlast).
  apply (exitRun_within_interval _ now calls _ Hlast).
  rewrite Hint. exact Hsoon.
Qed.

(** Scenario 4, then a trade of another token, then a second trade
    below the stop-loss five seconds after the first. *)
Lemma X13_witness :
  let fired :=
    shouldTrade startTime ledgerAfterFirstBuy
      (tradeAt "A" startTime 0.89 1).2 new in
  let later :=
    [ ((startTime + 2000)%Z, ledgerAfterFirstBuy,
       (tradeAt "B" (startTime + 2000) 3 1).2);
      ((startTime + 5000)%Z, ledgerAfterFirstBuy,
       (tradeAt "A" (startTime + 5000) 0.80 1).2) ] in
  fired.1 = true
  /\ (exitRun later fired.2).1 !! 1%nat = Some false.
Proof.
  cbv zeta. split; [reflexivity |].
  apply (X13_exit_fires_once_per_interval startTime ledgerAfterFirstBuy
           {| TokenTradeData.mint := "A";
              TokenTradeData.action := buy;
              TokenTradeData.price := 0.89;
              TokenTradeData.amountSol := 1;
              TokenTradeData.trader := "trader";
              TokenTradeData.signature := "signature";
              TokenTradeData.timestamp := startTime;
              TokenTradeData.symbol := None |}
           new
           [ ((startTime + 2000)%Z, ledgerAfterFirstBuy,
              (tradeAt "B" (startTime + 2000) 3 1).2);
             ((startTime + 5000)%Z, ledgerAfterFirstBuy,
              (tradeAt "A" (startTime + 5000) 0.80 1).2) ]
           ltac:(reflexivity)
           ltac:(repeat constructor; cbn; intros; lia)
           1%nat
           ((startTime + 5000)%Z, ledgerAfterFirstBuy,
            (tradeAt "A" (startTime + 5000) 0.80 1).2));
    reflexivity.
Defined.

(** X14.  The exit strategy records the price of every trade it sees
    while it is enabled - also when the token has no open position,
    when the token is rate-limited and when no threshold is crossed -
    and leaves the prices of other tokens alone; while it is disabled
    it records nothing, so that [updatePortfolioPnL] goes on valuing
    the ledger at the prices last seen. *)
Theorem X14_prices_recorded_while_enabled (now : Z) (pf : Portfolio.t)
    (d : TokenTradeData.t) (s : PositionManagementStrategy.t) :
  let s' := (shouldTrade now pf (tokenTrade d) s).2 in
  if isEnabled s then
    currentPrices s' !! TokenTradeData.mint d
    = Some (TokenTradeData.price d)
    /\ (forall other,
           other <> TokenTradeData.mint d ->
           currentPrices s' !! other = currentPrices s !! other)
    /\ updatePortfolioPnL s' pf
       = PortfolioManager.updateUnrealizedPnl
           (<[ TokenTradeData.mint d := TokenTradeData.price d ]>
              (currentPrices s)) pf
  else
    s' = s /\ (shouldTrade now pf (tokenTrade d) s).1 = false.
Proof.
  cbv zeta. unfold shouldTrade.
  destruct (isEnabled s); cbn [negb]; [| split; reflexivity].
  assert (Hprices :
    currentPrices
      (match PortfolioManager.getOpenPositionForToken pf
               (TokenTradeData.mint d) with
       | Some position =>
           let '(ok, s2) :=
             shouldProcessToken now (TokenTradeData.mint d)
               (updateTokenPrice (TokenTradeData.mint d)
                  (TokenTradeData.price d) s) in
           if negb ok then (false, s2)
           else (shouldExitPosition position (TokenTradeData.price d), s2)
       | None =>
           (false,
            updateTokenPrice (TokenTradeData.mint d)
              (TokenTradeData.price d) s)
       end).2
    = <[ TokenTradeData.mint d := TokenTradeData.price d ]>
        (currentPrices s)).
  { destruct (PortfolioManager.getOpenPositionForToken pf
                (TokenTradeData.mint d)); [| reflexivity].
    unfold shouldProcessToken. destruct (_ <? _)%Z; reflexivity. }
  unfold updatePortfolioPnL. rewrite Hprices.
  split; [apply lookup_insert_eq |]. split; [| reflexivity].
  intros other Hne. apply lookup_insert_ne. congruence.
Qed.
End MoreExit.

(* --------------------------------------------------------------------- *)
(*  The sniper strategy                                                  *)
(* --------------------------------------------------------------------- *)

Section MoreSniper.
Import SniperStrategy.

Lemma prefix_app (phrase rest : string) :
  String.prefix phrase (phrase ++ rest) = true.
Proof.
  induction phrase as [| c phrase IH]; [destruct rest; reflexivity |].
  change (String.prefix (String c phrase) (String c (phrase ++ rest))
          = true).
  cbn [String.prefix]. destruct (ascii_dec c c); [exact IH | congruence].
Qed.

Lemma prefix_true (phrase text : string) :
  String.prefix phrase text = true ->
  exists rest, text = (phrase ++ rest)%string.
Proof.
  revert text. induction phrase as [| c phrase IH]; intros text H.
  - exists text. reflexivity.
  - destruct text as [| c' text]; [discriminate |]. cbn in H.
    destruct (ascii_dec c c') as [<- |]; [| discriminate].
    destruct (IH _ H) as [rest ->]. exists rest. reflexivity.
Qed.

(** [includes] finds a phrase exactly when the text is some text, the
    phrase, and some more text. *)
Lemma includes_spec (text phrase : string) :
  includes text phrase = true
  <-> exists before after, text = (before ++ phrase ++ after)%string.
Proof.
  induction text as [| c text IH]; cbn [includes].
  - rewrite orb_false_r. split.
    + intros H. apply prefix_true in H as [rest ->].
      exists EmptyString, rest. reflexivity.
    + intros (before & after & H).
      destruct before; [| discriminate].
      cbn in H. destruct phrase; [reflexivity | discriminate].
  - rewrite orb_true_iff, IH. split.
    + intros [H | (before & after & ->)].
      * apply prefix_true in H as [rest ->].
        exists EmptyString, rest. reflexivity.
      * exists (String c before), after. reflexivity.
    + intros (before & after & H). destruct before as [| c' before].
      * left. change (String c text = (phrase ++ after)%string) in H.
        rewrite H. apply prefix_app.
      * right. injection H as -> ->. eauto.
Qed.

Lemma asciiToLowerCase_app (a b : string) :
  asciiToLowerCase (a ++ b) = (asciiToLowerCase a ++ asciiToLowerCase b)%string.
Proof.
  induction a as [| c a IH]; [reflexivity |].
  change (String (lowerAscii c) (asciiToLowerCase (a ++ b))
          = String (lowerAscii c)
              (asciiToLowerCase a ++ asciiToLowerCase b)).
  now rewrite IH.
Qed.

(** X15.  Blocked phrases are matched without regard to the case of
    ASCII letters, anywhere in the name or the symbol.  With a
    [toLowerCase] that folds A to Z on ASCII strings, and a name, a
    symbol and a blocked phrase of ASCII characters: when the name, a
    space and the symbol contain the phrase in any mixture of upper and
    lower case, the newToken event is declined, and declining leaves
    the strategy as it was (the mint is not marked processed). *)
Theorem X15_blocked_phrase_declines (toLowerCase : string -> string)
    (now : Z) (d : NewTokenData.t) (s : SniperStrategy.t)
    (phrase before after : string) :
  foldsAscii toLowerCase ->
  In phrase (blockedPhrases s) ->
  isAscii (NewTokenData.name d) = true ->
  isAscii (NewTokenData.symbol d) = true ->
  isAscii phrase = true ->
  sameUpToCase
    (NewTokenData.name d ++ String " "%char (NewTokenData.symbol d))
    (before ++ phrase ++ after) ->
  shouldTrade toLowerCase now (newToken d) s = (false, s).
Proof.
  intros Hfold Hin Hname Hsymbol Hphrase Hsame.
  assert (Hblocked :
    hasBlockedPhrase toLowerCase s (NewTokenData.name d)
      (NewTokenData.symbol d) = true).
  { unfold hasBlockedPhrase. apply existsb_exists. exists phrase.
    split; [exact Hin |]. apply includes_spec.
    exists (asciiToLowerCase before), (asciiToLowerCase after).
    rewrite (Hfold _ Hname), (Hfold _ Hsymbol), (Hfold _ Hphrase).
    unfold sameUpToCase in Hsame.
    rewrite !asciiToLowerCase_app in Hsame. exact Hsame. }
  unfold shouldTrade. destruct (isEnabled s); [| reflexivity].
  cbn [negb]. case_bool_decide; [reflexivity |].
  destruct (_ >? _)%Z; [reflexivity |].
  case_bool_decide; [reflexivity |].
  rewrite Hblocked. reflexivity.
Qed.

(** The repository's test: ['Test Token'] with symbol ['TEST'] against
    the blocked phrases ['scam'] and ['test']; the name holds the
    phrase as ['Test']. *)
Lemma X15_witness :
  In "test"%string (blockedPhrases sniperWithBlockedPhrases)
  /\ shouldTrade asciiToLowerCase startTime (newToken testToken)
       sniperWithBlockedPhrases
     = (false, sniperWithBlockedPhrases).
Proof.
  split; [right; left; reflexivity |].
  apply (X15_blocked_phrase_declines asciiToLowerCase startTime testToken
           sniperWithBlockedPhrases "test" EmptyString " Token TEST").
  - intros text _. reflexivity.
  - right. left. reflexivity.
  - reflexivity.
  - reflexivity.
  - reflexivity.
  - reflexivity.
Defined.
End MoreSniper.

(* --------------------------------------------------------------------- *)
(*  The bot: settling a trade                                            *)
(* --------------------------------------------------------------------- *)

Section MoreBot.
Import TradingBot.

Lemma updatePortfolioPnL_books (strategy : PositionManagementStrategy.t)
    (pf : Portfolio.t) :
  Portfolio.positions
    (PositionManagementStrategy.updatePortfolioPnL strategy pf)
  = Portfolio.positions pf
  /\ Portfolio.totalInvestedSol
       (PositionManagementStrategy.updatePortfolioPnL strategy pf)
     = Portfolio.totalInvestedSol pf
  /\ Portfolio.realizedPnl
       (PositionManagementStrategy.updatePortfolioPnL strategy pf)
     = Portfolio.realizedPnl pf.
Proof. repeat split. Qed.

(** The books of a bot: everything of its state but the unrealized
    P&L. *)
Lemma settle_books (cfg : Config.t) (out : Outside)
    (result : option TradeRequest.t)
    (exitStrategy : option PositionManagementStrategy.t) (bot : t) :
  let settled :=
    match result with
    | Some tr => if success out then settleSuccess cfg out tr bot else bot
    | None => bot
    end in
  Portfolio.positions (portfolio (settle cfg out result exitStrategy bot))
  = Portfolio.positions (portfolio settled)
  /\ Portfolio.totalInvestedSol
       (portfolio (settle cfg out result exitStrategy bot))
     = Portfolio.totalInvestedSol (portfolio settled)
  /\ Portfolio.realizedPnl
       (portfolio (settle cfg out result exitStrategy bot))
     = Portfolio.realizedPnl (portfolio settled)
  /\ riskManager (settle cfg out result exitStrategy bot)
     = riskManager settled
  /\ tokenPrices (settle cfg out result exitStrategy bot)
     = tokenPrices settled.
Proof.
  cbv zeta. unfold settle. destruct exitStrategy; repeat split.
Qed.

Lemma priceOf_positive (bot : t) (mint : string) :
  Qgtb (priceOf bot mint) 0 = true ->
  tokenPrices bot !! mint = Some (priceOf bot mint).
Proof.
  unfold priceOf. destruct (tokenPrices bot !! mint) as [price |].
  - destruct (truthy price); [reflexivity | discriminate].
  - discriminate.
Qed.

(** X17.  An executed buy proposal of an entry strategy is always
    counted in the daily volume, exactly once.  It is entered in the
    ledger only if the bot knows a positive price of the token: then,
    for a token without an open position, one open position is
    appended whose entry price is that price and whose quantity is the
    amount divided by the price - so that it stands for exactly the
    SOL spent - and the invested total grows by the amount.  When no
    positive price is known the ledger keeps its positions and totals
    although the volume was counted. *)
Theorem X17_executed_buy_is_booked (cfg : Config.t) (out : Outside)
    (mint : string) (a : Q)
    (exitStrategy : option PositionManagementStrategy.t) (bot : t) :
  success out = true ->
  let bot' :=
    settle cfg out (Some (buyRequest cfg mint a)) exitStrategy bot in
  let price := priceOf bot mint in
  riskManager bot'
  = RiskManager.trackTradeVolume (trackClock out) a (riskManager bot)
  /\ (0 < price ->
      PortfolioManager.getOpenPositionForToken (portfolio bot) mint = None ->
      exists p,
        Portfolio.positions (portfolio bot')
        = Portfolio.positions (portfolio bot) ++ [p]
        /\ Position.mint p = mint
        /\ Position.status p = open
        /\ Position.entryPrice p = price
        /\ Position.amount p == a / price
        /\ costBasis p == a
        /\ Portfolio.totalInvestedSol (portfolio bot')
           == Portfolio.totalInvestedSol (portfolio bot) + a)
  /\ (price <= 0 ->
      Portfolio.positions (portfolio bot')
      = Portfolio.positions (portfolio bot)
      /\ Portfolio.totalInvestedSol (portfolio bot')
         = Portfolio.totalInvestedSol (portfolio bot)).
Proof.
  intros Hok. cbv zeta.
  pose proof (settle_books cfg out (Some (buyRequest cfg mint a))
                exitStrategy bot) as H.
  cbv zeta in H. rewrite Hok in H.
  destruct H as (Hp & Hi & _ & Hr & _).
  rewrite Hp, Hi, Hr. clear Hp Hi Hr.
  unfold settleSuccess.
  cbn [buyRequest TradeRequest.action TradeRequest.amount
         TradeRequest.denominatedInSol TradeRequest.mint numberOrZero
         riskManager portfolio].
  split; [reflexivity |]. split.
  - intros Hpos Hnone. apply Qgtb_true in Hpos. rewrite Hpos.
    unfold PortfolioManager.addPosition. rewrite Hnone.
    cbn [snd Portfolio.positions Portfolio.totalInvestedSol].
    eexists. split; [reflexivity |].
    cbn [Position.mint Position.status Position.entryPrice Position.amount].
    repeat split; try reflexivity.
    unfold costBasis. cbn [Position.entryPrice Position.amount].
    apply Qgtb_true in Hpos. field. lra.
  - intros Hneg. apply Qgtb_false in Hneg. rewrite Hneg.
    split; reflexivity.
Qed.

Lemma X17_witness :
  let bot' :=
    settle Config.default (executedOutside None)
      (Some (buyRequest Config.default "B" 0.1)) None (botHoldingA 1) in
  success (executedOutside None) = true
  /\ RiskManager.dailyTradingVolume (riskManager bot') == 0.1
  /\ Portfolio.positions (portfolio bot')
     = Portfolio.positions (portfolio (botHoldingA 1)).
Proof.
  cbv zeta.
  destruct (X17_executed_buy_is_booked Config.default
              (executedOutside None) "B" 0.1 None (botHoldingA 1) eq_refl)
    as (Hr & _ & Hunknown).
  split; [reflexivity |]. split.
  - rewrite Hr. reflexivity.
  - apply Hunknown. apply Qle_bool_iff. reflexivity.
Defined.

(** X18.  An executed sell-100% proposal of the exit strategy leaves
    the daily volume alone.  When the bot knows a positive price of
    the token and the wallet answers with a token balance, the open
    position of the token is closed in the ledger and the realized P&L
    grows by (price - entry price) times that balance, the balance the
    wallet reports when the sale is settled.  When no positive price
    is known, or the balance query fails, the ledger is not told about
    the sale: positions and realized P&L stay as they are. *)
Theorem X18_executed_exit_is_booked (cfg : Config.t) (out : Outside)
    (mint : string) (e : Position.t)
    (exitStrategy : option PositionManagementStrategy.t) (bot : t) :
  success out = true ->
  parseFloat out "100%" == 100 ->
  PortfolioManager.getOpenPositionForToken (portfolio bot) mint = Some e ->
  let bot' :=
    settle cfg out
      (Some (PositionManagementStrategy.sellAllRequest cfg mint))
      exitStrategy bot in
  let price := priceOf bot mint in
  riskManager bot' = riskManager bot
  /\ (forall balance,
         0 < price ->
         tokenBalance out = Some balance ->
         Portfolio.realizedPnl (portfolio bot')
         == Portfolio.realizedPnl (portfolio bot)
            + (price - Position.entryPrice e) * balance
         /\ PortfolioManager.openCount (portfolio bot') mint
            = pred (PortfolioManager.openCount (portfolio bot) mint))
  /\ (price <= 0 \/ tokenBalance out = None ->
      Portfolio.positions (portfolio bot')
      = Portfolio.positions (portfolio bot)
      /\ Portfolio.realizedPnl (portfolio bot')
         = Portfolio.realizedPnl (portfolio bot)).
Proof.
  intros Hok Hparse Hget. cbv zeta.
  pose proof (settle_books cfg out
                (Some (PositionManagementStrategy.sellAllRequest cfg mint))
                exitStrategy bot) as H.
  cbv zeta in H. rewrite Hok in H.
  destruct H as (Hp & _ & Hpnl & Hr & _).
  unfold PortfolioManager.openCount. rewrite Hp, Hpnl, Hr.
  clear Hp Hpnl Hr.
  unfold settleSuccess.
  cbn [PositionManagementStrategy.sellAllRequest TradeRequest.action
         TradeRequest.amount TradeRequest.denominatedInSol
         TradeRequest.mint riskManager portfolio].
  change (endsWithPercent "100%") with true. cbv iota.
  split; [reflexivity |]. split.
  - intros balance Hpos Hbal. apply Qgtb_true in Hpos.
    rewrite Hpos, Hbal.
    destruct (getOpenPositionForToken_Some _ _ _ Hget) as [rest Hrest].
    unfold PortfolioManager.closePosition. rewrite Hget.
    assert (Hfull : Qgeb (parseFloat out "100%") 100 = true)
      by (apply Qgeb_true; lra).
    rewrite Hfull. cbn [orb snd Portfolio.realizedPnl Portfolio.positions].
    split; [ring |].
    rewrite (filter_mutateFirst_head _ _ _ _ _ Hrest).
    rewrite isOpenFor_markClosed, Hrest. reflexivity.
  - intros [Hneg | Hnone].
    + apply Qgtb_false in Hneg. rewrite Hneg. split; reflexivity.
    + rewrite Hnone. destruct (Qgtb _ _); split; reflexivity.
Qed.

(** The position of scenario 2 is sold at 1.5 and the wallet reports no
    tokens left when the sale is settled: no profit is booked. *)
Lemma X18_witness :
  let bot' :=
    settle Config.default (executedOutside (Some 0))
      (Some (PositionManagementStrategy.sellAllRequest Config.default "A"))
      None (botHoldingA 1.5) in
  success (executedOutside (Some 0)) = true
  /\ Portfolio.realizedPnl (portfolio bot') == 0
  /\ PortfolioManager.openCount (portfolio bot') "A" = 0%nat.
Proof.
  cbv zeta.
  destruct (X18_executed_exit_is_booked Config.default
              (executedOutside (Some 0)) "A"
              (PortfolioManager.addPosition 1000 "A" "A" "A" 1 100 100 10
                 20 PortfolioManager.empty).1
              None (botHoldingA 1.5) eq_refl (Qeq_refl 100) eq_refl)
    as (_ & Hsold & _).
  destruct (Hsold 0 eq_refl eq_refl) as [Hpnl Hcount].
  split; [reflexivity |]. split.
  - rewrite Hpnl. reflexivity.
  - rewrite Hcount. reflexivity.
Defined.
End MoreBot.

(* --------------------------------------------------------------------- *)
(*  The pipeline over the bot's own strategies                           *)
(* --------------------------------------------------------------------- *)

Section MorePipeline.
Import StrategyManager BotStrategies.

(** What every strategy of a list preserves, the loop preserves. *)
Lemma tryStrategies_preserves {W : Type} (P : W -> Prop)
    (event : WebSocketEvent) (strategies : list (TradingStrategy W)) :
  Forall (fun strategy =>
            forall w, P w ->
              P (shouldTrade strategy event w).2
              /\ P (getTrade strategy event w).2) strategies ->
  forall (index : nat) (w : W),
    P w -> P (final (tryStrategies event index strategies w)).
Proof.
  induction 1 as [| strategy rest Hs _ IH]; intros index w Hw;
    [exact Hw |].
  cbn [tryStrategies].
  destruct (Hs w Hw) as [H1 _].
  destruct (shouldTrade strategy event w) as [[[|] | msg] w1];
    cbn [snd] in H1; cbn [final]; [| apply IH, H1 | apply IH, H1].
  destruct (Hs w1 H1) as [_ H2].
  destruct (getTrade strategy event w1) as [[[tr |] | msg] w2];
    cbn [snd] in H2; cbn [final]; [exact H2 | apply IH, H2 | apply IH, H2].
Qed.

Lemma processEvent_preserves {W : Type} (P : W -> Prop)
    (event : WebSocketEvent) (strategies : list (TradingStrategy W))
    (w : W) :
  Forall (fun strategy =>
            forall w', P w' ->
              P (shouldTrade strategy event w').2
              /\ P (getTrade strategy event w').2) strategies ->
  P w -> P (final (processEvent strategies event w)).
Proof.
  intros Hall Hw. unfold processEvent, getEnabledStrategies.
  apply tryStrategies_preserves; [| exact Hw].
  induction Hall as [| strategy rest Hs _ IH]; cbn [List.filter];
    [constructor |].
  destruct (isEnabled strategy w); [constructor; assumption | exact IH].
Qed.

Lemma sizeAndCheck_state (cfg : Config.t) (clk1 : Clock.t)
    (wallet1 : Wallet.t) (clk2 : Clock.t) (wallet2 : Wallet.t)
    (pf : Portfolio.t) (mint : string) (dflt : Q) (rm : RiskManager.t) :
  (sizeAndCheck cfg clk1 wallet1 clk2 wallet2 pf mint dflt rm).2
  = RiskManager.checkDailyReset clk2 (RiskManager.checkDailyReset clk1 rm).
Proof.
  unfold sizeAndCheck.
  pose proof (getOptimalTradeSize_state cfg clk1 wallet1 pf mint rm) as Hst.
  destruct (RiskManager.getOptimalTradeSize cfg clk1 wallet1 pf mint rm)
    as [optimal rm1].
  cbn [snd] in Hst. subst rm1. unfold RiskManager.checkTrade.
  destruct (negb _); reflexivity.
Qed.

(** A lazy reset keeps the books. *)
Lemma booksKept_reset (w0 w : World) (clk : Clock.t) :
  (noResetDue w0 ->
   (Clock.dateNow clk < RiskManager.dailyResetTimestamp (risk w0))%Z) ->
  booksKept w0 w ->
  booksKept w0 (withRisk (RiskManager.checkDailyReset clk (risk w)) w).
Proof.
  intros Hclk (Hreads & Hledger & Honly & Hquiet).
  split; [exact Hreads |]. split; [exact Hledger |].
  cbn [risk withRisk]. split.
  - unfold RiskManager.checkDailyReset.
    destruct (_ >=? _)%Z; [right; reflexivity | exact Honly].
  - intros Hdue. rewrite (Hquiet Hdue).
    apply checkDailyReset_before, Hclk, Hdue.
Qed.

Lemma booksKept_twice (w0 w : World) :
  booksKept w0 w ->
  booksKept w0
    (withRisk
       (RiskManager.checkDailyReset (checkClock (reads w))
          (RiskManager.checkDailyReset (sizeClock (reads w)) (risk w))) w).
Proof.
  intros Hw. pose proof Hw as (Hreads & _).
  rewrite Hreads.
  apply (booksKept_reset w0 w (sizeClock (reads w0))) in Hw;
    [| intros (H & _); exact H].
  apply (booksKept_reset w0 _ (checkClock (reads w0))) in Hw;
    [| intros (_ & H & _); exact H].
  exact Hw.
Qed.

Lemma booksKept_same_risk (w0 w : World) :
  booksKept w0 w -> booksKept w0 (withRisk (risk w) w).
Proof. intros H. destruct w. exact H. Qed.

(** The three strategies of the bot keep the books. *)
Lemma registerStrategies_keep_books (cfg : Config.t)
    (event : WebSocketEvent) (w0 : World) :
  Forall (fun strategy =>
            forall w, booksKept w0 w ->
              booksKept w0 (shouldTrade strategy event w).2
              /\ booksKept w0 (getTrade strategy event w).2)
    (registerStrategies cfg).
Proof.
  unfold registerStrategies, registerStrategy. cbn [app].
  constructor; [intros w H; split |].
  3: constructor; [intros w H; split |].
  5: constructor; [intros w H; split | constructor].
  - cbn [shouldTrade sniperStrategy].
    destruct (SniperStrategy.shouldTrade _ _ _ _) as [go s].
    destruct w; unfold booksKept in *; cbn [snd reads ledger risk withSniper
      withMomentum withExit] in *; exact H.
  - cbn [getTrade sniperStrategy]. unfold SniperStrategy.getTrade.
    destruct event as [d | d | ty];
      [| apply booksKept_same_risk, H | apply booksKept_same_risk, H].
    pose proof (sizeAndCheck_state cfg (sizeClock (reads w))
                  (sizeWallet (reads w)) (checkClock (reads w))
                  (checkWallet (reads w)) (ledger w) (NewTokenData.mint d)
                  (SniperStrategy.defaultTradeAmount (sniper w)) (risk w))
      as Hst.
    destruct (sizeAndCheck _ _ _ _ _ _ _ _ _) as [[a |] rm1];
      cbn [snd] in *; subst rm1; apply booksKept_twice, H.
  - cbn [shouldTrade momentumStrategy].
    destruct (MomentumStrategy.shouldTrade _ _ _ _) as [answer s].
    destruct w; unfold booksKept in *; cbn [snd reads ledger risk withSniper
      withMomentum withExit] in *; exact H.
  - cbn [getTrade momentumStrategy]. unfold MomentumStrategy.getTrade.
    destruct event as [d | d | ty];
      [apply booksKept_same_risk, H | | apply booksKept_same_risk, H].
    destruct (MomentumStrategy.tokenData (momentum w)
                !! TokenTradeData.mint d) as [data |];
      [| apply booksKept_same_risk, H].
    pose proof (sizeAndCheck_state cfg (sizeClock (reads w))
                  (sizeWallet (reads w)) (checkClock (reads w))
                  (checkWallet (reads w)) (ledger w) (TokenTradeData.mint d)
                  (MomentumStrategy.defaultTradeAmount (momentum w))
                  (risk w)) as Hst.
    destruct (sizeAndCheck _ _ _ _ _ _ _ _ _) as [[a |] rm1];
      cbn [snd] in *; subst rm1.
    + destruct (last _); [destruct (head _) |]; apply booksKept_twice, H.
    + apply booksKept_twice, H.
  - cbn [shouldTrade positionManagementStrategy].
    destruct (PositionManagementStrategy.shouldTrade _ _ _ _) as [go s].
    destruct w; unfold booksKept in *; cbn [snd reads ledger risk withSniper
      withMomentum withExit] in *; exact H.
  - cbn [getTrade positionManagementStrategy].
    unfold PositionManagementStrategy.getTrade.
    destruct event as [d | d | ty];
      [apply booksKept_same_risk, H | | apply booksKept_same_risk, H].
    destruct (PortfolioManager.getOpenPositionForToken _ _);
      [| apply booksKept_same_risk, H].
    unfold RiskManager.checkTrade.
    pose proof H as (Hreads & _).
    destruct (negb (Wallet.hasToken _ _)); cbn [negb RiskCheckResult.allowed
      RiskCheckResult.deny RiskCheckResult.allow snd];
      rewrite Hreads;
      (apply booksKept_reset; [intros (_ & _ & Hc); exact Hc | exact H]).
Qed.

(** X16.  An event that ends without an executed trade books nothing.
    When the strategies come back without a proposal, or the execution
    of their proposal fails, [handleEvent] leaves positions, invested
    total and realized P&L as they were and adds no volume to the daily
    counter: the risk manager is as before, unless one of the checks
    the strategies made on the way found the daily reset due and
    emptied the counter.  The ledger differs from the one before only
    by the refresh of the unrealized P&L from the prices the exit
    strategy has recorded. *)
Theorem X16_nothing_booked_without_execution (cfg : Config.t)
    (out : TradingBot.Outside) (tokenPrices : gmap string Q)
    (event : WebSocketEvent) (w : World) :
  result (processEvent (registerStrategies cfg) event w) = None
  \/ TradingBot.success out = false ->
  let w' := handleEvent cfg out tokenPrices event w in
  ledger w'
  = PositionManagementStrategy.updatePortfolioPnL (exitStrategy w')
      (ledger w)
  /\ Portfolio.positions (ledger w') = Portfolio.positions (ledger w)
  /\ Portfolio.totalInvestedSol (ledger w')
     = Portfolio.totalInvestedSol (ledger w)
  /\ Portfolio.realizedPnl (ledger w') = Portfolio.realizedPnl (ledger w)
  /\ resetOnly (risk w) (risk w')
  /\ (noResetDue w -> risk w' = risk w).
Proof.
  intros Hnone. cbv zeta. unfold handleEvent.
  assert (Hkept : booksKept w
                    (final (processEvent (registerStrategies cfg) event w))).
  { apply processEvent_preserves;
      [apply registerStrategies_keep_books |].
    repeat split; [left; reflexivity]. }
  set (r := processEvent (registerStrategies cfg) event w) in *.
  destruct Hkept as (_ & Hledger & Honly & Hquiet).
  assert (Hsettle :
    TradingBot.settle cfg out (snd <$> result r)
      (Some (exitStrategy (final r)))
      {| TradingBot.portfolio := ledger (final r);
         TradingBot.riskManager := risk (final r);
         TradingBot.tokenPrices := tokenPrices |}
    = {| TradingBot.portfolio :=
           PositionManagementStrategy.updatePortfolioPnL
             (exitStrategy (final r)) (ledger (final r));
         TradingBot.riskManager := risk (final r);
         TradingBot.tokenPrices := tokenPrices |}).
  { unfold TradingBot.settle.
    destruct Hnone as [-> | ->]; [reflexivity |].
    destruct (snd <$> result r); reflexivity. }
  rewrite Hsettle.
  cbn [TradingBot.portfolio TradingBot.riskManager ledger risk exitStrategy
       withLedger withRisk].
  rewrite Hledger. repeat split; assumption.
Qed.

(** The fifth trade of [A]: the momentum strategy proposes a buy, and
    its execution fails. *)
Lemma X16_witness :
  let w := worldBeforeFifthTrade in
  let w' :=
    handleEvent Config.default failedOutside ∅ (tokenTrade fifthTrade) w in
  (result (processEvent (registerStrategies Config.default)
             (tokenTrade fifthTrade) w) = None
   \/ TradingBot.success failedOutside = false)
  /\ Portfolio.positions (ledger w') = Portfolio.positions (ledger w)
  /\ risk w' = risk w.
Proof.
  cbv zeta.
  assert (H : result (processEvent (registerStrategies Config.default)
                        (tokenTrade fifthTrade) worldBeforeFifthTrade)
              = None
              \/ TradingBot.success failedOutside = false)
    by (right; reflexivity).
  split; [exact H |].
  destruct (X16_nothing_booked_without_execution Config.default
              failedOutside ∅ (tokenTrade fifthTrade)
              worldBeforeFifthTrade H) as (_ & Hp & _ & _ & _ & Hr).
  split; [exact Hp |]. apply Hr.
  repeat split.
Defined.

Lemma world_eta (w : World) :
  withSniper (sniper w) w = w
  /\ withMomentum (momentum w) w = w
  /\ withExit (exitStrategy w) w = w.
Proof. destruct w. repeat split. Qed.

(** X20.  An event whose type is neither newToken nor tokenTrade is a
    no-op for the bot's three strategies: whichever of them are
    enabled, [processEvent] returns no proposal, leaves the strategies,
    the ledger and the risk manager exactly as they were, and calls
    [getTrade] of no strategy. *)
Theorem X20_unknown_event_is_no_op (cfg : Config.t) (type : string)
    (w : World) :
  let r := processEvent (registerStrategies cfg) (otherEvent type) w in
  result r = None
  /\ final r = w
  /\ forallb isShouldTradeCall (calls r) = true.
Proof.
  cbv zeta. destruct (world_eta w) as (Hs & Hm & He).
  unfold processEvent, registerStrategies, registerStrategy,
    getEnabledStrategies.
  cbn [app List.filter isEnabled sniperStrategy momentumStrategy
         positionManagementStrategy].
  assert (Hsn : forall w0 : World,
            SniperStrategy.shouldTrade (toLowerCase (reads w0))
              (sniperNow (reads w0))
              (otherEvent type) (sniper w0) = (false, sniper w0))
    by (intros w0; unfold SniperStrategy.shouldTrade;
        destruct (SniperStrategy.isEnabled (sniper w0)); reflexivity).
  assert (Hmo : forall w0 : World,
            MomentumStrategy.shouldTrade (cleanupNow (reads w0))
              (momentumNow (reads w0)) (otherEvent type) (momentum w0)
            = (Returned false, momentum w0))
    by (intros w0; unfold MomentumStrategy.shouldTrade;
        destruct (MomentumStrategy.isEnabled (momentum w0)); reflexivity).
  assert (Hex : forall w0 : World,
            PositionManagementStrategy.shouldTrade (exitNow (reads w0))
              (ledger w0) (otherEvent type) (exitStrategy w0)
            = (false, exitStrategy w0))
    by (intros w0; unfold PositionManagementStrategy.shouldTrade;
        destruct (PositionManagementStrategy.isEnabled (exitStrategy w0));
        reflexivity).
  destruct (SniperStrategy.isEnabled (sniper w));
    destruct (MomentumStrategy.isEnabled (momentum w));
    destruct (PositionManagementStrategy.isEnabled (exitStrategy w));
    cbn [tryStrategies shouldTrade sniperStrategy momentumStrategy
           positionManagementStrategy];
    rewrite ?Hsn, ?Hmo, ?Hex, ?Hs, ?Hm, ?He;
    cbn [tryStrategies shouldTrade sniperStrategy momentumStrategy
           positionManagementStrategy result final calls app];
    rewrite ?Hsn, ?Hmo, ?Hex, ?Hs, ?Hm, ?He;
    cbn [tryStrategies shouldTrade sniperStrategy momentumStrategy
           positionManagementStrategy result final calls app];
    rewrite ?Hsn, ?Hmo, ?Hex, ?Hs, ?Hm, ?He;
    cbn [tryStrategies result final calls app forallb isShouldTradeCall
           andb];
    repeat split.
Qed.

(** X19.  First proposal wins, at the cost of the exit strategy.  In
    the bot's registration order the momentum strategy comes before
    position management, so when the momentum strategy accepts a
    tokenTrade event and comes back with a proposal, [processEvent]
    returns that proposal and the exit strategy is not consulted for
    the event: its state is as before - the price of the trade is not
    recorded and no stop-loss or take-profit test is run on it - even
    when the token has an open position. *)
Theorem X19_momentum_proposal_skips_exit (cfg : Config.t)
    (d : TokenTradeData.t) (w : World) (m1 : MomentumStrategy.t)
    (rm1 : RiskManager.t) (tr : TradeRequest.t) :
  MomentumStrategy.isEnabled (momentum w) = true ->
  MomentumStrategy.shouldTrade (cleanupNow (reads w))
    (momentumNow (reads w)) (tokenTrade d) (momentum w)
  = (Returned true, m1) ->
  MomentumStrategy.getTrade cfg (sizeClock (reads w))
    (sizeWallet (reads w)) (checkClock (reads w)) (checkWallet (reads w))
    (ledger w) (logClock (reads w)) (tokenTrade d) m1 (risk w)
  = (Returned (Some tr), rm1) ->
  let r := processEvent (registerStrategies cfg) (tokenTrade d) w in
  result r = Some (momentumStrategy cfg, tr)
  /\ final r = withRisk rm1 (withMomentum m1 w)
  /\ exitStrategy (final r) = exitStrategy w
  /\ PositionManagementStrategy.currentPrices (exitStrategy (final r))
     = PositionManagementStrategy.currentPrices (exitStrategy w)
  /\ sniper (final r) = sniper w.
Proof.
  intros Hen Hshould Hget. cbv zeta.
  destruct (world_eta w) as (Hs & _ & _).
  assert (Hsn :
    SniperStrategy.shouldTrade (toLowerCase (reads w))
      (sniperNow (reads w)) (tokenTrade d)
      (sniper w) = (false, sniper w))
    by (unfold SniperStrategy.shouldTrade;
        destruct (SniperStrategy.isEnabled (sniper w)); reflexivity).
  assert (Hacc :
    Accepts (tokenTrade d) (momentumStrategy cfg) w tr
      (withRisk rm1 (withMomentum m1 w))).
  { exists (withMomentum m1 w). split.
    - cbn [shouldTrade momentumStrategy]. rewrite Hshould. reflexivity.
    - cbn [getTrade momentumStrategy withMomentum reads ledger momentum
             risk]. rewrite Hget. reflexivity. }
  assert (Hrun :
    exists trace,
      processEvent (registerStrategies cfg) (tokenTrade d) w
      = mkRun (Some (momentumStrategy cfg, tr))
          (withRisk rm1 (withMomentum m1 w)) trace).
  { unfold processEvent, registerStrategies, registerStrategy,
      getEnabledStrategies.
    cbn [app List.filter isEnabled sniperStrategy momentumStrategy
           positionManagementStrategy].
    rewrite Hen.
    destruct (SniperStrategy.isEnabled (sniper w)).
    - exists ((consulted 0 false ++ []) ++ consulted 1 true).
      match goal with
      | |- tryStrategies ?e 0 (?s0 :: ?s1 :: ?post) w = _ =>
          apply (tryStrategies_first_accepts e [s0] 0 s1 post w w
                   (withRisk rm1 (withMomentum m1 w))
                   (consulted 0 false ++ []) tr)
      end; [| exact Hacc].
      econstructor; [| constructor].
      apply AbstainsDeclined. cbn [shouldTrade sniperStrategy].
      rewrite Hsn, Hs. reflexivity.
    - exists ([] ++ consulted 0 true).
      match goal with
      | |- tryStrategies ?e 0 (?s1 :: ?post) w = _ =>
          apply (tryStrategies_first_accepts e [] 0 s1 post w w
                   (withRisk rm1 (withMomentum m1 w)) [] tr)
      end; [constructor | exact Hacc]. }
  destruct Hrun as [trace ->]. cbn [result final].
  repeat split.
Qed.

(** The fifth rising trade of [A] arrives above the take-profit of the
    open position in [A]: the momentum strategy proposes to buy more,
    and the exit strategy never sees the price. *)
Lemma X19_witness :
  let r :=
    processEvent (registerStrategies Config.default)
      (tokenTrade fifthTrade) worldBeforeFifthTrade in
  (TradeRequest.action <$> (snd <$> result r)) = Some buy
  /\ PositionManagementStrategy.currentPrices (exitStrategy (final r))
     = PositionManagementStrategy.currentPrices
         (exitStrategy worldBeforeFifthTrade)
  /\ PositionManagementStrategy.shouldExitPosition
       (PortfolioManager.addPosition 1000 "A" "A" "A" 1 100 100 10 20
          PortfolioManager.empty).1 (TokenTradeData.price fifthTrade)
     = true.
Proof.
  cbv zeta.
  destruct (X19_momentum_proposal_skips_exit Config.default fifthTrade
              worldBeforeFifthTrade
              (MomentumStrategy.shouldTrade (startTime + 5000)
                 (startTime + 5000) (tokenTrade fifthTrade)
                 (momentum worldBeforeFifthTrade)).2
              (RiskManager.new (Clock.at_ startTime))
              (buyRequest Config.default "A" 0.25))
    as (Hres & _ & _ & Hprices & _).
  - reflexivity.
  - vm_compute. reflexivity.
  - vm_compute. reflexivity.
  - rewrite Hres. split; [reflexivity |]. split; [exact Hprices |].
    reflexivity.
Defined.
End MorePipeline.

(* --------------------------------------------------------------------- *)
(*  WebSocketClient                                                      *)
(* --------------------------------------------------------------------- *)

Section MoreClient.
Import WebSocketClient.

Lemma attemptReconnect_bound (maxAttempts : Z) (c : WebSocketClient.t) :
  (0 <= reconnectAttempts c <= Z.max 0 maxAttempts)%Z ->
  (0 <= reconnectAttempts (attemptReconnect maxAttempts c)
     <= Z.max 0 maxAttempts)%Z.
Proof.
  intros H. unfold attemptReconnect.
  destruct (isReconnecting c); cbn [orb]; [exact H|].
  destruct (Z.geb_spec (reconnectAttempts c) maxAttempts);
    cbn [reconnectAttempts]; lia.
Qed.

Lemma setupConnection_bound (sock : Socket) (maxAttempts : Z)
    (c : WebSocketClient.t) :
  (0 <= reconnectAttempts c <= Z.max 0 maxAttempts)%Z ->
  (0 <= reconnectAttempts (setupConnection sock maxAttempts c)
     <= Z.max 0 maxAttempts)%Z.
Proof.
  intros H. unfold setupConnection.
  destruct (ws c || isReconnecting c); [exact H|].
  destruct (constructs sock); [exact H|].
  now apply attemptReconnect_bound.
Qed.

Lemma send_connection (sock : Socket) (c c' : WebSocketClient.t) :
  connection c' = connection c -> send sock c' = send sock c.
Proof. unfold connection, send. intros [= -> _ _ _]. reflexivity. Qed.

Lemma subscribe_connection (c : WebSocketClient.t) (e : ClientEvent)
    (maxAttempts : Z) :
  match e with
  | socketOpened _ _ _ | socketClosed | timerFired _ | callClose => True
  | _ => connection (clientStep maxAttempts c e) = connection c
  end.
Proof.
  destruct e as [| | |s|s|s l|s l|s l|s l|]; try exact I;
    cbn [clientStep];
    unfold subscribeToNewTokens, unsubscribeFromNewTokens,
      subscribeToTokenTrades, unsubscribeFromTokenTrades,
      subscribeToAccountTrades, unsubscribeFromAccountTrades;
    try (destruct l; [reflexivity|]);
    destruct (send s c); reflexivity.
Qed.

Lemma resubscribe_connection (s1 s2 s3 : Socket) (c : WebSocketClient.t) :
  connection (resubscribe s1 s2 s3 c) = connection c.
Proof.
  unfold resubscribe.
  set (c1 := if bool_decide _ then _ else c).
  assert (H1 : connection c1 = connection c).
  { subst c1. destruct (bool_decide _); [|reflexivity].
    exact (subscribe_connection c (callSubscribeNew s1) 0). }
  set (c2 := if (0 <? size (subscribedTokens c1))%nat then _ else c1).
  assert (H2 : connection c2 = connection c1).
  { subst c2. destruct (0 <? _)%nat; [|reflexivity].
    exact (subscribe_connection c1 (callSubscribeTokens s2 _) 0). }
  destruct (0 <? size (subscribedAccounts c2))%nat.
  - rewrite <- H1, <- H2.
    exact (subscribe_connection c2 (callSubscribeAccounts s3 _) 0).
  - congruence.
Qed.

Lemma connection_attempts (c c' : WebSocketClient.t) :
  connection c' = connection c ->
  reconnectAttempts c' = reconnectAttempts c.
Proof. unfold connection. intros [= _ H _ _]. exact H. Qed.

Lemma clientStep_bound (maxAttempts : Z) (c : WebSocketClient.t)
    (e : ClientEvent) :
  (0 <= reconnectAttempts c <= Z.max 0 maxAttempts)%Z ->
  (0 <= reconnectAttempts (clientStep maxAttempts c e)
     <= Z.max 0 maxAttempts)%Z.
Proof.
  intros H.
  pose proof (subscribe_connection c e maxAttempts) as Hc.
  destruct e as [s1 s2 s3| |s|s|s|s l|s l|s l|s l|];
    try (rewrite (connection_attempts _ _ Hc); exact H).
  - cbn [clientStep]. unfold handleOpen.
    rewrite (connection_attempts _ _ (resubscribe_connection s1 s2 s3 _)).
    cbn [reconnectAttempts]. lia.
  - cbn [clientStep]. unfold handleClose.
    apply attemptReconnect_bound. exact H.
  - cbn [clientStep]. unfold reconnectTimerFires.
    apply setupConnection_bound. exact H.
  - exact H.
Qed.

(** X21 (src/api/websocketClient.ts, [attemptReconnect],
    [setupConnection], [handleOpen], [handleClose]): whatever the socket
    does and whichever methods are called after the construction of a
    client, [reconnectAttempts] stays between 0 and
    [maxReconnectAttempts] (0 when that limit is negative); an attempt
    is counted only when none is pending and the limit is not reached,
    and a pending attempt makes [attemptReconnect] and
    [setupConnection] do nothing. *)
Theorem X21_reconnect_attempts_bounded (maxAttempts : Z) (sock : Socket)
    (events : list ClientEvent) (c : WebSocketClient.t) :
  (let c' := fold_left (clientStep maxAttempts) events
               (WebSocketClient.new sock maxAttempts) in
   (0 <= reconnectAttempts c' <= Z.max 0 maxAttempts)%Z)
  /\ (reconnectAttempts (attemptReconnect maxAttempts c)
      = if isReconnecting c || (maxAttempts <=? reconnectAttempts c)%Z
        then reconnectAttempts c else (reconnectAttempts c + 1)%Z)
  /\ (isReconnecting c = true ->
      attemptReconnect maxAttempts c = c
      /\ setupConnection sock maxAttempts c = c).
Proof.
  split; [|split].
  - cbv zeta.
    assert (H0 : (0 <= reconnectAttempts (WebSocketClient.new sock maxAttempts)
                  <= Z.max 0 maxAttempts)%Z).
    { unfold WebSocketClient.new. apply setupConnection_bound.
      cbn [reconnectAttempts]. lia. }
    revert H0. generalize (WebSocketClient.new sock maxAttempts) as c0.
    induction events as [|e events IH]; intros c0 H0; [exact H0|].
    cbn [fold_left]. apply IH. now apply clientStep_bound.
  - unfold attemptReconnect. rewrite Z.geb_leb.
    destruct (isReconnecting c || _); reflexivity.
  - intros H. unfold setupConnection, attemptReconnect. rewrite H.
    rewrite orb_true_r. split; reflexivity.
Qed.

(** X22 (src/api/websocketClient.ts, [handleOpen], [resubscribe]): when
    the socket opens, the client resets [reconnectAttempts] to 0 and
    sends its subscriptions again; whatever becomes of the three sends,
    the three subscription sets and the other connection fields are
    the same as before. *)
Theorem X22_resubscribe_keeps_subscriptions (sock1 sock2 sock3 : Socket)
    (c : WebSocketClient.t) :
  let c' := handleOpen sock1 sock2 sock3 c in
  subscriptions c' = subscriptions c
  /\ connection c' = (ws c, 0%Z, reconnectTimer c, isReconnecting c).
Proof.
  cbv zeta. split.
  2:{ unfold handleOpen. rewrite resubscribe_connection. reflexivity. }
  unfold handleOpen.
  set (c0 := {| ws := ws c; reconnectAttempts := 0 |}).
  change (subscriptions c) with (subscriptions c0).
  generalize c0 as d. clear c0 c. intros d.
  unfold resubscribe.
  set (c1 := if bool_decide _ then _ else d).
  assert (H1 : subscriptions c1 = subscriptions d).
  { subst c1. destruct (bool_decide_reflect
      ("subscribeNewToken"%string ∈ activeSubscriptions d)) as [Hin|];
      [|reflexivity].
    unfold subscribeToNewTokens. destruct (send sock1 d); [|reflexivity].
    unfold subscriptions.
    cbn [activeSubscriptions subscribedTokens subscribedAccounts
         withSubscriptions snd].
    f_equal. f_equal.
    apply subseteq_union_1_L, singleton_subseteq_l, Hin. }
  set (c2 := if (0 <? size (subscribedTokens c1))%nat then _ else c1).
  assert (H2 : subscriptions c2 = subscriptions c1).
  { subst c2. destruct (0 <? size (subscribedTokens c1))%nat;
      [|reflexivity].
    unfold subscribeToTokenTrades.
    destruct (elements (subscribedTokens c1)) eqn:El; [reflexivity|].
    destruct (send sock2 c1); [|reflexivity]. rewrite <- El.
    unfold subscriptions.
    cbn [activeSubscriptions subscribedTokens subscribedAccounts
         withSubscriptions snd].
    f_equal. f_equal.
    rewrite list_to_set_elements_L. apply union_idemp_L. }
  rewrite <- H1, <- H2.
  destruct (0 <? size (subscribedAccounts c2))%nat; [|reflexivity].
  unfold subscribeToAccountTrades.
  destruct (elements (subscribedAccounts c2)) eqn:El; [reflexivity|].
  destruct (send sock3 c2); [|reflexivity]. rewrite <- El.
  unfold subscriptions.
  cbn [activeSubscriptions subscribedTokens subscribedAccounts
       withSubscriptions snd].
  f_equal.
  rewrite list_to_set_elements_L. apply union_idemp_L.
Qed.

(** X23 (src/api/websocketClient.ts, [send], [subscribeToTokenTrades],
    [unsubscribeFromTokenTrades]): a subscription call reports success
    exactly when the list is not empty, a socket is held, it is open and
    the send does not throw; a call that reports failure changes
    nothing, one that succeeds changes only [subscribedTokens]; and an
    unsubscription that succeeds after a subscription of the same mints
    also drops those of them that were subscribed before. *)
Theorem X23_subscription_bookkeeping (sock sock' : Socket)
    (mints : list string) (c : WebSocketClient.t) :
  let r := subscribeToTokenTrades sock mints c in
  let u := unsubscribeFromTokenTrades sock' mints r.2 in
  r.1 = negb (bool_decide (mints = [])) && ws c && isOpen sock
        && sends sock
  /\ (if r.1
      then subscribedTokens r.2 = list_to_set mints ∪ subscribedTokens c
           /\ activeSubscriptions r.2 = activeSubscriptions c
           /\ subscribedAccounts r.2 = subscribedAccounts c
      else r.2 = c)
  /\ connection r.2 = connection c
  /\ (if r.1 && u.1
      then subscribedTokens u.2 = subscribedTokens c ∖ list_to_set mints
      else True).
Proof.
  cbv zeta. unfold subscribeToTokenTrades, unsubscribeFromTokenTrades.
  destruct mints as [|m mints].
  { rewrite bool_decide_eq_true_2 by reflexivity.
    cbn [fst snd negb andb]. repeat split. }
  rewrite bool_decide_eq_false_2 by discriminate. cbn [negb andb].
  assert (Hsend : send sock c = ws c && isOpen sock && sends sock).
  { unfold send. destruct (ws c), (isOpen sock); reflexivity. }
  rewrite <- Hsend. destruct (send sock c) eqn:Hs; cbn [fst snd andb].
  2:{ repeat split. }
  split; [reflexivity|]. split; [repeat split|]. split; [reflexivity|].
  destruct (send sock' _) eqn:Hs'; cbn [fst snd]; [|exact I].
  cbn [subscribedTokens withSubscriptions].
  apply leibniz_equiv. intros x.
  rewrite !elem_of_difference, elem_of_union. tauto.
Qed.

End MoreClient.
